(** * The advanced control scheduler of control.py, and its specification

    A shallow embedding of [src/control/control.py]: the keyframe groups,
    the weight profiles, the per-run controller state of
    [AdvancedControlBase] and the merge of a node's layers with the result
    of the chain before it.

    Python floats are IEEE binary64 numbers: they are Rocq's primitive
    floats, with the same [+], [*], [==] and [<]. Python ints are [Z].
    [None] is [None]. An exception is a value of [exn] in the [result]
    monad. *)

From Stdlib Require Import ZArith List Bool Lia Floats Sorted Permutation.
From stdpp Require Import base option list gmap.

Set Warnings "-inexact-float,-register-all".
Local Open Scope Z_scope.

(** ** Python's runtime, as far as the module uses it *)

Module Py.

Inductive exn : Type :=
| IndexError
| KeyError
| AttributeError
| TypeError
| ZeroDivisionError
| OverflowError.

Inductive result (A : Type) : Type :=
| Ok (a : A)
| Raise (e : exn).
Arguments Ok {A} a.
Arguments Raise {A} e.

Definition bind {A B : Type} (m : result A) (f : A -> result B) : result B :=
  match m with
  | Ok a => f a
  | Raise e => Raise e
  end.

Definition lift {A B : Type} (f : A -> B) (m : result A) : result B :=
  bind m (fun a => Ok (f a)).

Definition returns {A : Type} (m : result A) : bool :=
  match m with
  | Ok _ => true
  | Raise _ => false
  end.

(** [for x in xs: acc = body(acc, x)], where the body may raise. *)
Fixpoint for_each {A S : Type} (body : S -> A -> result S) (xs : list A) (acc : S)
  : result S :=
  match xs with
  | [] => Ok acc
  | x :: xs' => bind (body acc x) (for_each body xs')
  end.

(** [[f(x) for x in xs]], where [f] may raise. *)
Fixpoint comprehension {A B : Type} (f : A -> result B) (xs : list A)
  : result (list B) :=
  match xs with
  | [] => Ok []
  | x :: xs' =>
      bind (f x) (fun y => bind (comprehension f xs') (fun ys => Ok (y :: ys)))
  end.

(** [range(n)] and [range(a, b)]. *)
Definition range (n : nat) : list Z := map Z.of_nat (seq 0 n).
Definition range_from (a b : Z) : list Z :=
  map (fun k => a + Z.of_nat k) (seq 0 (Z.to_nat (b - a))).

(** [enumerate(l)], which is also [for i in range(len(l))] with [l[i]]. *)
Definition enumerate {A : Type} (l : list A) : list (nat * A) :=
  imap (fun i a => (i, a)) l.

(** [len(l)]. *)
Definition len {A : Type} (l : list A) : Z := Z.of_nat (length l).

(** The position a sequence index stands for: [i] itself when
    [0 <= i < len], [len + i] when [-len <= i < 0], none otherwise. *)
Definition position (n : Z) (i : Z) : option nat :=
  if (0 <=? i) && (i <? n) then Some (Z.to_nat i)
  else if (- n <=? i) && (i <? 0) then Some (Z.to_nat (n + i))
  else None.

(** [l[i]]: raises [IndexError] out of range. *)
Definition getitem {A : Type} (l : list A) (i : Z) : result A :=
  match position (len l) i with
  | Some p =>
      match l !! p with
      | Some a => Ok a
      | None => Raise IndexError
      end
  | None => Raise IndexError
  end.

(** [l[i] = a]: raises [IndexError] out of range. *)
Definition setitem {A : Type} (l : list A) (i : Z) (a : A) : result (list A) :=
  match position (len l) i with
  | Some p => Ok (<[p := a]> l)
  | None => Raise IndexError
  end.

End Py.

Notation "'do' x <- m ; k" := (Py.bind m (fun x => k))
  (at level 10, x name, m at level 100, k at level 200).

(** ** Keyframe lists

    Both keyframe groups hold one Python list, [keyframes], and treat it
    the same way; [E] is the entry, [key] the attribute it is ordered by,
    [eqb] and [ltb] Python's [==] and [<] on that attribute. *)

Module KeyframeList.
Section Generic.

Context {E K : Type} (key : E -> K) (eqb ltb : K -> K -> bool).

(** The loop of [add]: the first index [i], counted from [i0], with
    [keyframes[i].key == keyframe.key]. *)
Fixpoint find_key (k : K) (keyframes : list E) (i0 : nat) : option nat :=
  match keyframes with
  | [] => None
  | e :: rest => if eqb (key e) k then Some i0 else find_key k rest (S i0)
  end.

(** [add] before the sort: replace the entry found, else append. *)
Definition replace_or_append (keyframe : E) (keyframes : list E) : list E :=
  match find_key (key keyframe) keyframes 0 with
  | Some i => <[i := keyframe]> keyframes
  | None => keyframes ++ [keyframe]
  end.

(** [keyframes.sort(key=...)]. Python's sort is stable and compares keys
    with [<] alone; on keys that [<] orders totally every stable sort
    returns the same list, the one built here by insertion from the right. *)
Fixpoint insert_by_key (e : E) (sorted : list E) : list E :=
  match sorted with
  | [] => [e]
  | e' :: rest =>
      if ltb (key e') (key e) then e' :: insert_by_key e rest
      else e :: e' :: rest
  end.

Definition sort_by_key (keyframes : list E) : list E :=
  foldr insert_by_key [] keyframes.

Definition add (keyframe : E) (keyframes : list E) : list E :=
  sort_by_key (replace_or_append keyframe keyframes).

(** Whether some entry has the key [k], under [==]. *)
Definition contains_key (k : K) (keyframes : list E) : bool :=
  existsb (fun e => eqb (key e) k) keyframes.

(** [get_index]: [keyframes[index]], with [IndexError] turned into [None]. *)
Definition get_index (keyframes : list E) (index : Z) : Py.result (option E) :=
  match Py.getitem keyframes index with
  | Py.Ok e => Py.Ok (Some e)
  | Py.Raise Py.IndexError => Py.Ok None
  | Py.Raise e => Py.Raise e
  end.

(** [clone], from the list [seed] the constructor starts the new group
    with. *)
Definition clone (seed : list E) (keyframes : list E) : list E :=
  fold_left (fun cloned tk => add tk cloned) keyframes seed.

(** [has_index] and [is_empty]. *)
Definition has_index (keyframes : list E) (index : Z) : bool :=
  (0 <=? index) && (index <? Py.len keyframes).

Definition is_empty (keyframes : list E) : bool :=
  Py.len keyframes =? 0.

End Generic.
End KeyframeList.

(** ** Tensors

    The neural sub-models and torch's kernels are outside this module.
    A tensor is the list of its entries along dimension 0 (a [Slot] is
    [x[k]]); what torch does inside a slot is an operation of the class. *)

Class Torch : Type := {
  Slot : Type;
  Mask : Type;
  DType : Type;
  (** [x.dtype != output_dtype], negated *)
  dtype_eqb : DType -> DType -> bool;
  (** [x[k] * s] for a Python float [s] *)
  slot_mul : Slot -> float -> Slot;
  (** [x.dtype] and [x.to(dtype)] *)
  tensor_dtype : list Slot -> DType;
  tensor_to : list Slot -> DType -> list Slot;
  (** [o += prev_val] *)
  tensor_add : list Slot -> list Slot -> list Slot;
  (** [x[:] * prepare_mask_batch(mask, x.shape)] *)
  tensor_mul_mask : list Slot -> Mask -> list Slot;
  (** [torch.mean(x, dim=(2, 3), keepdim=True).repeat(1, 1, x.shape[2], x.shape[3])] *)
  tensor_mean_pool : list Slot -> list Slot
}.

Definition Tensor `{Torch} : Type := list Slot.

(** [x *= s] and [x[:] *= s]: every slot times the Python float [s]. *)
Definition tensor_scale `{Torch} (x : Tensor) (s : float) : Tensor :=
  map (fun slot => slot_mul slot s) x.

(** Python's [**] on two floats is the C library's [pow]; it raises
    [OverflowError] when the result is out of range. *)
Class Libm : Type := {
  float_pow : float -> float -> Py.result float
}.

(** [float(n)] for the small non-negative ints the module converts. *)
Definition float_of_int (n : Z) : float :=
  PrimFloat.of_uint63 (Uint63.of_Z n).

(** ** Weight profiles *)

Module ControlWeightType.

Inductive t : Type :=
| DEFAULT
| UNIVERSAL
| T2IADAPTER
| CONTROLNET
| CONTROLLORA
| CONTROLLLLITE.

Definition eqb (a b : t) : bool :=
  match a, b with
  | DEFAULT, DEFAULT | UNIVERSAL, UNIVERSAL | T2IADAPTER, T2IADAPTER
  | CONTROLNET, CONTROLNET | CONTROLLORA, CONTROLLORA
  | CONTROLLLLITE, CONTROLLLLITE => true
  | _, _ => false
  end.

End ControlWeightType.

Module ControlWeights.
Section WithTorch.
Context `{Torch}.

Record t : Type := {
  weight_type : ControlWeightType.t;
  base_multiplier : float;
  flip_weights : bool;
  weights : option (list float);
  weight_mask : option Mask
}.

(** [__init__]: the list given is reversed when [flip_weights] is set. *)
Definition init (weight_type : ControlWeightType.t) (base_multiplier : float)
    (flip_weights : bool) (weights : option (list float))
    (weight_mask : option Mask) : t :=
  {| weight_type := weight_type;
     base_multiplier := base_multiplier;
     flip_weights := flip_weights;
     weights := if flip_weights then option_map (@rev float) weights else weights;
     weight_mask := weight_mask |}.

(** [get(idx, shape)]; the branch on [weight_mask] is [pass]. *)
Definition get (self : t) (idx : Z) : Py.result float :=
  match weights self with
  | Some ws => Py.getitem ws idx
  | None => Py.Ok 1%float
  end.

Definition default : t :=
  init ControlWeightType.DEFAULT 1 false None None.

Definition universal (base_multiplier : float) (flip_weights : bool) : t :=
  init ControlWeightType.UNIVERSAL base_multiplier flip_weights None None.

Definition ones (n : nat) : list float := repeat 1%float n.

Definition t2iadapter (weights : option (list float)) (flip_weights : bool) : t :=
  init ControlWeightType.T2IADAPTER 1 flip_weights
    (Some (from_option id (ones 12) weights)) None.

Definition controlnet (weights : option (list float)) (flip_weights : bool) : t :=
  init ControlWeightType.CONTROLNET 1 flip_weights
    (Some (from_option id (ones 13) weights)) None.

Definition controllora (weights : option (list float)) (flip_weights : bool) : t :=
  init ControlWeightType.CONTROLLORA 1 flip_weights
    (Some (from_option id (ones 10) weights)) None.

Definition controllllite (weights : option (list float)) (flip_weights : bool) : t :=
  init ControlWeightType.CONTROLLLLITE 1 flip_weights
    (Some (from_option id (ones 200) weights)) None.

End WithTorch.
End ControlWeights.

(** ** Latent keyframes *)

Module LatentKeyframe.

Record t : Type := {
  batch_index : Z;
  strength : float
}.

End LatentKeyframe.

(** The group object has one field, the list [keyframes]. *)
Module LatentKeyframeGroup.

Definition t : Type := list LatentKeyframe.t.

Definition init : t := [].

Definition add (keyframe : LatentKeyframe.t) (self : t) : t :=
  KeyframeList.add LatentKeyframe.batch_index Z.eqb Z.ltb keyframe self.

Definition get_index (self : t) (index : Z) : Py.result (option LatentKeyframe.t) :=
  KeyframeList.get_index self index.

Definition clone (self : t) : t :=
  KeyframeList.clone LatentKeyframe.batch_index Z.eqb Z.ltb init self.

End LatentKeyframeGroup.

(** ** Timestep keyframes *)

Module StrengthInterpolation.

Inductive t : Type :=
| LINEAR
| EASE_IN
| EASE_OUT
| EASE_IN_OUT
| NONE.

End StrengthInterpolation.

Module TimestepKeyframe.
Section WithTorch.
Context `{Torch}.

Record t : Type := {
  start_percent : float;
  start_t : float;
  strength : float;
  interpolation : StrengthInterpolation.t;
  control_weights : option ControlWeights.t;
  latent_keyframes : option LatentKeyframeGroup.t;
  null_latent_kf_strength : float;
  inherit_missing : bool;
  guarantee_usage : bool;
  mask_hint_orig : option Mask
}.

(** [__init__]: [start_t] starts at [999999999.9] whatever is given. *)
Definition init (start_percent strength : float)
    (interpolation : StrengthInterpolation.t)
    (control_weights : option ControlWeights.t)
    (latent_keyframes : option LatentKeyframeGroup.t)
    (null_latent_kf_strength : float) (inherit_missing guarantee_usage : bool)
    (mask_hint_orig : option Mask) : t :=
  {| start_percent := start_percent;
     start_t := 999999999.9;
     strength := strength;
     interpolation := interpolation;
     control_weights := control_weights;
     latent_keyframes := latent_keyframes;
     null_latent_kf_strength := null_latent_kf_strength;
     inherit_missing := inherit_missing;
     guarantee_usage := guarantee_usage;
     mask_hint_orig := mask_hint_orig |}.

Definition has_control_weights (self : t) : bool :=
  match control_weights self with Some _ => true | None => false end.

Definition has_latent_keyframes (self : t) : bool :=
  match latent_keyframes self with Some _ => true | None => false end.

Definition has_mask_hint (self : t) : bool :=
  match mask_hint_orig self with Some _ => true | None => false end.

(** [cls(0.0)]: every other argument at its default. *)
Definition default : t :=
  init 0 1 StrengthInterpolation.NONE None None 0 true true None.

End WithTorch.
End TimestepKeyframe.

Module TimestepKeyframeGroup.
Section WithTorch.
Context `{Torch}.

Definition t : Type := list TimestepKeyframe.t.

(** [__init__] seeds the list with the default keyframe. *)
Definition init : t := [TimestepKeyframe.default].

Definition add (keyframe : TimestepKeyframe.t) (self : t) : t :=
  KeyframeList.add TimestepKeyframe.start_percent PrimFloat.eqb PrimFloat.ltb
    keyframe self.

Definition get_index (self : t) (index : Z)
  : Py.result (option TimestepKeyframe.t) :=
  KeyframeList.get_index self index.

Definition has_index (self : t) (index : Z) : bool :=
  KeyframeList.has_index self index.

Definition clone (self : t) : t :=
  KeyframeList.clone TimestepKeyframe.start_percent PrimFloat.eqb PrimFloat.ltb
    init self.

(** [default(keyframe)]: a new group whose seed entry is replaced. *)
Definition default (keyframe : TimestepKeyframe.t) : t :=
  <[0%nat := keyframe]> init.

End WithTorch.
End TimestepKeyframeGroup.

(** ** The per-run controller *)

(** The classes that extend [AdvancedControlBase]. *)
Module Variant.

Inductive t : Type :=
| ControlNetAdvanced
| T2IAdapterAdvanced
| ControlLoraAdvanced
| ControlLLLiteAdvanced.

End Variant.

(** [get_properly_arranged_t2i_weights]. *)
Definition get_properly_arranged_t2i_weights (initial_weights : list float)
  : Py.result (list float) :=
  do w0 <- Py.getitem initial_weights 0;
  do w1 <- Py.getitem initial_weights 1;
  do w2 <- Py.getitem initial_weights 2;
  do w3 <- Py.getitem initial_weights 3;
  Py.Ok (repeat w0 3 ++ repeat w1 3 ++ repeat w2 3 ++ repeat w3 3).

(** The result of a merge: the dict with keys ['input'], ['middle'] and
    ['output']. *)
Module ControlOut.
Section WithTorch.
Context `{Torch}.

Record t : Type := {
  input : list (option Tensor);
  middle : list (option Tensor);
  output : list (option Tensor)
}.

End WithTorch.
End ControlOut.

Module AdvancedControlBase.
Section WithTorch.
Context `{Torch} `{Libm}.

(** The attributes of a control node that the scheduler reads or writes:
    those [__init__] sets, [strength] and [global_average_pooling] of the
    class it is mixed into, and the subclass the node is an instance of. *)
Record state : Type := {
  variant : Variant.t;
  strength : float;
  global_average_pooling : bool;
  mask_cond_hint_original : option Mask;
  mask_cond_hint : option Mask;
  tk_mask_cond_hint_original : option Mask;
  tk_mask_cond_hint : option Mask;
  weight_mask_cond_hint : option Mask;
  sub_idxs : option (list Z);
  full_latent_length : Z;
  context_length : Z;
  t : option (list float);
  batched_number : option Z;
  weights : option ControlWeights.t;
  weights_default : ControlWeights.t;
  weights_override : option ControlWeights.t;
  latent_keyframes : option LatentKeyframeGroup.t;
  latent_keyframe_override : option LatentKeyframeGroup.t;
  timestep_keyframes : TimestepKeyframeGroup.t;
  current_timestep_keyframe : option TimestepKeyframe.t;
  current_timestep_index : Z;
  next_timestep_keyframe : option TimestepKeyframe.t
}.

(** Assignments to one attribute. *)
Definition set_t (v : option (list float)) (self : state) : state :=
  {| variant := variant self; strength := strength self;
     global_average_pooling := global_average_pooling self;
     mask_cond_hint_original := mask_cond_hint_original self;
     mask_cond_hint := mask_cond_hint self;
     tk_mask_cond_hint_original := tk_mask_cond_hint_original self;
     tk_mask_cond_hint := tk_mask_cond_hint self;
     weight_mask_cond_hint := weight_mask_cond_hint self;
     sub_idxs := sub_idxs self; full_latent_length := full_latent_length self;
     context_length := context_length self;
     t := v;
     batched_number := batched_number self;
     weights := weights self; weights_default := weights_default self;
     weights_override := weights_override self;
     latent_keyframes := latent_keyframes self;
     latent_keyframe_override := latent_keyframe_override self;
     timestep_keyframes := timestep_keyframes self;
     current_timestep_keyframe := current_timestep_keyframe self;
     current_timestep_index := current_timestep_index self;
     next_timestep_keyframe := next_timestep_keyframe self |}.

Definition set_batched_number (v : option Z) (self : state) : state :=
  {| variant := variant self; strength := strength self;
     global_average_pooling := global_average_pooling self;
     mask_cond_hint_original := mask_cond_hint_original self;
     mask_cond_hint := mask_cond_hint self;
     tk_mask_cond_hint_original := tk_mask_cond_hint_original self;
     tk_mask_cond_hint := tk_mask_cond_hint self;
     weight_mask_cond_hint := weight_mask_cond_hint self;
     sub_idxs := sub_idxs self; full_latent_length := full_latent_length self;
     context_length := context_length self;
     t := t self;
     batched_number := v;
     weights := weights self; weights_default := weights_default self;
     weights_override := weights_override self;
     latent_keyframes := latent_keyframes self;
     latent_keyframe_override := latent_keyframe_override self;
     timestep_keyframes := timestep_keyframes self;
     current_timestep_keyframe := current_timestep_keyframe self;
     current_timestep_index := current_timestep_index self;
     next_timestep_keyframe := next_timestep_keyframe self |}.

Definition set_weights (v : option ControlWeights.t) (self : state) : state :=
  {| variant := variant self; strength := strength self;
     global_average_pooling := global_average_pooling self;
     mask_cond_hint_original := mask_cond_hint_original self;
     mask_cond_hint := mask_cond_hint self;
     tk_mask_cond_hint_original := tk_mask_cond_hint_original self;
     tk_mask_cond_hint := tk_mask_cond_hint self;
     weight_mask_cond_hint := weight_mask_cond_hint self;
     sub_idxs := sub_idxs self; full_latent_length := full_latent_length self;
     context_length := context_length self;
     t := t self;
     batched_number := batched_number self;
     weights := v; weights_default := weights_default self;
     weights_override := weights_override self;
     latent_keyframes := latent_keyframes self;
     latent_keyframe_override := latent_keyframe_override self;
     timestep_keyframes := timestep_keyframes self;
     current_timestep_keyframe := current_timestep_keyframe self;
     current_timestep_index := current_timestep_index self;
     next_timestep_keyframe := next_timestep_keyframe self |}.

Definition set_latent_keyframes (v : option LatentKeyframeGroup.t) (self : state)
  : state :=
  {| variant := variant self; strength := strength self;
     global_average_pooling := global_average_pooling self;
     mask_cond_hint_original := mask_cond_hint_original self;
     mask_cond_hint := mask_cond_hint self;
     tk_mask_cond_hint_original := tk_mask_cond_hint_original self;
     tk_mask_cond_hint := tk_mask_cond_hint self;
     weight_mask_cond_hint := weight_mask_cond_hint self;
     sub_idxs := sub_idxs self; full_latent_length := full_latent_length self;
     context_length := context_length self;
     t := t self;
     batched_number := batched_number self;
     weights := weights self; weights_default := weights_default self;
     weights_override := weights_override self;
     latent_keyframes := v;
     latent_keyframe_override := latent_keyframe_override self;
     timestep_keyframes := timestep_keyframes self;
     current_timestep_keyframe := current_timestep_keyframe self;
     current_timestep_index := current_timestep_index self;
     next_timestep_keyframe := next_timestep_keyframe self |}.

Definition set_tk_mask_cond_hint_original (v : option Mask) (self : state)
  : state :=
  {| variant := variant self; strength := strength self;
     global_average_pooling := global_average_pooling self;
     mask_cond_hint_original := mask_cond_hint_original self;
     mask_cond_hint := mask_cond_hint self;
     tk_mask_cond_hint_original := v;
     tk_mask_cond_hint := tk_mask_cond_hint self;
     weight_mask_cond_hint := weight_mask_cond_hint self;
     sub_idxs := sub_idxs self; full_latent_length := full_latent_length self;
     context_length := context_length self;
     t := t self;
     batched_number := batched_number self;
     weights := weights self; weights_default := weights_default self;
     weights_override := weights_override self;
     latent_keyframes := latent_keyframes self;
     latent_keyframe_override := latent_keyframe_override self;
     timestep_keyframes := timestep_keyframes self;
     current_timestep_keyframe := current_timestep_keyframe self;
     current_timestep_index := current_timestep_index self;
     next_timestep_keyframe := next_timestep_keyframe self |}.

(** [self.current_timestep_index = i; self.current_timestep_keyframe = tk]. *)
Definition set_current_timestep (i : Z) (tk : option TimestepKeyframe.t)
    (self : state) : state :=
  {| variant := variant self; strength := strength self;
     global_average_pooling := global_average_pooling self;
     mask_cond_hint_original := mask_cond_hint_original self;
     mask_cond_hint := mask_cond_hint self;
     tk_mask_cond_hint_original := tk_mask_cond_hint_original self;
     tk_mask_cond_hint := tk_mask_cond_hint self;
     weight_mask_cond_hint := weight_mask_cond_hint self;
     sub_idxs := sub_idxs self; full_latent_length := full_latent_length self;
     context_length := context_length self;
     t := t self;
     batched_number := batched_number self;
     weights := weights self; weights_default := weights_default self;
     weights_override := weights_override self;
     latent_keyframes := latent_keyframes self;
     latent_keyframe_override := latent_keyframe_override self;
     timestep_keyframes := timestep_keyframes self;
     current_timestep_keyframe := tk;
     current_timestep_index := i;
     next_timestep_keyframe := next_timestep_keyframe self |}.

Definition set_timestep_keyframes_field (v : TimestepKeyframeGroup.t)
    (self : state) : state :=
  {| variant := variant self; strength := strength self;
     global_average_pooling := global_average_pooling self;
     mask_cond_hint_original := mask_cond_hint_original self;
     mask_cond_hint := mask_cond_hint self;
     tk_mask_cond_hint_original := tk_mask_cond_hint_original self;
     tk_mask_cond_hint := tk_mask_cond_hint self;
     weight_mask_cond_hint := weight_mask_cond_hint self;
     sub_idxs := sub_idxs self; full_latent_length := full_latent_length self;
     context_length := context_length self;
     t := t self;
     batched_number := batched_number self;
     weights := weights self; weights_default := weights_default self;
     weights_override := weights_override self;
     latent_keyframes := latent_keyframes self;
     latent_keyframe_override := latent_keyframe_override self;
     timestep_keyframes := v;
     current_timestep_keyframe := current_timestep_keyframe self;
     current_timestep_index := current_timestep_index self;
     next_timestep_keyframe := next_timestep_keyframe self |}.

(** [__init__], with [set_timestep_keyframes] inlined: a group that is
    [None] or empty is replaced by a new one. *)
Definition init (variant : Variant.t) (strength : float)
    (global_average_pooling : bool)
    (timestep_keyframes : option TimestepKeyframeGroup.t)
    (weights_default : ControlWeights.t) : state :=
  {| variant := variant; strength := strength;
     global_average_pooling := global_average_pooling;
     mask_cond_hint_original := None;
     mask_cond_hint := None;
     tk_mask_cond_hint_original := None;
     tk_mask_cond_hint := None;
     weight_mask_cond_hint := None;
     sub_idxs := None; full_latent_length := 0;
     context_length := 0;
     t := None;
     batched_number := None;
     weights := None; weights_default := weights_default;
     weights_override := None;
     latent_keyframes := None;
     latent_keyframe_override := None;
     timestep_keyframes :=
       match timestep_keyframes with
       | Some (tk :: tks) => tk :: tks
       | _ => TimestepKeyframeGroup.init
       end;
     current_timestep_keyframe := None;
     current_timestep_index := -1;
     next_timestep_keyframe := None |}.

(** [cleanup_advanced]. *)
Definition cleanup_advanced (self : state) : state :=
  {| variant := variant self; strength := strength self;
     global_average_pooling := global_average_pooling self;
     mask_cond_hint_original := mask_cond_hint_original self;
     mask_cond_hint := None;
     tk_mask_cond_hint_original := None;
     tk_mask_cond_hint := None;
     weight_mask_cond_hint := None;
     sub_idxs := None; full_latent_length := 0;
     context_length := 0;
     t := None;
     batched_number := None;
     weights := None; weights_default := weights_default self;
     weights_override := weights_override self;
     latent_keyframes := None;
     latent_keyframe_override := latent_keyframe_override self;
     timestep_keyframes := timestep_keyframes self;
     current_timestep_keyframe := None;
     current_timestep_index := -1;
     next_timestep_keyframe := None |}.

(** [pre_run_advanced]: every keyframe's [start_t] from its
    [start_percent], then [cleanup_advanced]. *)
Definition with_start_t (start_t : float) (tk : TimestepKeyframe.t)
  : TimestepKeyframe.t :=
  {| TimestepKeyframe.start_percent := TimestepKeyframe.start_percent tk;
     TimestepKeyframe.start_t := start_t;
     TimestepKeyframe.strength := TimestepKeyframe.strength tk;
     TimestepKeyframe.interpolation := TimestepKeyframe.interpolation tk;
     TimestepKeyframe.control_weights := TimestepKeyframe.control_weights tk;
     TimestepKeyframe.latent_keyframes := TimestepKeyframe.latent_keyframes tk;
     TimestepKeyframe.null_latent_kf_strength :=
       TimestepKeyframe.null_latent_kf_strength tk;
     TimestepKeyframe.inherit_missing := TimestepKeyframe.inherit_missing tk;
     TimestepKeyframe.guarantee_usage := TimestepKeyframe.guarantee_usage tk;
     TimestepKeyframe.mask_hint_orig := TimestepKeyframe.mask_hint_orig tk |}.

Definition pre_run_advanced (percent_to_timestep_function : float -> float)
    (self : state) : state :=
  cleanup_advanced
    (set_timestep_keyframes_field
       (map (fun tk =>
               with_start_t
                 (percent_to_timestep_function (TimestepKeyframe.start_percent tk))
                 tk)
            (timestep_keyframes self))
       self).

(** *** Universal weights *)

(** [[self.weights.base_multiplier ** float(top - i) for i in range(top + 1)]]. *)
Definition raw_universal_weights (base_multiplier : float) (top : nat)
  : Py.result (list float) :=
  Py.comprehension
    (fun i => float_pow base_multiplier (float_of_int (Z.of_nat top - i)))
    (Py.range (S top)).

(** [get_universal_weights] of each class, on [self.weights]. *)
Definition get_universal_weights (v : Variant.t) (weights : ControlWeights.t)
  : Py.result ControlWeights.t :=
  let base_multiplier := ControlWeights.base_multiplier weights in
  let flip_weights := ControlWeights.flip_weights weights in
  match v with
  | Variant.ControlNetAdvanced =>
      do raw_weights <- raw_universal_weights base_multiplier 12;
      Py.Ok (ControlWeights.controlnet (Some raw_weights) flip_weights)
  | Variant.T2IAdapterAdvanced =>
      do raw_weights <- raw_universal_weights base_multiplier 7;
      do w8 <- Py.getitem raw_weights (-8);
      do w3 <- Py.getitem raw_weights (-3);
      do w2 <- Py.getitem raw_weights (-2);
      do w1 <- Py.getitem raw_weights (-1);
      do raw_weights <- get_properly_arranged_t2i_weights [w8; w3; w2; w1];
      Py.Ok (ControlWeights.t2iadapter (Some raw_weights) flip_weights)
  | Variant.ControlLoraAdvanced =>
      do raw_weights <- raw_universal_weights base_multiplier 9;
      Py.Ok (ControlWeights.controllora (Some raw_weights) flip_weights)
  | Variant.ControlLLLiteAdvanced => Py.Ok weights
  end.

(** [prepare_weights]. *)
Definition prepare_weights (self : state) : Py.result state :=
  match weights self with
  | None => Py.Ok (set_weights (Some (weights_default self)) self)
  | Some w =>
      if ControlWeightType.eqb (ControlWeights.weight_type w)
           ControlWeightType.DEFAULT
      then Py.Ok (set_weights (Some (weights_default self)) self)
      else if ControlWeightType.eqb (ControlWeights.weight_type w)
                ControlWeightType.UNIVERSAL
      then do w' <- get_universal_weights (variant self) w;
           Py.Ok (set_weights (Some w') self)
      else Py.Ok self
  end.

(** *** The active timestep keyframe *)

(** The body of the scan once [eval_tk], at index [i], qualifies: it
    becomes the current keyframe, and each of weights, latent keyframes
    and mask is taken from it, reset, or kept. *)
Definition adopt (i : Z) (eval_tk : TimestepKeyframe.t) (self : state) : state :=
  let self := set_current_timestep i (Some eval_tk) self in
  let self :=
    if TimestepKeyframe.has_control_weights eval_tk
    then set_weights (TimestepKeyframe.control_weights eval_tk) self
    else if negb (TimestepKeyframe.inherit_missing eval_tk)
    then set_weights (Some (weights_default self)) self
    else self in
  let self :=
    if TimestepKeyframe.has_latent_keyframes eval_tk
    then set_latent_keyframes (TimestepKeyframe.latent_keyframes eval_tk) self
    else if negb (TimestepKeyframe.inherit_missing eval_tk)
    then set_latent_keyframes None self
    else self in
  if TimestepKeyframe.has_mask_hint eval_tk
  then set_tk_mask_cond_hint_original (TimestepKeyframe.mask_hint_orig eval_tk) self
  else if negb (TimestepKeyframe.inherit_missing eval_tk)
  then set_tk_mask_cond_hint_original None self
  else self.

(** The loop [for i in range(...)] over the indices still to visit, with
    its two [break]s. [eval_tk.start_t >= curr_t] is [curr_t <= start_t]. *)
Fixpoint scan (curr_t : float) (indices : list Z) (self : state)
  : Py.result state :=
  match indices with
  | [] => Py.Ok self
  | i :: rest =>
      do eval_tk <- Py.getitem (timestep_keyframes self) i;
      if (curr_t <=? TimestepKeyframe.start_t eval_tk)%float
      then
        let self := adopt i eval_tk self in
        if TimestepKeyframe.guarantee_usage eval_tk then Py.Ok self
        else scan curr_t rest self
      else Py.Ok self
  end.

(** The overrides applied when the index changed. *)
Definition apply_overrides (self : state) : state :=
  let self :=
    match weights_override self with
    | Some w => set_weights (Some w) self
    | None => self
    end in
  match latent_keyframe_override self with
  | Some g => set_latent_keyframes (Some g) self
  | None => self
  end.

(** [prepare_current_timestep]. The [print] is left out. *)
Definition prepare_current_timestep (t : list float) (batched_number : Z)
    (self : state) : Py.result state :=
  let self := set_batched_number (Some batched_number) (set_t (Some t) self) in
  do curr_t <- Py.getitem t 0;
  let prev_index := current_timestep_index self in
  do self <-
    (if TimestepKeyframeGroup.has_index (timestep_keyframes self)
          (current_timestep_index self + 1)
     then scan curr_t
            (Py.range_from (current_timestep_index self + 1)
               (Py.len (timestep_keyframes self)))
            self
     else Py.Ok self);
  let self :=
    if negb (prev_index =? current_timestep_index self)
    then apply_overrides self else self in
  prepare_weights self.

(** *** Strengths and masks on one layer *)

(** Reading an attribute of an object that may be [None]. *)
Definition attribute {A : Type} (o : option A) : Py.result A :=
  match o with
  | Some a => Py.Ok a
  | None => Py.Raise Py.AttributeError
  end.

(** [x[k] = x[k] * s]. torch indexes a tensor along dimension 0 as Python
    does a list: negative indices count from the end, others raise
    [IndexError]. *)
Definition scale_slot (k : Z) (s : float) (x : Tensor) : Py.result Tensor :=
  do v <- Py.getitem x k;
  Py.setitem x k (slot_mul v s).

(** [for b in range(batched_number): x[(latent_count*b)+index] = ... * s]. *)
Definition scale_in_each_batch (latent_count batched_number index : Z)
    (s : float) (x : Tensor) : Py.result Tensor :=
  Py.for_each (fun x b => scale_slot (latent_count * b + index) s x)
    (Py.range_from 0 batched_number) x.

(** [mapped_indeces]: the dict from an actual index to its place in
    [sub_idxs]. *)
Definition mapped_indeces_of (sub_idxs : list Z) : gmap Z Z :=
  foldl (fun m p => <[p.2 := Z.of_nat p.1]> m) ∅ (Py.enumerate sub_idxs).

(** One turn of the loop over the latent keyframes. *)
Definition latent_keyframe_step (self : state) (latent_count batched_number : Z)
    (mapped_indeces : option (gmap Z Z))
    (acc : Tensor * gset Z) (keyframe : LatentKeyframe.t)
  : Py.result (Tensor * gset Z) :=
  let x := acc.1 in
  let indeces_to_null := acc.2 in
  let real_index := LatentKeyframe.batch_index keyframe in
  let real_index :=
    if real_index <? 0
    then real_index +
         match sub_idxs self with
         | None => latent_count
         | Some _ => full_latent_length self
         end
    else real_index in
  match mapped_indeces with
  | None =>
      let indeces_to_null :=
        if decide (real_index ∈ indeces_to_null)
        then indeces_to_null ∖ {[real_index]} else indeces_to_null in
      do x <- scale_in_each_batch latent_count batched_number real_index
                (LatentKeyframe.strength keyframe) x;
      Py.Ok (x, indeces_to_null)
  | Some mapped =>
      match mapped !! real_index with
      | None => Py.Ok (x, indeces_to_null)
      | Some real_index =>
          if decide (real_index ∈ indeces_to_null)
          then
            do x <- scale_in_each_batch latent_count batched_number real_index
                      (LatentKeyframe.strength keyframe) x;
            Py.Ok (x, indeces_to_null ∖ {[real_index]})
          else Py.Raise Py.KeyError
      end
  end.

(** The branch taken when [self.latent_keyframes] is not [None]. *)
Definition apply_latent_keyframes (self : state)
    (latent_keyframes : LatentKeyframeGroup.t) (x : Tensor)
    (batched_number : option Z) : Py.result Tensor :=
  do batched_number <-
    match batched_number with
    | Some b => Py.Ok b
    | None => Py.Raise Py.TypeError
    end;
  if batched_number =? 0 then Py.Raise Py.ZeroDivisionError
  else
    let latent_count := Py.len x `div` batched_number in
    let indeces_to_null : gset Z := list_to_set (Py.range_from 0 latent_count) in
    let mapped_indeces :=
      match sub_idxs self with
      | Some (i :: idxs) => Some (mapped_indeces_of (i :: idxs))
      | _ => None
      end in
    do acc <- Py.for_each
                (latent_keyframe_step self latent_count batched_number
                   mapped_indeces)
                latent_keyframes (x, indeces_to_null);
    Py.for_each
      (fun x batch_index =>
         Py.for_each
           (fun x b =>
              do tk <- attribute (current_timestep_keyframe self);
              scale_slot (latent_count * b + batch_index)
                (TimestepKeyframe.null_latent_kf_strength tk) x)
           (Py.range_from 0 batched_number) x)
      (elements acc.2) acc.1.

(** [apply_advanced_strengths_and_masks]. The tensor is changed in place;
    the value returned here is its new content. *)
Definition apply_advanced_strengths_and_masks (self : state) (x : Tensor)
    (batched_number : option Z) : Py.result Tensor :=
  do x <-
    match latent_keyframes self with
    | Some g => apply_latent_keyframes self g x batched_number
    | None => Py.Ok x
    end;
  let x :=
    match mask_cond_hint self with
    | Some mask => tensor_mul_mask x mask
    | None => x
    end in
  let x :=
    match tk_mask_cond_hint self with
    | Some mask => tensor_mul_mask x mask
    | None => x
    end in
  do tk <- attribute (current_timestep_keyframe self);
  if negb (TimestepKeyframe.strength tk =? 1)%float
  then Py.Ok (tensor_scale x (TimestepKeyframe.strength tk))
  else Py.Ok x.

(** *** Merging a node's layers with the chain before it *)

(** What the two loops of [control_merge_inject] do to the layer at index
    [i] before they store it; [pool] is [self.global_average_pooling] in
    the second loop, and the first loop has no pooling. *)
Definition rescale_layer (self : state) (pool : bool) (output_dtype : DType)
    (i : nat) (x : option Tensor) : Py.result (option Tensor) :=
  match x with
  | None => Py.Ok None
  | Some x =>
      do x <- apply_advanced_strengths_and_masks self x (batched_number self);
      let x := if pool then tensor_mean_pool x else x in
      do weights <- attribute (weights self);
      do w <- ControlWeights.get weights (Z.of_nat i);
      let x := tensor_scale x (strength self * w)%float in
      Py.Ok (Some (if dtype_eqb (tensor_dtype x) output_dtype then x
                   else tensor_to x output_dtype))
  end.

(** The loop over [control_input]: [out['input'].insert(0, x)]. *)
Definition merge_control_input (self : state) (output_dtype : DType)
    (control_input : list (option Tensor)) : Py.result (list (option Tensor)) :=
  Py.for_each
    (fun out_input p =>
       do x <- rescale_layer self false output_dtype p.1 p.2;
       Py.Ok (x :: out_input))
    (Py.enumerate control_input) [].

(** The loop over [control_output]: the last layer is appended to
    [out['middle']], the others to [out['output']]. The pair is
    [(out['middle'], out['output'])]. *)
Definition merge_control_output (self : state) (output_dtype : DType)
    (control_output : list (option Tensor))
  : Py.result (list (option Tensor) * list (option Tensor)) :=
  Py.for_each
    (fun out p =>
       do x <- rescale_layer self (global_average_pooling self) output_dtype
                 p.1 p.2;
       if Z.of_nat p.1 =? Py.len control_output - 1
       then Py.Ok (out.1 ++ [x], out.2)
       else Py.Ok (out.1, out.2 ++ [x]))
    (Py.enumerate control_output) ([], []).

(** The loop over [control_prev[x]] for one of the three keys, on the list
    [o = out[x]]. *)
Definition merge_previous (o prev : list (option Tensor))
  : list (option Tensor) :=
  foldl
    (fun o p =>
       let i := p.1 in
       let prev_val := p.2 in
       if (length o <=? i)%nat then o ++ [prev_val]
       else
         match prev_val with
         | None => o
         | Some pv =>
             match o !! i with
             | Some (Some ov) => <[i := Some (tensor_add ov pv)]> o
             | _ => <[i := Some pv]> o
             end
         end)
    o (Py.enumerate prev).

(** [control_merge_inject]. *)
Definition control_merge_inject (self : state)
    (control_input control_output : option (list (option Tensor)))
    (control_prev : option ControlOut.t) (output_dtype : DType)
  : Py.result ControlOut.t :=
  do out_input <-
    match control_input with
    | Some layers => merge_control_input self output_dtype layers
    | None => Py.Ok []
    end;
  do out <-
    match control_output with
    | Some layers => merge_control_output self output_dtype layers
    | None => Py.Ok ([], [])
    end;
  match control_prev with
  | Some prev =>
      Py.Ok {| ControlOut.input := merge_previous out_input (ControlOut.input prev);
               ControlOut.middle := merge_previous out.1 (ControlOut.middle prev);
               ControlOut.output := merge_previous out.2 (ControlOut.output prev) |}
  | None =>
      Py.Ok {| ControlOut.input := out_input;
               ControlOut.middle := out.1;
               ControlOut.output := out.2 |}
  end.

(** *** The entry point of a sampling step *)

(** The condition of the [if] in [get_control_inject]; [or] does not read
    the keyframe when the strength of the node is already zero. *)
Definition short_circuit (self : state) : Py.result bool :=
  if (strength self =? 0)%float then Py.Ok true
  else
    do tk <- attribute (current_timestep_keyframe self);
    Py.Ok (TimestepKeyframe.strength tk =? 0)%float.

End WithTorch.
End AdvancedControlBase.

(** ** A chain of control nodes

    [previous_controlnet] links a node to the one before it. The sampler's
    [x_noisy] and [cond] are only handed on, as one value of [Sample].
    What a subclass does once it has the result of the chain before it
    (the forward pass of its control model and the merge) is outside
    this module: it is the operation [run_control_model]. *)

Class ControlModels `{Torch} : Type := {
  Sample : Type;
  run_control_model :
    AdvancedControlBase.state -> option ControlOut.t -> Sample -> list float ->
    Z -> Py.result (option ControlOut.t * AdvancedControlBase.state)
}.

Module ControlChain.
Section WithTorch.
Context `{Torch} `{Libm} `{!ControlModels}.

Inductive control : Type :=
| Control (node : AdvancedControlBase.state)
          (previous_controlnet : option control).

Definition node (c : control) : AdvancedControlBase.state :=
  match c with Control n _ => n end.

Definition previous_controlnet (c : control) : option control :=
  match c with Control _ p => p end.

(** [get_control], which [__init__] binds to [get_control_inject]. It
    returns the result and the chain with the attributes the call wrote.
    [get_control_advanced] is [pass] in the base class, which the LLLite
    class inherits; the T2I class prepares the timestep once more; every
    other one first asks the chain before it. *)
Fixpoint get_control (c : control) (sample : Sample) (t : list float)
    (batched_number : Z) {struct c}
  : Py.result (option ControlOut.t * control) :=
  match c with
  | Control self previous =>
      do self <- AdvancedControlBase.prepare_current_timestep t batched_number self;
      do skip <- AdvancedControlBase.short_circuit self;
      if skip : bool then
        match previous with
        | Some p =>
            do r <- get_control p sample t batched_number;
            Py.Ok (r.1, Control self (Some r.2))
        | None => Py.Ok (None, Control self None)
        end
      else
        match AdvancedControlBase.variant self with
        | Variant.ControlLLLiteAdvanced => Py.Ok (None, Control self previous)
        | Variant.T2IAdapterAdvanced =>
            do self <-
              AdvancedControlBase.prepare_current_timestep t batched_number self;
            match previous with
            | Some p =>
                do r <- get_control p sample t batched_number;
                do out <- run_control_model self r.1 sample t batched_number;
                Py.Ok (out.1, Control out.2 (Some r.2))
            | None =>
                do out <- run_control_model self None sample t batched_number;
                Py.Ok (out.1, Control out.2 None)
            end
        | _ =>
            match previous with
            | Some p =>
                do r <- get_control p sample t batched_number;
                do out <- run_control_model self r.1 sample t batched_number;
                Py.Ok (out.1, Control out.2 (Some r.2))
            | None =>
                do out <- run_control_model self None sample t batched_number;
                Py.Ok (out.1, Control out.2 None)
            end
        end
  end.

(** The result of the chain before [c], as [get_control] of [c] sees it. *)
Definition upstream (c : control) (sample : Sample) (t : list float)
    (batched_number : Z) : Py.result (option ControlOut.t * option control) :=
  match previous_controlnet c with
  | Some p =>
      do r <- get_control p sample t batched_number;
      Py.Ok (r.1, Some r.2)
  | None => Py.Ok (None, None)
  end.

End WithTorch.
End ControlChain.

(** ** Instances for closed examples

    Tensors with one number per slot and a single dtype: the product of a
    slot and a scalar, and the sum of two tensors, are those of floats, and
    the mean of one number is that number. *)

Definition scalar_torch : Torch :=
  {| Slot := float;
     Mask := float;
     DType := unit;
     dtype_eqb := fun _ _ => true;
     slot_mul := PrimFloat.mul;
     tensor_dtype := fun _ => tt;
     tensor_to := fun x _ => x;
     tensor_add := zip_with PrimFloat.add;
     tensor_mul_mask := fun x m => map (fun v => PrimFloat.mul v m) x;
     tensor_mean_pool := fun x => x |}.

(** [m ** e] for an exponent [e] that is one of [0.0], [1.0], ..., by
    repeated multiplication: the value of [pow] whenever these products
    are exact, as they are for the powers of [0.5] below. *)
Fixpoint pow_search (m e : float) (n : Z) (acc : float) (fuel : nat)
  : Py.result float :=
  match fuel with
  | O => Py.Raise Py.OverflowError
  | S fuel' =>
      if (e =? float_of_int n)%float then Py.Ok acc
      else pow_search m e (n + 1) (acc * m)%float fuel'
  end.

Definition exact_libm : Libm :=
  {| float_pow := fun m e => pow_search m e 0 1%float 64 |}.

(** A sub-model with one layer, the constant [1.0], which it puts in
    ['middle'] when the chain before it gave nothing, and which hands on
    the result of the chain before it otherwise. *)
Definition stub_models : @ControlModels scalar_torch :=
  {| Sample := unit;
     run_control_model := fun self control_prev _ _ _ =>
       match control_prev with
       | Some prev => Py.Ok (Some prev, self)
       | None =>
           Py.Ok (Some {| ControlOut.input := [];
                          ControlOut.middle :=
                            [Some ([1%float] : @Tensor scalar_torch)];
                          ControlOut.output := [] |}, self)
       end |}.

(** * Properties *)

(** ** Python's sequences *)

Module PyFacts.

Lemma len_nonneg {A : Type} (l : list A) : 0 <= Py.len l.
Proof. unfold Py.len. lia. Qed.

Lemma position_inside (n i : Z) :
  0 <= i < n -> Py.position n i = Some (Z.to_nat i).
Proof.
  intros Hi. unfold Py.position.
  destruct (Z.leb_spec 0 i), (Z.ltb_spec i n); simpl; try lia. reflexivity.
Qed.

Lemma position_from_end (n i : Z) :
  - n <= i < 0 -> Py.position n i = Some (Z.to_nat (n + i)).
Proof.
  intros Hi. unfold Py.position.
  destruct (Z.leb_spec 0 i); simpl; [lia|].
  destruct (Z.leb_spec (- n) i), (Z.ltb_spec i 0); simpl; try lia. reflexivity.
Qed.

Lemma position_outside (n i : Z) :
  i < - n \/ n <= i -> 0 <= n -> Py.position n i = None.
Proof.
  intros Hi Hn. unfold Py.position.
  destruct (Z.leb_spec 0 i), (Z.ltb_spec i n); simpl; try lia;
    destruct (Z.leb_spec (- n) i), (Z.ltb_spec i 0); simpl; try lia; reflexivity.
Qed.

Lemma position_lt (n i : Z) (p : nat) :
  Py.position n i = Some p -> (Z.of_nat p < n)%Z.
Proof.
  unfold Py.position.
  destruct (Z.leb_spec 0 i), (Z.ltb_spec i n); simpl; intros Hp;
    try (injection Hp as <-; lia);
    destruct (Z.leb_spec (- n) i), (Z.ltb_spec i 0); simpl in Hp;
    try discriminate; injection Hp as <-; lia.
Qed.

Lemma getitem_position {A : Type} (l : list A) (i : Z) (p : nat) :
  Py.position (Py.len l) i = Some p ->
  exists a, l !! p = Some a /\ Py.getitem l i = Py.Ok a.
Proof.
  intros Hp. unfold Py.getitem. rewrite Hp.
  apply position_lt in Hp. unfold Py.len in Hp.
  destruct (lookup_lt_is_Some_2 l p) as [a Ha]; [lia|].
  exists a. rewrite Ha. auto.
Qed.

Lemma getitem_outside {A : Type} (l : list A) (i : Z) :
  i < - Py.len l \/ Py.len l <= i -> Py.getitem l i = Py.Raise Py.IndexError.
Proof.
  intros Hi. unfold Py.getitem.
  rewrite position_outside; auto using len_nonneg.
Qed.

Lemma getitem_raises_IndexError {A : Type} (l : list A) (i : Z) (e : Py.exn) :
  Py.getitem l i = Py.Raise e -> e = Py.IndexError.
Proof.
  unfold Py.getitem.
  destruct (Py.position _ _); [destruct (l !! n)|]; congruence.
Qed.

Lemma getitem_nat {A : Type} (l : list A) (i : nat) (a : A) :
  l !! i = Some a -> Py.getitem l (Z.of_nat i) = Py.Ok a.
Proof.
  intros Ha. unfold Py.getitem.
  pose proof (lookup_lt_Some _ _ _ Ha) as Hlt.
  rewrite position_inside by (unfold Py.len; lia).
  rewrite Nat2Z.id, Ha. reflexivity.
Qed.

End PyFacts.

(** ** Lookups in a keyframe list *)

Module KeyframeListFacts.
Section Generic.

Context {E K : Type} (key : E -> K) (eqb ltb : K -> K -> bool).

Lemma get_index_returns (l : list E) (index : Z) :
  Py.returns (KeyframeList.get_index l index) = true.
Proof.
  unfold KeyframeList.get_index.
  destruct (Py.getitem l index) as [a|e] eqn:Hg; [reflexivity|].
  apply PyFacts.getitem_raises_IndexError in Hg as ->. reflexivity.
Qed.

Lemma get_index_outside (l : list E) (index : Z) :
  index < - Py.len l \/ Py.len l <= index ->
  KeyframeList.get_index l index = Py.Ok None.
Proof.
  intros Hi. unfold KeyframeList.get_index.
  rewrite PyFacts.getitem_outside by assumption. reflexivity.
Qed.

Lemma get_index_from_end (l : list E) (index : Z) :
  - Py.len l <= index < 0 ->
  exists e, l !! Z.to_nat (Py.len l + index) = Some e /\
            KeyframeList.get_index l index = Py.Ok (Some e).
Proof.
  intros Hi. unfold KeyframeList.get_index.
  destruct (PyFacts.getitem_position l index _ (PyFacts.position_from_end _ _ Hi))
    as (e & He & ->).
  eauto.
Qed.

End Generic.
End KeyframeListFacts.

(** ** The order of floats

    [<] and [<=] on floats are specified through [SFcompare]; on floats
    other than NaN it is a total order. *)

Module FloatOrder.

(** A float other than NaN as three integers that compare, one after the
    other, as the floats do. *)
Definition rank (f : spec_float) : Z * Z * Z :=
  match f with
  | S754_nan => (0, 0, 0)
  | S754_zero _ => (0, 0, 0)
  | S754_infinity true => (-2, 0, 0)
  | S754_infinity false => (2, 0, 0)
  | S754_finite true m e => (-1, - e, Zneg m)
  | S754_finite false m e => (1, e, Zpos m)
  end.

Definition rank_cmp (a b : Z * Z * Z) : comparison :=
  match a.1.1 ?= b.1.1 with
  | Eq => match a.1.2 ?= b.1.2 with Eq => a.2 ?= b.2 | c => c end
  | c => c
  end.

Lemma SFcompare_rank (x y : spec_float) :
  x <> S754_nan -> y <> S754_nan ->
  SFcompare x y = Some (rank_cmp (rank x) (rank y)).
Proof.
  intros Hx Hy.
  destruct x as [[]|[]| |[] mx ex], y as [[]|[]| |[] my ey];
    try congruence; try reflexivity; unfold rank_cmp; simpl.
  rewrite Z.compare_opp, (Z.compare_antisym ex ey).
  destruct (ex ?= ey); reflexivity.
Qed.

Lemma rank_cmp_antisym (a b : Z * Z * Z) :
  rank_cmp b a = CompOpp (rank_cmp a b).
Proof.
  destruct a as [[a1 a2] a3], b as [[b1 b2] b3]; unfold rank_cmp; simpl.
  rewrite (Z.compare_antisym a1 b1), (Z.compare_antisym a2 b2),
    (Z.compare_antisym a3 b3).
  destruct (a1 ?= b1), (a2 ?= b2), (a3 ?= b3); reflexivity.
Qed.

Lemma rank_cmp_le_trans (a b c : Z * Z * Z) :
  rank_cmp a b <> Gt -> rank_cmp b c <> Gt -> rank_cmp a c <> Gt.
Proof.
  destruct a as [[a1 a2] a3], b as [[b1 b2] b3], c as [[c1 c2] c3].
  unfold rank_cmp; simpl.
  destruct (Z.compare_spec a1 b1), (Z.compare_spec b1 c1), (Z.compare_spec a1 c1);
    try lia; try congruence;
    destruct (Z.compare_spec a2 b2), (Z.compare_spec b2 c2), (Z.compare_spec a2 c2);
    try lia; try congruence;
    destruct (Z.compare_spec a3 b3), (Z.compare_spec b3 c3), (Z.compare_spec a3 c3);
    try lia; congruence.
Qed.

Lemma not_nan (x : float) : is_nan x = false -> Prim2SF x <> S754_nan.
Proof.
  unfold is_nan. rewrite FloatAxioms.eqb_spec. intros Hx Hn. rewrite Hn in Hx. discriminate.
Qed.

Lemma leb_not_nan (x y : float) :
  (x <=? y)%float = true -> Prim2SF x <> S754_nan /\ Prim2SF y <> S754_nan.
Proof.
  rewrite leb_spec. unfold SFleb.
  destruct (Prim2SF x), (Prim2SF y); simpl; try discriminate; split; congruence.
Qed.

Lemma leb_rank (x y : float) :
  Prim2SF x <> S754_nan -> Prim2SF y <> S754_nan ->
  (x <=? y)%float = true <-> rank_cmp (rank (Prim2SF x)) (rank (Prim2SF y)) <> Gt.
Proof.
  intros Hx Hy. rewrite leb_spec. unfold SFleb.
  rewrite (SFcompare_rank _ _ Hx Hy).
  destruct (rank_cmp _ _); split; congruence.
Qed.

Lemma ltb_rank (x y : float) :
  Prim2SF x <> S754_nan -> Prim2SF y <> S754_nan ->
  (x <? y)%float = true <-> rank_cmp (rank (Prim2SF x)) (rank (Prim2SF y)) = Lt.
Proof.
  intros Hx Hy. rewrite ltb_spec. unfold SFltb.
  rewrite (SFcompare_rank _ _ Hx Hy).
  destruct (rank_cmp _ _); split; congruence.
Qed.

(** [x < y] gives [x <= y], for all floats. *)
Lemma ltb_leb (x y : float) : (x <? y)%float = true -> (x <=? y)%float = true.
Proof.
  rewrite ltb_spec, leb_spec. unfold SFltb, SFleb.
  destruct (SFcompare _ _) as [[]|]; congruence.
Qed.

(** Two floats other than NaN are comparable. *)
Lemma leb_total (x y : float) :
  is_nan x = false -> is_nan y = false ->
  (x <? y)%float = false -> (y <=? x)%float = true.
Proof.
  intros Hx%not_nan Hy%not_nan Hlt.
  apply leb_rank; auto. rewrite rank_cmp_antisym.
  destruct (rank_cmp _ _) eqn:Hc; simpl; try congruence.
  apply ltb_rank in Hc; auto. congruence.
Qed.

Lemma leb_trans (x y z : float) :
  (x <=? y)%float = true -> (y <=? z)%float = true -> (x <=? z)%float = true.
Proof.
  intros Hxy Hyz.
  destruct (leb_not_nan _ _ Hxy) as [Hx Hy], (leb_not_nan _ _ Hyz) as [_ Hz].
  apply leb_rank in Hxy, Hyz; auto. apply leb_rank; auto.
  eapply rank_cmp_le_trans; eauto.
Qed.

(** [x < y] excludes [y < x] and [x == y], for all floats. *)
Lemma ltb_asym (x y : float) : (x <? y)%float = true -> (y <? x)%float = false.
Proof.
  intros Hlt. pose proof Hlt as Hle%ltb_leb.
  destruct (leb_not_nan _ _ Hle) as [Hx Hy].
  apply ltb_rank in Hlt; auto.
  destruct (y <? x)%float eqn:Hyx; [|reflexivity].
  apply ltb_rank in Hyx; auto. rewrite rank_cmp_antisym, Hlt in Hyx. discriminate.
Qed.

Lemma ltb_not_eqb (x y : float) : (x <? y)%float = true -> (y =? x)%float = false.
Proof.
  intros Hlt. pose proof Hlt as Hle%ltb_leb.
  destruct (leb_not_nan _ _ Hle) as [Hx Hy].
  apply ltb_rank in Hlt; auto.
  rewrite FloatAxioms.eqb_spec. unfold SFeqb. rewrite (SFcompare_rank _ _ Hy Hx).
  rewrite rank_cmp_antisym, Hlt. reflexivity.
Qed.

Lemma ltb_neq (x y : float) : (x <? y)%float = true -> (x =? y)%float = false.
Proof.
  rewrite ltb_spec, FloatAxioms.eqb_spec. unfold SFltb, SFeqb.
  destruct (SFcompare _ _) as [[]|]; congruence.
Qed.

End FloatOrder.

(** ** Insert-or-replace and sort *)

Module AddFacts.
Section Generic.

Context {E K : Type} (key : E -> K) (eqb ltb : K -> K -> bool).

Abbreviation find_key := (KeyframeList.find_key key eqb).
Abbreviation replace_or_append := (KeyframeList.replace_or_append key eqb).
Abbreviation insert_by_key := (KeyframeList.insert_by_key key ltb).
Abbreviation sort_by_key := (KeyframeList.sort_by_key key ltb).
Abbreviation add := (KeyframeList.add key eqb ltb).

Lemma insert_by_key_perm (e : E) (l : list E) :
  Permutation (insert_by_key e l) (e :: l).
Proof.
  induction l as [|e' l IH]; simpl; [reflexivity|].
  destruct (ltb (key e') (key e)); [|reflexivity].
  rewrite IH. apply perm_swap.
Qed.

Lemma sort_by_key_perm (l : list E) : Permutation (sort_by_key l) l.
Proof.
  induction l as [|e l IH]; simpl; [reflexivity|].
  rewrite insert_by_key_perm. now constructor.
Qed.

Lemma find_key_Some (k : K) (l : list E) (i0 i : nat) :
  find_key k l i0 = Some i ->
  exists l1 e l2,
    l = l1 ++ e :: l2 /\ i = (i0 + length l1)%nat /\ eqb (key e) k = true /\
    Forall (fun e' => eqb (key e') k = false) l1.
Proof.
  revert i0. induction l as [|e l IH]; simpl; intros i0 Hf; [discriminate|].
  destruct (eqb (key e) k) eqn:He.
  - injection Hf as <-. exists [], e, l. simpl. repeat split; auto with lia.
  - destruct (IH _ Hf) as (l1 & e' & l2 & -> & -> & He' & Hl1).
    exists (e :: l1), e', l2. simpl. repeat split; auto with lia.
Qed.

Lemma find_key_None (k : K) (l : list E) (i0 : nat) :
  find_key k l i0 = None -> Forall (fun e => eqb (key e) k = false) l.
Proof.
  revert i0. induction l as [|e l IH]; simpl; intros i0 Hf; [constructor|].
  destruct (eqb (key e) k) eqn:He; [discriminate|]. constructor; eauto.
Qed.

Lemma find_key_contains (k : K) (l : list E) (i0 : nat) :
  KeyframeList.contains_key key eqb k l = bool_decide (is_Some (find_key k l i0)).
Proof.
  revert i0. induction l as [|e l IH]; simpl; intros i0; [reflexivity|].
  destruct (eqb (key e) k); simpl; [reflexivity|]. apply IH.
Qed.

(** What [add] does before it sorts. *)
Lemma replace_or_append_spec (k : E) (l : list E) :
  if KeyframeList.contains_key key eqb (key k) l
  then exists l1 e l2,
         l = l1 ++ e :: l2 /\ eqb (key e) (key k) = true /\
         Forall (fun e' => eqb (key e') (key k) = false) l1 /\
         replace_or_append k l = l1 ++ k :: l2
  else replace_or_append k l = l ++ [k].
Proof.
  rewrite (find_key_contains _ _ 0). unfold KeyframeList.replace_or_append.
  destruct (find_key (key k) l 0) as [i|] eqn:Hf; simpl.
  - destruct (find_key_Some _ _ _ _ Hf) as (l1 & e & l2 & -> & -> & He & Hl1).
    exists l1, e, l2. repeat split; auto.
    simpl. rewrite insert_app_r_alt by lia.
    replace (length l1 - length l1)%nat with 0%nat by lia. reflexivity.
  - reflexivity.
Qed.

Lemma length_replace_or_append (k : E) (l : list E) :
  length (replace_or_append k l) =
  if KeyframeList.contains_key key eqb (key k) l then length l else S (length l).
Proof.
  pose proof (replace_or_append_spec k l) as Hs.
  destruct (KeyframeList.contains_key _ _ _ _).
  - destruct Hs as (l1 & e & l2 & -> & _ & _ & ->). rewrite !length_app. reflexivity.
  - rewrite Hs, length_app. simpl. lia.
Qed.

Lemma add_perm (k : E) (l : list E) :
  Permutation (add k l) (replace_or_append k l).
Proof. apply sort_by_key_perm. Qed.

Lemma length_add (k : E) (l : list E) :
  length (add k l) =
  if KeyframeList.contains_key key eqb (key k) l then length l else S (length l).
Proof.
  rewrite <- length_replace_or_append. apply Permutation_length, add_perm.
Qed.

(** The sort sorts: [R] is the order [<=] of the keys and [D] the entries
    whose keys [<] compares with every other one. *)
Section Sorted.

Variable R : E -> E -> Prop.
Variable D : E -> Prop.
Hypothesis lt_le : forall a b, ltb (key a) (key b) = true -> R a b.
Hypothesis le_total :
  forall a b, D a -> D b -> ltb (key a) (key b) = false -> R b a.
Hypothesis le_trans : forall a b c, R a b -> R b c -> R a c.

Lemma insert_by_key_sorted (e : E) (l : list E) :
  D e -> Forall D l -> StronglySorted R l -> StronglySorted R (insert_by_key e l).
Proof.
  intros He Hl Hs. induction Hs as [|e' l Hs IH Hall]; simpl.
  - repeat constructor.
  - apply Forall_cons_1 in Hl as [He' Hl].
    destruct (ltb (key e') (key e)) eqn:Hlt.
    + constructor; [auto|].
      rewrite insert_by_key_perm. constructor; auto.
    + constructor; [constructor; auto|].
      assert (R e e') as Hee' by auto.
      constructor; [assumption|].
      eapply Forall_impl; [exact Hall|]. simpl. eauto.
Qed.

Lemma sort_by_key_sorted (l : list E) :
  Forall D l -> StronglySorted R (sort_by_key l).
Proof.
  induction l as [|e l IH]; simpl; intros Hl; [constructor|].
  apply Forall_cons_1 in Hl as [He Hl].
  apply insert_by_key_sorted; auto.
  rewrite sort_by_key_perm. assumption.
Qed.

Lemma add_sorted (k : E) (l : list E) :
  D k -> Forall D l -> StronglySorted R (add k l).
Proof.
  intros Hk Hl. apply sort_by_key_sorted.
  pose proof (replace_or_append_spec k l) as Hs.
  destruct (KeyframeList.contains_key _ _ _ _).
  - destruct Hs as (l1 & e & l2 & -> & _ & _ & ->).
    apply Forall_app in Hl as [Hl1 Hl2]. apply Forall_cons_1 in Hl2 as [_ Hl2].
    apply Forall_app. split; [|constructor]; assumption.
  - rewrite Hs. apply Forall_app. split; [assumption|]. repeat constructor. assumption.
Qed.

End Sorted.

End Generic.
End AddFacts.

(** ** Adding a keyframe to a group *)

(** [l'] is [l] with [k] in the place of the first entry that has the key
    of [k], or with [k] as one more entry when there is none, in some
    order. *)
Definition replaced_or_appended {E K : Type} (key : E -> K)
    (eqb : K -> K -> bool) (k : E) (l l' : list E) : Prop :=
  if KeyframeList.contains_key key eqb (key k) l
  then length l' = length l /\
       exists l1 e l2,
         l = l1 ++ e :: l2 /\ eqb (key e) (key k) = true /\
         Forall (fun e' => eqb (key e') (key k) = false) l1 /\
         Permutation l' (l1 ++ k :: l2)
  else length l' = S (length l) /\ Permutation l' (k :: l).

(** Sorted by [batch_index]. *)
Definition latent_sorted (g : LatentKeyframeGroup.t) : Prop :=
  StronglySorted
    (fun a b => LatentKeyframe.batch_index a <= LatentKeyframe.batch_index b) g.

(** Sorted by [start_percent], under the [<=] of floats. *)
Definition timestep_sorted `{Torch} (g : TimestepKeyframeGroup.t) : Prop :=
  StronglySorted
    (fun a b =>
       (TimestepKeyframe.start_percent a <=? TimestepKeyframe.start_percent b)%float
       = true) g.

(** No [start_percent] is NaN. *)
Definition no_nan_percent `{Torch} (g : TimestepKeyframeGroup.t) : Prop :=
  Forall (fun e => is_nan (TimestepKeyframe.start_percent e) = false) g.

Lemma add_replaced_or_appended {E K : Type} (key : E -> K)
    (eqb ltb : K -> K -> bool) (k : E) (l : list E) :
  replaced_or_appended key eqb k l (KeyframeList.add key eqb ltb k l).
Proof.
  unfold replaced_or_appended.
  pose proof (AddFacts.length_add key eqb ltb k l) as Hlen.
  pose proof (AddFacts.add_perm key eqb ltb k l) as Hperm.
  pose proof (AddFacts.replace_or_append_spec key eqb k l) as Hs.
  destruct (KeyframeList.contains_key _ _ _ _).
  - split; [assumption|].
    destruct Hs as (l1 & e & l2 & Hl & He & Hl1 & Hr).
    exists l1, e, l2. rewrite <- Hr. auto.
  - split; [assumption|].
    rewrite Hperm, Hs. symmetry. apply Permutation_cons_append.
Qed.

(** C9. [add] on a latent group and on a timestep group: when an entry
    already has the key of the keyframe, the length is unchanged and the
    first such entry is replaced by the keyframe; otherwise the length grows
    by one; the latent group is then sorted by [batch_index], and the
    timestep group by [start_percent] when no [start_percent] is NaN. *)
Theorem add_replaces_or_appends_and_sorts `{Torch}
    (lg : LatentKeyframeGroup.t) (lk : LatentKeyframe.t)
    (tg : TimestepKeyframeGroup.t) (tk : TimestepKeyframe.t) :
  replaced_or_appended LatentKeyframe.batch_index Z.eqb lk lg
    (LatentKeyframeGroup.add lk lg) /\
  latent_sorted (LatentKeyframeGroup.add lk lg) /\
  replaced_or_appended TimestepKeyframe.start_percent PrimFloat.eqb tk tg
    (TimestepKeyframeGroup.add tk tg) /\
  (no_nan_percent (tk :: tg) -> timestep_sorted (TimestepKeyframeGroup.add tk tg)).
Proof.
  split; [apply add_replaced_or_appended|].
  split.
  - apply (AddFacts.add_sorted _ _ _ _ (fun _ => True)).
    + intros a b Hlt%Z.ltb_lt. lia.
    + intros a b _ _ Hlt%Z.ltb_ge. lia.
    + intros a b c. lia.
    + exact I.
    + apply Forall_forall. auto.
  - split; [apply add_replaced_or_appended|].
    intros [Hk Hg]%Forall_cons_1.
    apply (AddFacts.add_sorted _ _ _ _
             (fun e => is_nan (TimestepKeyframe.start_percent e) = false)).
    + intros a b. apply FloatOrder.ltb_leb.
    + intros a b Ha Hb. apply FloatOrder.leb_total; assumption.
    + intros a b c. apply FloatOrder.leb_trans.
    + assumption.
    + assumption.
Qed.

(** Keyframes for the closed examples. *)
Module Examples.

Definition latent (batch_index : Z) (strength : float) : LatentKeyframe.t :=
  {| LatentKeyframe.batch_index := batch_index;
     LatentKeyframe.strength := strength |}.

(** [TimestepKeyframe(start_percent, strength)]. *)
Definition timestep (start_percent strength : float)
  : @TimestepKeyframe.t scalar_torch :=
  TimestepKeyframe.init start_percent strength StrengthInterpolation.NONE
    None None 0 true true None.

End Examples.

Lemma add_replaces_or_appends_and_sorts_witness :
  latent_sorted
    (LatentKeyframeGroup.add (Examples.latent 2 1.5)
       [Examples.latent 0 2; Examples.latent 2 0.5]) /\
  timestep_sorted
    (TimestepKeyframeGroup.add (Examples.timestep 0.5 2)
       [Examples.timestep 0 1; Examples.timestep 0.5 1]).
Proof.
  destruct (add_replaces_or_appends_and_sorts
              [Examples.latent 0 2; Examples.latent 2 0.5] (Examples.latent 2 1.5)
              [Examples.timestep 0 1; Examples.timestep 0.5 1]
              (Examples.timestep 0.5 2))
    as (_ & Hl & _ & Ht).
  split; [exact Hl|]. apply Ht. repeat constructor.
Defined.

(** ** Lookups by index *)

(** C10, as the code has it. [get_index] never raises. It returns [None]
    for every index at or above the length and every index below minus the
    length; an index from minus the length up to [-1] counts from the end
    and returns the entry there. *)
Theorem get_index_absent_outside_range `{Torch}
    (lg : LatentKeyframeGroup.t) (tg : TimestepKeyframeGroup.t) (index : Z) :
  Py.returns (LatentKeyframeGroup.get_index lg index) = true /\
  Py.returns (TimestepKeyframeGroup.get_index tg index) = true /\
  (index < - Py.len lg \/ Py.len lg <= index ->
   LatentKeyframeGroup.get_index lg index = Py.Ok None) /\
  (index < - Py.len tg \/ Py.len tg <= index ->
   TimestepKeyframeGroup.get_index tg index = Py.Ok None) /\
  (- Py.len lg <= index < 0 ->
   exists e, lg !! Z.to_nat (Py.len lg + index) = Some e /\
             LatentKeyframeGroup.get_index lg index = Py.Ok (Some e)) /\
  (- Py.len tg <= index < 0 ->
   exists e, tg !! Z.to_nat (Py.len tg + index) = Some e /\
             TimestepKeyframeGroup.get_index tg index = Py.Ok (Some e)).
Proof.
  repeat split.
  - apply KeyframeListFacts.get_index_returns.
  - apply KeyframeListFacts.get_index_returns.
  - apply KeyframeListFacts.get_index_outside.
  - apply KeyframeListFacts.get_index_outside.
  - apply KeyframeListFacts.get_index_from_end.
  - apply KeyframeListFacts.get_index_from_end.
Qed.

Lemma get_index_absent_outside_range_witness :
  LatentKeyframeGroup.get_index [Examples.latent 0 2; Examples.latent 2 0.5] 2
  = Py.Ok None /\
  @TimestepKeyframeGroup.get_index scalar_torch TimestepKeyframeGroup.init (-2)
  = Py.Ok None.
Proof.
  destruct (get_index_absent_outside_range
              [Examples.latent 0 2; Examples.latent 2 0.5]
              (@TimestepKeyframeGroup.init scalar_torch) 2)
    as (_ & _ & Hl & _).
  destruct (get_index_absent_outside_range
              [Examples.latent 0 2; Examples.latent 2 0.5]
              (@TimestepKeyframeGroup.init scalar_torch) (-2))
    as (_ & _ & _ & Ht & _).
  split; [apply Hl | apply Ht]; vm_compute; intuition congruence.
Defined.

(** C10 as stated fails: in a new timestep group, which holds the default
    keyframe, [get_index(-1)] is that keyframe. *)
Lemma get_index_negative_counterexample :
  ~ (forall (tg : @TimestepKeyframeGroup.t scalar_torch) (index : Z),
       index < 0 \/ Py.len tg <= index ->
       TimestepKeyframeGroup.get_index tg index = Py.Ok None).
Proof.
  intros Hc.
  specialize (Hc TimestepKeyframeGroup.init (-1) (or_introl eq_refl)).
  vm_compute in Hc. discriminate.
Qed.

(** ** Universal weights *)

Module PyLoops.

Lemma comprehension_Forall2 {A B : Type} (f : A -> Py.result B)
    (xs : list A) (ys : list B) :
  Py.comprehension f xs = Py.Ok ys <-> Forall2 (fun x y => f x = Py.Ok y) xs ys.
Proof.
  revert ys. induction xs as [|x xs IH]; simpl; intros ys.
  - split.
    + intros [= <-]. constructor.
    + intros ->%Forall2_nil_inv_l. reflexivity.
  - split.
    + destruct (f x) as [y|] eqn:Hy; simpl; [|discriminate].
      destruct (Py.comprehension f xs) as [ys'|] eqn:Hys; simpl; [|discriminate].
      intros [= <-]. constructor; [assumption|]. now apply IH.
    + intros (y & ys' & Hy & Hys & ->)%Forall2_cons_inv_l.
      rewrite Hy. simpl. apply IH in Hys. rewrite Hys. reflexivity.
Qed.

Lemma range_lookup (n i : nat) :
  (i < n)%nat -> Py.range n !! i = Some (Z.of_nat i).
Proof.
  intros Hi. unfold Py.range. rewrite list_lookup_fmap, lookup_seq_lt by lia.
  reflexivity.
Qed.

Lemma length_range (n : nat) : length (Py.range n) = n.
Proof. unfold Py.range. now rewrite length_map, length_seq. Qed.

End PyLoops.

(** C8, as the code has it. [get_universal_weights] of the dense ControlNet
    class: when each power [m ** float(12 - i)] has a value, the weights
    are these thirteen values in the order of [i], and in the reverse order
    when the profile is flipped: the weight at position [i] is
    [m ** float(12 - i)] when [flip_weights] is false and [m ** float(i)]
    when it is true. *)
Theorem controlnet_universal_weights `{Torch} `{Libm}
    (w : ControlWeights.t) (raw : list float) :
  Forall2
    (fun i y =>
       float_pow (ControlWeights.base_multiplier w) (float_of_int (12 - i))
       = Py.Ok y)
    (Py.range 13) raw ->
  exists ws,
    AdvancedControlBase.get_universal_weights Variant.ControlNetAdvanced w
    = Py.Ok ws /\
    ControlWeights.weights ws
    = Some (if ControlWeights.flip_weights w then rev raw else raw) /\
    forall i, 0 <= i < 13 ->
      ControlWeights.get ws i
      = float_pow (ControlWeights.base_multiplier w)
          (float_of_int (if ControlWeights.flip_weights w then i else 12 - i)).
Proof.
  intros Hraw.
  pose proof (Forall2_length _ _ _ Hraw) as Hlen.
  rewrite PyLoops.length_range in Hlen.
  assert (forall n, (n < 13)%nat ->
            exists y, raw !! n = Some y /\
              float_pow (ControlWeights.base_multiplier w)
                (float_of_int (12 - Z.of_nat n)) = Py.Ok y) as Hnth.
  { intros n Hn.
    destruct (Forall2_lookup_l _ _ _ n _ Hraw (PyLoops.range_lookup 13 n Hn))
      as (y & Hy & Hpow).
    eauto. }
  eexists. split; [|split].
  - unfold AdvancedControlBase.get_universal_weights,
      AdvancedControlBase.raw_universal_weights.
    apply PyLoops.comprehension_Forall2 in Hraw.
    change (Z.of_nat 12) with 12. rewrite Hraw. reflexivity.
  - simpl. destruct (ControlWeights.flip_weights w); reflexivity.
  - intros i Hi. unfold ControlWeights.get. simpl.
    destruct (ControlWeights.flip_weights w); simpl.
    + destruct (Hnth (Z.to_nat (12 - i))) as (y & Hy & Hpow); [lia|].
      rewrite Z2Nat.id in Hpow by lia.
      replace (12 - (12 - i)) with i in Hpow by lia. rewrite Hpow.
      replace i with (Z.of_nat (Z.to_nat i)) at 1 by lia.
      apply PyFacts.getitem_nat.
      rewrite rev_alt. change (rev_append raw []) with (reverse raw).
      apply reverse_lookup_Some. split; [|lia].
      replace (length raw - S (Z.to_nat i))%nat with (Z.to_nat (12 - i)) by lia.
      assumption.
    + destruct (Hnth (Z.to_nat i)) as (y & Hy & Hpow); [lia|].
      rewrite Z2Nat.id in Hpow by lia. rewrite Hpow.
      replace i with (Z.of_nat (Z.to_nat i)) at 1 by lia.
      now apply PyFacts.getitem_nat.
Qed.

(** [0.5 ** 12], ..., [0.5 ** 0]. *)
Definition half_powers : list float :=
  [0.000244140625; 0.00048828125; 0.0009765625; 0.001953125; 0.00390625;
   0.0078125; 0.015625; 0.03125; 0.0625; 0.125; 0.25; 0.5; 1]%float.

Lemma controlnet_universal_weights_witness :
  exists ws,
    @AdvancedControlBase.get_universal_weights scalar_torch exact_libm
      Variant.ControlNetAdvanced (ControlWeights.universal 0.5 false)
    = Py.Ok ws /\
    ControlWeights.weights ws = Some half_powers.
Proof.
  destruct (@controlnet_universal_weights scalar_torch exact_libm
              (ControlWeights.universal 0.5 false) half_powers)
    as (ws & Hws & Hweights & _).
  - repeat constructor.
  - exists ws. split; assumption.
Defined.

(** C8 as stated fails for a flipped profile: with [m = 0.5] the weight at
    position [0] is [0.5 ** 0], not [0.5 ** 12]. *)
Lemma universal_weights_flipped_counterexample :
  ~ (forall (w : @ControlWeights.t scalar_torch) (ws : ControlWeights.t) (i : Z),
       @AdvancedControlBase.get_universal_weights scalar_torch exact_libm
         Variant.ControlNetAdvanced w = Py.Ok ws ->
       0 <= i < 13 ->
       ControlWeights.get ws i
       = @float_pow exact_libm (ControlWeights.base_multiplier w)
           (float_of_int (12 - i))).
Proof.
  intros Hc.
  specialize (Hc (ControlWeights.universal 0.5 true) _ 0 eq_refl ltac:(lia)).
  apply (f_equal (fun r => match r with
                           | Py.Ok v => (v =? 1)%float
                           | Py.Raise _ => false
                           end)) in Hc.
  vm_compute in Hc. discriminate.
Qed.

(** ** The active timestep keyframe *)

Module TimestepFacts.
Section WithTorch.
Context `{Torch} `{Libm}.

Import AdvancedControlBase.

Lemma range_from_cons (a b : Z) :
  a < b -> Py.range_from a b = a :: Py.range_from (a + 1) b.
Proof.
  intros Hab. unfold Py.range_from.
  replace (Z.to_nat (b - a)) with (S (Z.to_nat (b - (a + 1)))) by lia.
  simpl. f_equal; [lia|].
  rewrite <- seq_shift, map_map. apply map_ext. intros k. lia.
Qed.

Lemma range_from_bounds (a b i : Z) :
  In i (Py.range_from a b) -> a <= i < b.
Proof.
  unfold Py.range_from. rewrite in_map_iff.
  intros (k & <- & Hk%in_seq). lia.
Qed.

Lemma adopt_timestep_keyframes (i : Z) (tk : TimestepKeyframe.t) (self : state) :
  timestep_keyframes (adopt i tk self) = timestep_keyframes self.
Proof.
  unfold adopt.
  destruct (TimestepKeyframe.has_control_weights tk),
    (TimestepKeyframe.has_latent_keyframes tk),
    (TimestepKeyframe.has_mask_hint tk),
    (TimestepKeyframe.inherit_missing tk); reflexivity.
Qed.

Lemma adopt_index (i : Z) (tk : TimestepKeyframe.t) (self : state) :
  current_timestep_index (adopt i tk self) = i /\
  current_timestep_keyframe (adopt i tk self) = Some tk.
Proof.
  unfold adopt.
  destruct (TimestepKeyframe.has_control_weights tk),
    (TimestepKeyframe.has_latent_keyframes tk),
    (TimestepKeyframe.has_mask_hint tk),
    (TimestepKeyframe.inherit_missing tk); split; reflexivity.
Qed.

(** Over indices of the timeline the scan returns, and the index it leaves
    is the one it started from or one of those it was given. *)
Lemma scan_result (curr_t : float) (indices : list Z) (self : state) :
  Forall (fun i => 0 <= i < Py.len (timestep_keyframes self)) indices ->
  exists self',
    scan curr_t indices self = Py.Ok self' /\
    timestep_keyframes self' = timestep_keyframes self /\
    (current_timestep_index self' = current_timestep_index self \/
     In (current_timestep_index self') indices).
Proof.
  revert self. induction indices as [|i rest IH]; simpl; intros self Hall.
  - eauto.
  - apply Forall_cons_1 in Hall as [Hi Hrest].
    destruct (PyFacts.getitem_position (timestep_keyframes self) i _
                (PyFacts.position_inside _ _ Hi)) as (tk & _ & ->).
    simpl.
    destruct (curr_t <=? TimestepKeyframe.start_t tk)%float; [|eauto].
    destruct (TimestepKeyframe.guarantee_usage tk).
    + eexists. split; [reflexivity|]. split.
      * apply adopt_timestep_keyframes.
      * right. left. symmetry. apply adopt_index.
    + destruct (IH (adopt i tk self)) as (self' & Hscan & Htks & Hidx).
      { now rewrite adopt_timestep_keyframes. }
      exists self'. split; [assumption|]. split.
      * now rewrite Htks, adopt_timestep_keyframes.
      * right. destruct Hidx as [Hidx|Hidx]; [left|right; assumption].
        rewrite Hidx. symmetry. apply adopt_index.
Qed.

Lemma apply_overrides_index (self : state) :
  current_timestep_index (apply_overrides self) = current_timestep_index self.
Proof.
  unfold apply_overrides.
  destruct (weights_override self); cbn;
    destruct (latent_keyframe_override self); reflexivity.
Qed.

Lemma prepare_weights_index (self self' : state) :
  prepare_weights self = Py.Ok self' ->
  current_timestep_index self' = current_timestep_index self.
Proof.
  unfold prepare_weights.
  destruct (weights self) as [w|]; [|intros [= <-]; reflexivity].
  destruct (ControlWeightType.eqb _ _); [intros [= <-]; reflexivity|].
  destruct (ControlWeightType.eqb _ _); [|intros [= <-]; reflexivity].
  destruct (get_universal_weights _ _); simpl; [|discriminate].
  intros [= <-]. reflexivity.
Qed.

(** The part of [prepare_current_timestep] before [prepare_weights]: the
    scan, when there is a next index, and the overrides. *)
Definition resolve (curr_t : float) (self : state) : Py.result state :=
  do self' <-
    (if TimestepKeyframeGroup.has_index (timestep_keyframes self)
          (current_timestep_index self + 1)
     then scan curr_t
            (Py.range_from (current_timestep_index self + 1)
               (Py.len (timestep_keyframes self)))
            self
     else Py.Ok self);
  Py.Ok (if negb (current_timestep_index self =? current_timestep_index self')
         then apply_overrides self' else self').

Lemma prepare_current_timestep_resolve (t : list float) (batched_number : Z)
    (self : state) (curr_t : float) :
  Py.getitem t 0 = Py.Ok curr_t ->
  prepare_current_timestep t batched_number self =
  do mid <- resolve curr_t
              (set_batched_number (Some batched_number) (set_t (Some t) self));
  prepare_weights mid.
Proof.
  intros Ht. unfold prepare_current_timestep, resolve. rewrite Ht. simpl.
  destruct (TimestepKeyframeGroup.has_index _ _); [|reflexivity].
  destruct (scan _ _ _); reflexivity.
Qed.

Lemma resolve_monotone (curr_t : float) (self : state) :
  exists mid,
    resolve curr_t self = Py.Ok mid /\
    current_timestep_index self <= current_timestep_index mid.
Proof.
  unfold resolve, TimestepKeyframeGroup.has_index, KeyframeList.has_index.
  destruct (_ && _) eqn:Hhas.
  - apply andb_true_iff in Hhas as [Hlo%Z.leb_le Hhi%Z.ltb_lt].
    destruct (scan_result curr_t
                (Py.range_from (current_timestep_index self + 1)
                   (Py.len (timestep_keyframes self))) self)
      as (self' & -> & _ & Hidx).
    { apply Forall_forall. intros i Hi%list_elem_of_In%range_from_bounds. lia. }
    simpl. eexists. split; [reflexivity|].
    assert (current_timestep_index self <= current_timestep_index self') as Hle.
    { destruct Hidx as [->|Hin%range_from_bounds]; lia. }
    destruct (negb _); [rewrite apply_overrides_index|]; assumption.
  - simpl. rewrite Z.eqb_refl. simpl. eexists. split; [reflexivity|lia].
Qed.

(** Replacing the timeline by one that agrees with it on the indices
    visited changes nothing else. *)
Lemma adopt_set_timestep_keyframes (i : Z) (tk : TimestepKeyframe.t)
    (tks : TimestepKeyframeGroup.t) (self : state) :
  adopt i tk (set_timestep_keyframes_field tks self)
  = set_timestep_keyframes_field tks (adopt i tk self).
Proof.
  unfold adopt.
  destruct (TimestepKeyframe.has_control_weights tk),
    (TimestepKeyframe.has_latent_keyframes tk),
    (TimestepKeyframe.has_mask_hint tk),
    (TimestepKeyframe.inherit_missing tk); reflexivity.
Qed.

Lemma scan_agree (curr_t : float) (indices : list Z)
    (tks : TimestepKeyframeGroup.t) (self : state) :
  Forall (fun i => Py.getitem tks i = Py.getitem (timestep_keyframes self) i)
    indices ->
  scan curr_t indices (set_timestep_keyframes_field tks self)
  = Py.lift (set_timestep_keyframes_field tks) (scan curr_t indices self).
Proof.
  revert self. induction indices as [|i rest IH]; simpl; intros self Hall.
  - reflexivity.
  - apply Forall_cons_1 in Hall as [Hi Hrest]. rewrite Hi.
    destruct (Py.getitem (timestep_keyframes self) i) as [tk|]; simpl;
      [|reflexivity].
    destruct (curr_t <=? TimestepKeyframe.start_t tk)%float; [|reflexivity].
    rewrite adopt_set_timestep_keyframes.
    destruct (TimestepKeyframe.guarantee_usage tk); [reflexivity|].
    apply IH. now rewrite adopt_timestep_keyframes.
Qed.

Lemma apply_overrides_set_timestep_keyframes (tks : TimestepKeyframeGroup.t)
    (self : state) :
  apply_overrides (set_timestep_keyframes_field tks self)
  = set_timestep_keyframes_field tks (apply_overrides self).
Proof.
  unfold apply_overrides. cbn.
  destruct (weights_override self); cbn;
    destruct (latent_keyframe_override self); reflexivity.
Qed.

Lemma prepare_weights_set_timestep_keyframes (tks : TimestepKeyframeGroup.t)
    (self : state) :
  prepare_weights (set_timestep_keyframes_field tks self)
  = Py.lift (set_timestep_keyframes_field tks) (prepare_weights self).
Proof.
  unfold prepare_weights. cbn.
  destruct (weights self) as [w|]; [|reflexivity].
  destruct (ControlWeightType.eqb _ _); [reflexivity|].
  destruct (ControlWeightType.eqb _ _); [|reflexivity].
  destruct (get_universal_weights _ _); reflexivity.
Qed.

Lemma prepare_current_timestep_agree (t : list float) (batched_number : Z)
    (tks : TimestepKeyframeGroup.t) (self : state) :
  length tks = length (timestep_keyframes self) ->
  (forall i : nat, current_timestep_index self < Z.of_nat i ->
                   tks !! i = timestep_keyframes self !! i) ->
  prepare_current_timestep t batched_number
    (set_timestep_keyframes_field tks self)
  = Py.lift (set_timestep_keyframes_field tks)
      (prepare_current_timestep t batched_number self).
Proof.
  intros Hlen Hagree. unfold prepare_current_timestep.
  destruct (Py.getitem t 0) as [curr_t|]; simpl; [|reflexivity].
  unfold TimestepKeyframeGroup.has_index, KeyframeList.has_index, Py.len.
  rewrite Hlen.
  destruct (_ && _) eqn:Hhas; cbn.
  - apply andb_true_iff in Hhas as [Hlo%Z.leb_le Hhi%Z.ltb_lt].
    change (set_batched_number (Some batched_number)
              (set_t (Some t) (set_timestep_keyframes_field tks self)))
      with (set_timestep_keyframes_field tks
              (set_batched_number (Some batched_number) (set_t (Some t) self))).
    rewrite scan_agree.
    + destruct (scan _ _ _) as [self'|]; simpl; [|reflexivity].
      destruct (negb _); [rewrite apply_overrides_set_timestep_keyframes|];
        apply prepare_weights_set_timestep_keyframes.
    + apply Forall_forall. intros i Hi%list_elem_of_In%range_from_bounds.
      cbn in Hi |- *. unfold Py.getitem, Py.len. rewrite Hlen.
      rewrite !PyFacts.position_inside by lia.
      rewrite Hagree by lia. reflexivity.
  - rewrite Z.eqb_refl. simpl.
    apply (prepare_weights_set_timestep_keyframes tks
             (set_batched_number (Some batched_number) (set_t (Some t) self))).
Qed.

End WithTorch.
End TimestepFacts.

Module SchedulerExamples.

(** A dense ControlNet node with strength [1.0] over the timeline [tks]. *)
Definition controlnet_node (tks : @TimestepKeyframeGroup.t scalar_torch)
  : @AdvancedControlBase.state scalar_torch :=
  AdvancedControlBase.init Variant.ControlNetAdvanced 1 false (Some tks)
    (ControlWeights.controlnet None false).

(** Two keyframes; the second carries latent keyframes and does not
    inherit. *)
Definition second_keyframe : @TimestepKeyframe.t scalar_torch :=
  TimestepKeyframe.init 0.5 1 StrengthInterpolation.NONE None
    (Some [Examples.latent 0 2; Examples.latent 2 0.5]) 0 false true None.

Definition two_keyframes : @TimestepKeyframeGroup.t scalar_torch :=
  [Examples.timestep 0 1; second_keyframe].

End SchedulerExamples.

(** C2. When the scan adopts the keyframe [tk] at index [i], it becomes
    the current keyframe, and each of the weights, the latent keyframe group
    and the mask hint becomes that of [tk] when [tk] has one, is reset
    (the weights to the default profile of the variant, the other two to
    [None]) when [tk] has none and does not inherit, and is left as it was
    when [tk] has none and inherits. The scan does this to every keyframe
    that qualifies, and stops after one with [guarantee_usage];
    [prepare_current_timestep] then applies the overrides and
    [prepare_weights] to the state so obtained. *)
Theorem adopted_keyframe_inheritance `{Torch} `{Libm}
    (i : Z) (tk : TimestepKeyframe.t) (self : AdvancedControlBase.state) :
  let self' := AdvancedControlBase.adopt i tk self in
  AdvancedControlBase.current_timestep_index self' = i /\
  AdvancedControlBase.current_timestep_keyframe self' = Some tk /\
  AdvancedControlBase.weights self'
  = match TimestepKeyframe.control_weights tk with
    | Some w => Some w
    | None =>
        if TimestepKeyframe.inherit_missing tk
        then AdvancedControlBase.weights self
        else Some (AdvancedControlBase.weights_default self)
    end /\
  AdvancedControlBase.latent_keyframes self'
  = match TimestepKeyframe.latent_keyframes tk with
    | Some g => Some g
    | None =>
        if TimestepKeyframe.inherit_missing tk
        then AdvancedControlBase.latent_keyframes self
        else None
    end /\
  AdvancedControlBase.tk_mask_cond_hint_original self'
  = match TimestepKeyframe.mask_hint_orig tk with
    | Some m => Some m
    | None =>
        if TimestepKeyframe.inherit_missing tk
        then AdvancedControlBase.tk_mask_cond_hint_original self
        else None
    end /\
  (forall (curr_t : float) (rest : list Z),
     Py.getitem (AdvancedControlBase.timestep_keyframes self) i = Py.Ok tk ->
     (curr_t <=? TimestepKeyframe.start_t tk)%float = true ->
     AdvancedControlBase.scan curr_t (i :: rest) self
     = if TimestepKeyframe.guarantee_usage tk then Py.Ok self'
       else AdvancedControlBase.scan curr_t rest self') /\
  (forall (t : list float) (batched_number : Z) (curr_t : float),
     i = AdvancedControlBase.current_timestep_index self + 1 ->
     0 <= i ->
     Py.getitem t 0 = Py.Ok curr_t ->
     Py.getitem (AdvancedControlBase.timestep_keyframes self) i = Py.Ok tk ->
     (curr_t <=? TimestepKeyframe.start_t tk)%float = true ->
     TimestepKeyframe.guarantee_usage tk = true ->
     AdvancedControlBase.prepare_current_timestep t batched_number self
     = AdvancedControlBase.prepare_weights
         (AdvancedControlBase.apply_overrides
            (AdvancedControlBase.adopt i tk
               (AdvancedControlBase.set_batched_number (Some batched_number)
                  (AdvancedControlBase.set_t (Some t) self))))).
Proof.
  cbv zeta.
  split; [apply TimestepFacts.adopt_index|].
  split; [apply TimestepFacts.adopt_index|].
  unfold AdvancedControlBase.adopt, TimestepKeyframe.has_control_weights,
    TimestepKeyframe.has_latent_keyframes, TimestepKeyframe.has_mask_hint.
  repeat split.
  - destruct (TimestepKeyframe.control_weights tk),
      (TimestepKeyframe.latent_keyframes tk),
      (TimestepKeyframe.mask_hint_orig tk),
      (TimestepKeyframe.inherit_missing tk); reflexivity.
  - destruct (TimestepKeyframe.control_weights tk),
      (TimestepKeyframe.latent_keyframes tk),
      (TimestepKeyframe.mask_hint_orig tk),
      (TimestepKeyframe.inherit_missing tk); reflexivity.
  - destruct (TimestepKeyframe.control_weights tk),
      (TimestepKeyframe.latent_keyframes tk),
      (TimestepKeyframe.mask_hint_orig tk),
      (TimestepKeyframe.inherit_missing tk); reflexivity.
  - intros curr_t rest Hget Hle. simpl. rewrite Hget. simpl. rewrite Hle.
    reflexivity.
  - intros t batched_number curr_t Hi Hpos Ht Hget Hle Hg.
    unfold AdvancedControlBase.prepare_current_timestep. rewrite Ht. simpl.
    assert (i < Py.len (AdvancedControlBase.timestep_keyframes self)) as Hlt.
    { destruct (Z.lt_ge_cases i (Py.len (AdvancedControlBase.timestep_keyframes self)))
        as [Hlt|Hge]; [assumption|].
      rewrite PyFacts.getitem_outside in Hget by lia. discriminate. }
    unfold TimestepKeyframeGroup.has_index, KeyframeList.has_index.
    rewrite <- Hi.
    destruct (Z.leb_spec 0 i); [|lia]. destruct (Z.ltb_spec i (Py.len (AdvancedControlBase.timestep_keyframes self))); [|lia].
    simpl. rewrite TimestepFacts.range_from_cons by assumption.
    simpl. rewrite Hget. simpl. rewrite Hle, Hg. simpl.
    fold (AdvancedControlBase.adopt i tk
            (AdvancedControlBase.set_batched_number (Some batched_number)
               (AdvancedControlBase.set_t (Some t) self))).
    destruct (TimestepFacts.adopt_index i tk
                (AdvancedControlBase.set_batched_number (Some batched_number)
                   (AdvancedControlBase.set_t (Some t) self))) as [-> _].
    destruct (Z.eqb_spec (AdvancedControlBase.current_timestep_index self) i);
      [lia|reflexivity].
Qed.

Lemma adopted_keyframe_inheritance_witness :
  @AdvancedControlBase.prepare_current_timestep scalar_torch exact_libm
    [999%float] 2 (SchedulerExamples.controlnet_node SchedulerExamples.two_keyframes)
  = @AdvancedControlBase.prepare_weights scalar_torch exact_libm
      (AdvancedControlBase.apply_overrides
         (AdvancedControlBase.adopt 0 (Examples.timestep 0 1)
            (AdvancedControlBase.set_batched_number (Some 2)
               (AdvancedControlBase.set_t (Some [999%float])
                  (SchedulerExamples.controlnet_node
                     SchedulerExamples.two_keyframes))))).
Proof.
  destruct (@adopted_keyframe_inheritance scalar_torch exact_libm 0
              (Examples.timestep 0 1)
              (SchedulerExamples.controlnet_node SchedulerExamples.two_keyframes))
    as (_ & _ & _ & _ & _ & _ & Hprepare).
  apply (Hprepare [999%float] 2 999%float);
    solve [reflexivity | vm_compute; congruence].
Defined.

(** C5. A call of [prepare_current_timestep] never lowers
    [current_timestep_index]: the call is [prepare_weights] on a state whose
    index is at least the one before, and [prepare_weights] keeps the index.
    The call reads the timeline only at positions above the index it starts
    from: on a timeline of the same length that agrees with it there, the
    call does the same. [cleanup_advanced] sets the index back to [-1]. *)
Theorem current_timestep_index_monotone `{Torch} `{Libm}
    (t : list float) (batched_number : Z) (self : AdvancedControlBase.state) :
  (forall self',
     AdvancedControlBase.prepare_current_timestep t batched_number self
     = Py.Ok self' ->
     AdvancedControlBase.current_timestep_index self
     <= AdvancedControlBase.current_timestep_index self') /\
  (forall curr_t, Py.getitem t 0 = Py.Ok curr_t ->
     exists mid,
       AdvancedControlBase.prepare_current_timestep t batched_number self
       = AdvancedControlBase.prepare_weights mid /\
       AdvancedControlBase.current_timestep_index self
       <= AdvancedControlBase.current_timestep_index mid) /\
  (forall tks : TimestepKeyframeGroup.t,
     length tks = length (AdvancedControlBase.timestep_keyframes self) ->
     (forall i : nat,
        AdvancedControlBase.current_timestep_index self < Z.of_nat i ->
        tks !! i = AdvancedControlBase.timestep_keyframes self !! i) ->
     AdvancedControlBase.prepare_current_timestep t batched_number
       (AdvancedControlBase.set_timestep_keyframes_field tks self)
     = Py.lift (AdvancedControlBase.set_timestep_keyframes_field tks)
         (AdvancedControlBase.prepare_current_timestep t batched_number self)) /\
  AdvancedControlBase.current_timestep_index
    (AdvancedControlBase.cleanup_advanced self) = -1.
Proof.
  assert (forall curr_t, Py.getitem t 0 = Py.Ok curr_t ->
     exists mid,
       AdvancedControlBase.prepare_current_timestep t batched_number self
       = AdvancedControlBase.prepare_weights mid /\
       AdvancedControlBase.current_timestep_index self
       <= AdvancedControlBase.current_timestep_index mid) as Hmid.
  { intros curr_t Ht.
    rewrite (TimestepFacts.prepare_current_timestep_resolve _ _ _ _ Ht).
    destruct (TimestepFacts.resolve_monotone curr_t
                (AdvancedControlBase.set_batched_number (Some batched_number)
                   (AdvancedControlBase.set_t (Some t) self)))
      as (mid & -> & Hle).
    exists mid. split; [reflexivity|exact Hle]. }
  split; [|split; [exact Hmid|split]].
  - intros self' Hp.
    destruct (Py.getitem t 0) as [curr_t|] eqn:Ht.
    + destruct (Hmid curr_t eq_refl) as (mid & Heq & Hle).
      rewrite Heq in Hp. apply TimestepFacts.prepare_weights_index in Hp. lia.
    + unfold AdvancedControlBase.prepare_current_timestep in Hp.
      rewrite Ht in Hp. discriminate.
  - intros tks Hlen Hagree.
    apply TimestepFacts.prepare_current_timestep_agree; assumption.
  - reflexivity.
Qed.

Lemma current_timestep_index_monotone_witness :
  exists self',
    @AdvancedControlBase.prepare_current_timestep scalar_torch exact_libm
      [999%float] 2
      (SchedulerExamples.controlnet_node SchedulerExamples.two_keyframes)
    = Py.Ok self' /\
    -1 <= AdvancedControlBase.current_timestep_index self'.
Proof.
  destruct (@current_timestep_index_monotone scalar_torch exact_libm
              [999%float] 2
              (SchedulerExamples.controlnet_node SchedulerExamples.two_keyframes))
    as (Hmono & _).
  eexists. split; [reflexivity|]. apply Hmono. reflexivity.
Defined.

(** ** Merging with the result of the chain before *)

(** What the merge leaves at one position of a list, from the entry the
    node has there and the entry of the previous result: the previous
    entry where the node has none or [None], the node's where the previous
    result has none or [None], their sum where both have a tensor. *)
Definition merged_entry `{Torch} (current previous : option (option Tensor))
  : option (option Tensor) :=
  match current, previous with
  | None, _ => previous
  | Some _, None => current
  | Some None, Some prev_val => Some prev_val
  | Some (Some ov), Some None => Some (Some ov)
  | Some (Some ov), Some (Some pv) => Some (Some (tensor_add ov pv))
  end.

Module MergeFacts.
Section WithTorch.
Context `{Torch}.

Import AdvancedControlBase.

(** The merged list, position by position. *)
Fixpoint merged (o prev : list (option Tensor)) : list (option Tensor) :=
  match o, prev with
  | [], _ => prev
  | _, [] => o
  | a :: o', p :: prev' =>
      match a, p with
      | Some ov, Some pv => Some (tensor_add ov pv)
      | None, _ => p
      | _, None => a
      end :: merged o' prev'
  end.

Lemma merged_nil_r (o : list (option Tensor)) : merged o [] = o.
Proof. destruct o; reflexivity. Qed.

(** The loop, started at index [length done] on a list whose first
    entries [done] the indices to come do not reach. *)
Lemma merge_loop (done rest prev : list (option Tensor)) :
  foldl
    (fun o p =>
       if (length o <=? p.1)%nat then o ++ [p.2]
       else
         match p.2 with
         | None => o
         | Some pv =>
             match o !! p.1 with
             | Some (Some ov) => <[p.1 := Some (tensor_add ov pv)]> o
             | _ => <[p.1 := Some pv]> o
             end
         end)
    (done ++ rest) (imap (fun i a => ((length done + i)%nat, a)) prev)
  = done ++ merged rest prev.
Proof.
  unfold Tensor in *.
  revert done rest. induction prev as [|p prev IH]; intros done rest.
  - simpl. now rewrite merged_nil_r.
  - rewrite imap_cons. cbn [foldl fst snd].
    rewrite Nat.add_0_r.
    assert (imap ((fun i a => ((length done + i)%nat, a)) ∘ S) prev
            = imap (fun i a => ((length (done ++ [match rest with
                                                  | [] => p
                                                  | a :: _ =>
                                                      match a, p with
                                                      | Some ov, Some pv =>
                                                          Some (tensor_add ov pv)
                                                      | None, _ => p
                                                      | _, None => a
                                                      end
                                                  end]) + i)%nat, a)) prev)
      as Hshift.
    { apply imap_ext. intros i a _. simpl. rewrite length_app. simpl.
      f_equal. lia. }
    rewrite Hshift. clear Hshift.
    destruct rest as [|a rest].
    + rewrite app_nil_r.
      destruct (Nat.leb_spec (length done) (length done)); [|lia].
      rewrite <- (app_nil_r (done ++ [p])) at 1. rewrite IH.
      simpl. now rewrite <- app_assoc.
    + destruct (Nat.leb_spec (length (done ++ a :: rest)) (length done)) as [Hle|_].
      { rewrite length_app in Hle. simpl in Hle. lia. }
      rewrite list_lookup_middle by reflexivity.
      assert (forall x, <[length done := x]> (done ++ a :: rest)
                        = (done ++ [x]) ++ rest) as Hins.
      { intros x. rewrite insert_app_r_alt by lia.
        replace (length done - length done)%nat with 0%nat by lia.
        simpl. now rewrite <- app_assoc. }
      assert (done ++ a :: rest = (done ++ [a]) ++ rest) as Hkeep
        by now rewrite <- app_assoc.
      destruct p as [pv|], a as [ov|]; simpl;
        rewrite ?Hins; try rewrite Hkeep; rewrite IH;
        now rewrite <- app_assoc.
Qed.

Lemma merge_previous_merged (o prev : list (option Tensor)) :
  merge_previous o prev = merged o prev.
Proof.
  unfold merge_previous, Py.enumerate.
  apply (merge_loop [] o prev).
Qed.

Lemma merged_lookup (o prev : list (option Tensor)) (i : nat) :
  merged o prev !! i = merged_entry (o !! i) (prev !! i).
Proof.
  revert prev i. induction o as [|a o IH]; intros prev i.
  - reflexivity.
  - destruct prev as [|p prev].
    + simpl. rewrite lookup_nil. destruct ((a :: o) !! i) as [[]|]; reflexivity.
    + destruct i as [|i]; simpl.
      * destruct a, p; reflexivity.
      * apply IH.
Qed.

Lemma length_merged (o prev : list (option Tensor)) :
  length (merged o prev) = Nat.max (length o) (length prev).
Proof.
  revert prev. induction o as [|a o IH]; intros [|p prev]; simpl; auto.
Qed.

End WithTorch.
End MergeFacts.

(** ** The two loops over a node's own layers *)

Module LayerFacts.
Section WithTorch.
Context `{Torch}.

Import AdvancedControlBase.

Lemma length_comprehension {A B : Type} (f : A -> Py.result B)
    (xs : list A) (ys : list B) :
  Py.comprehension f xs = Py.Ok ys -> length ys = length xs.
Proof.
  intros Hc%PyLoops.comprehension_Forall2. symmetry.
  eapply Forall2_length. exact Hc.
Qed.

(** A loop that puts each result in front collects them in reverse. *)
Lemma prepend_loop {A B : Type} (f : A -> Py.result B) (xs : list A)
    (acc : list B) :
  Py.for_each (fun acc p => do x <- f p; Py.Ok (x :: acc)) xs acc
  = Py.lift (fun ys => rev ys ++ acc) (Py.comprehension f xs).
Proof.
  revert acc. induction xs as [|x xs IH]; intros acc; simpl; [reflexivity|].
  destruct (f x) as [y|e]; simpl; [|reflexivity].
  rewrite IH. destruct (Py.comprehension f xs) as [ys|e]; simpl; [|reflexivity].
  now rewrite <- app_assoc.
Qed.

Lemma merge_control_input_rev (self : state) (output_dtype : DType)
    (control_input : list (option Tensor)) :
  merge_control_input self output_dtype control_input
  = Py.lift (@rev _)
      (Py.comprehension
         (fun p => rescale_layer self false output_dtype p.1 p.2)
         (Py.enumerate control_input)).
Proof.
  unfold merge_control_input. rewrite prepend_loop.
  destruct (Py.comprehension _ _); simpl; [|reflexivity].
  now rewrite app_nil_r.
Qed.

(** A loop that appends the result at index [n - 1] to one list and every
    other result to another, over the indices [k], [k + 1], ... up to
    [n - 1]. *)
Lemma split_last_loop {A B : Type} (f : nat * A -> Py.result B) (n : Z)
    (xs : list A) (k : nat) (m o : list B) :
  Z.of_nat (k + length xs) = n ->
  Py.for_each
    (fun out p =>
       do x <- f p;
       if Z.of_nat p.1 =? n - 1 then Py.Ok (out.1 ++ [x], out.2)
       else Py.Ok (out.1, out.2 ++ [x]))
    (imap (fun i a => ((k + i)%nat, a)) xs) (m, o)
  = Py.lift
      (fun ys => (m ++ drop (length ys - 1) ys, o ++ take (length ys - 1) ys))
      (Py.comprehension f (imap (fun i a => ((k + i)%nat, a)) xs)).
Proof.
  revert k m o. induction xs as [|x xs IH]; intros k m o Hn.
  - simpl. now rewrite !app_nil_r.
  - rewrite imap_cons. cbn [Py.for_each Py.comprehension].
    rewrite Nat.add_0_r.
    destruct (f (k, x)) as [y|e]; simpl; [|reflexivity].
    assert (imap ((fun i a => ((k + i)%nat, a)) ∘ S) xs
            = imap (fun i a => ((S k + i)%nat, a)) xs) as Hshift.
    { apply imap_ext. intros i a _. simpl. f_equal. lia. }
    rewrite Hshift. simpl in Hn.
    destruct (Z.eqb_spec (Z.of_nat k) (n - 1)) as [Hlast|Hmore].
    + destruct xs as [|x' xs]; [|simpl in Hn; lia].
      simpl. now rewrite app_nil_r.
    + cbn [Py.bind fst snd]. rewrite IH by lia.
      destruct (Py.comprehension f _) as [ys|e] eqn:Hys; simpl; [|reflexivity].
      apply length_comprehension in Hys. rewrite length_imap in Hys.
      destruct ys as [|y' ys]; [simpl in Hys; lia|].
      simpl. rewrite !Nat.sub_0_r, <- app_assoc. reflexivity.
Qed.

Lemma merge_control_output_split (self : state) (output_dtype : DType)
    (control_output : list (option Tensor)) :
  merge_control_output self output_dtype control_output
  = Py.lift
      (fun ys => (drop (length ys - 1) ys, take (length ys - 1) ys))
      (Py.comprehension
         (fun p =>
            rescale_layer self (global_average_pooling self) output_dtype
              p.1 p.2)
         (Py.enumerate control_output)).
Proof.
  unfold merge_control_output, Py.enumerate.
  apply (split_last_loop
           (fun p => rescale_layer self (global_average_pooling self)
                       output_dtype p.1 p.2)
           (Py.len control_output) control_output 0 [] []).
  reflexivity.
Qed.

End WithTorch.
End LayerFacts.

Module MergeExamples.

(** A node after the first step of a run. *)
Definition prepared (self : @AdvancedControlBase.state scalar_torch)
  : @AdvancedControlBase.state scalar_torch :=
  match @AdvancedControlBase.prepare_current_timestep scalar_torch exact_libm
          [999%float] 1 self with
  | Py.Ok self' => self'
  | Py.Raise _ => self
  end.

(** Strength [1.0], the default timeline, unit weights. *)
Definition unit_node : @AdvancedControlBase.state scalar_torch :=
  prepared (SchedulerExamples.controlnet_node TimestepKeyframeGroup.init).

(** A layer whose one slot holds [c]. *)
Definition constant (c : float) : option (@Tensor scalar_torch) := Some [c].

(** Three nodes, merged from the tail of the chain to its head; each
    contributes one layer to ['output'] and one to ['middle']. *)
Definition chain_of_three : Py.result (@ControlOut.t scalar_torch) :=
  do tail <- AdvancedControlBase.control_merge_inject unit_node None
               (Some [constant 2; constant 2]) None tt;
  do second <- AdvancedControlBase.control_merge_inject unit_node None
                 (Some [constant 3; constant 3]) (Some tail) tt;
  AdvancedControlBase.control_merge_inject unit_node None
    (Some [constant 5; constant 5]) (Some second) tt.

End MergeExamples.

(** C1. With a previous result, each of the three lists is the node's own
    list merged with the previous one: at a position the node's list does
    not have, the previous entry is appended; where the node's entry is
    [None] the previous entry is taken; where both hold a tensor they are
    added; the node's entry stays where the previous result has none or
    [None]. Three nodes that contribute the constants [2.0], [3.0] and
    [5.0] with strength [1.0] and unit weights merge to [10.0]. *)
Theorem chain_merge_accumulates :
  (forall `{Torch} (self : AdvancedControlBase.state)
          (control_input control_output : option (list (option Tensor)))
          (control_prev : ControlOut.t) (output_dtype : DType),
     AdvancedControlBase.control_merge_inject self control_input control_output
       (Some control_prev) output_dtype
     = Py.lift
         (fun out =>
            {| ControlOut.input :=
                 AdvancedControlBase.merge_previous (ControlOut.input out)
                   (ControlOut.input control_prev);
               ControlOut.middle :=
                 AdvancedControlBase.merge_previous (ControlOut.middle out)
                   (ControlOut.middle control_prev);
               ControlOut.output :=
                 AdvancedControlBase.merge_previous (ControlOut.output out)
                   (ControlOut.output control_prev) |})
         (AdvancedControlBase.control_merge_inject self control_input
            control_output None output_dtype)) /\
  (forall `{Torch} (o prev : list (option Tensor)) (i : nat),
     AdvancedControlBase.merge_previous o prev !! i
     = merged_entry (o !! i) (prev !! i)) /\
  (forall `{Torch} (o prev : list (option Tensor)),
     length (AdvancedControlBase.merge_previous o prev)
     = Nat.max (length o) (length prev)) /\
  MergeExamples.chain_of_three
  = Py.Ok {| ControlOut.input := [];
             ControlOut.middle := [MergeExamples.constant 10];
             ControlOut.output := [MergeExamples.constant 10] |}.
Proof.
  split; [|split; [|split]].
  - intros T self control_input control_output control_prev output_dtype.
    unfold AdvancedControlBase.control_merge_inject.
    destruct (match control_input with Some _ => _ | None => _ end);
      simpl; [|reflexivity].
    destruct (match control_output with Some _ => _ | None => _ end);
      reflexivity.
  - intros T o prev i.
    rewrite MergeFacts.merge_previous_merged. apply MergeFacts.merged_lookup.
  - intros T o prev.
    rewrite MergeFacts.merge_previous_merged. apply MergeFacts.length_merged.
  - vm_compute. reflexivity.
Qed.

(** ** The places of a node's own layers *)

(** C3, as the code has it. The last output layer becomes the one entry of
    ['middle'], the other output layers become ['output'] in their order,
    and ['input'] holds the input layers in reverse order: each layer is
    inserted in front of those before it. Every layer is first rescaled
    by [rescale_layer]; without a previous result the lists are these. *)
Theorem control_merge_places_layers `{Torch}
    (self : AdvancedControlBase.state)
    (control_input control_output : list (option Tensor))
    (output_dtype : DType) :
  AdvancedControlBase.control_merge_inject self (Some control_input)
    (Some control_output) None output_dtype
  = (do ins <- Py.comprehension
                 (fun p => AdvancedControlBase.rescale_layer self false
                             output_dtype p.1 p.2)
                 (Py.enumerate control_input);
     do outs <- Py.comprehension
                  (fun p => AdvancedControlBase.rescale_layer self
                              (AdvancedControlBase.global_average_pooling self)
                              output_dtype p.1 p.2)
                  (Py.enumerate control_output);
     Py.Ok {| ControlOut.input := rev ins;
              ControlOut.middle := drop (length outs - 1) outs;
              ControlOut.output := take (length outs - 1) outs |}) /\
  (forall (ins outs : list (option Tensor)) (last : option Tensor),
     Forall2
       (fun p y => AdvancedControlBase.rescale_layer self false output_dtype
                     p.1 p.2 = Py.Ok y)
       (Py.enumerate control_input) ins ->
     Forall2
       (fun p y => AdvancedControlBase.rescale_layer self
                     (AdvancedControlBase.global_average_pooling self)
                     output_dtype p.1 p.2 = Py.Ok y)
       (Py.enumerate control_output) (outs ++ [last]) ->
     AdvancedControlBase.control_merge_inject self (Some control_input)
       (Some control_output) None output_dtype
     = Py.Ok {| ControlOut.input := rev ins;
                ControlOut.middle := [last];
                ControlOut.output := outs |} /\
     forall i : nat, (i < length control_input)%nat ->
       rev ins !! i = ins !! (length control_input - 1 - i)%nat).
Proof.
  assert (AdvancedControlBase.control_merge_inject self (Some control_input)
            (Some control_output) None output_dtype
          = (do ins <- Py.comprehension
                         (fun p => AdvancedControlBase.rescale_layer self false
                                     output_dtype p.1 p.2)
                         (Py.enumerate control_input);
             do outs <- Py.comprehension
                          (fun p => AdvancedControlBase.rescale_layer self
                                      (AdvancedControlBase.global_average_pooling self)
                                      output_dtype p.1 p.2)
                          (Py.enumerate control_output);
             Py.Ok {| ControlOut.input := rev ins;
                      ControlOut.middle := drop (length outs - 1) outs;
                      ControlOut.output := take (length outs - 1) outs |})) as Heq.
  { unfold AdvancedControlBase.control_merge_inject.
    rewrite LayerFacts.merge_control_input_rev,
      LayerFacts.merge_control_output_split.
    destruct (Py.comprehension _ (Py.enumerate control_input)); simpl;
      [|reflexivity].
    destruct (Py.comprehension _ (Py.enumerate control_output)); reflexivity. }
  split; [exact Heq|].
  intros ins outs last Hins Houts. split.
  - rewrite Heq.
    apply PyLoops.comprehension_Forall2 in Hins, Houts.
    rewrite Hins. simpl. rewrite Houts. simpl.
    rewrite length_app. simpl.
    replace (length outs + 1 - 1)%nat with (length outs) by lia.
    rewrite drop_app_length, take_app_length. reflexivity.
  - intros i Hi.
    apply Forall2_length in Hins. unfold Py.enumerate in Hins.
    rewrite length_imap in Hins.
    rewrite rev_alt. change (rev_append ins []) with (reverse ins).
    rewrite reverse_lookup by lia. f_equal. lia.
Qed.

Lemma control_merge_places_layers_witness :
  AdvancedControlBase.control_merge_inject MergeExamples.unit_node
    (Some [MergeExamples.constant 2; MergeExamples.constant 3])
    (Some [MergeExamples.constant 4; MergeExamples.constant 5]) None tt
  = Py.Ok {| ControlOut.input := [MergeExamples.constant 3; MergeExamples.constant 2];
             ControlOut.middle := [MergeExamples.constant 5];
             ControlOut.output := [MergeExamples.constant 4] |}.
Proof.
  destruct (@control_merge_places_layers scalar_torch MergeExamples.unit_node
              [MergeExamples.constant 2; MergeExamples.constant 3]
              [MergeExamples.constant 4; MergeExamples.constant 5] tt)
    as [_ Hplaces].
  destruct (Hplaces [MergeExamples.constant 2; MergeExamples.constant 3]
              [MergeExamples.constant 4] (MergeExamples.constant 5))
    as [Hout _].
  - repeat constructor.
  - repeat constructor.
  - exact Hout.
Defined.

(** C3 as stated fails for the order of ['input']: of the input layers
    [2.0] and [3.0], the entry at index [0] of the merged list comes from
    the layer at index [1]. *)
Lemma input_order_counterexample :
  ~ (forall (control_input control_output : list (option (@Tensor scalar_torch)))
            (out : ControlOut.t),
       control_input <> [] -> control_output <> [] ->
       AdvancedControlBase.control_merge_inject MergeExamples.unit_node
         (Some control_input) (Some control_output) None tt = Py.Ok out ->
       forall (i : nat) (x : option Tensor),
         control_input !! i = Some x ->
         Py.lift Some
           (AdvancedControlBase.rescale_layer MergeExamples.unit_node false tt i x)
         = Py.Ok (ControlOut.input out !! i)).
Proof.
  intros Hc.
  specialize (Hc [MergeExamples.constant 2; MergeExamples.constant 3]
                [MergeExamples.constant 5] _
                ltac:(discriminate) ltac:(discriminate) eq_refl
                0%nat (MergeExamples.constant 2) eq_refl).
  apply (f_equal (fun r => match r with
                           | Py.Ok (Some (Some [v])) => (v =? 2)%float
                           | _ => false
                           end)) in Hc.
  vm_compute in Hc. discriminate.
Qed.

(** ** Nodes that are switched off *)

Module ChainExamples.

(** A node with strength [0.0] in front of a node with strength [1.0]. *)
Definition zero_node : @AdvancedControlBase.state scalar_torch :=
  AdvancedControlBase.init Variant.ControlNetAdvanced 0 false None
    (ControlWeights.controlnet None false).

Definition tail_node : @AdvancedControlBase.state scalar_torch :=
  SchedulerExamples.controlnet_node TimestepKeyframeGroup.init.

Definition chain : @ControlChain.control scalar_torch :=
  ControlChain.Control zero_node (Some (ControlChain.Control tail_node None)).

End ChainExamples.

(** C4. After [prepare_current_timestep], the condition of the [if] is
    true exactly when the strength of the node is [0.0] or the current
    keyframe's is, and [get_control] then returns what the chain before the
    node returns, or [None] when there is no node before it; the sub-model
    of the node is not run. *)
Theorem short_circuit_passes_upstream `{Torch} `{Libm} `{!ControlModels}
    (c : ControlChain.control) (sample : Sample) (t : list float)
    (batched_number : Z) (self' : AdvancedControlBase.state) :
  AdvancedControlBase.prepare_current_timestep t batched_number
    (ControlChain.node c) = Py.Ok self' ->
  (AdvancedControlBase.short_circuit self' = Py.Ok true <->
   (AdvancedControlBase.strength self' =? 0)%float = true \/
   exists tk,
     AdvancedControlBase.current_timestep_keyframe self' = Some tk /\
     (TimestepKeyframe.strength tk =? 0)%float = true) /\
  (AdvancedControlBase.short_circuit self' = Py.Ok true ->
   ControlChain.get_control c sample t batched_number
   = (do r <- ControlChain.upstream c sample t batched_number;
      Py.Ok (r.1, ControlChain.Control self' r.2)) /\
   (ControlChain.previous_controlnet c = None ->
    ControlChain.get_control c sample t batched_number
    = Py.Ok (None, ControlChain.Control self' None))).
Proof.
  intros Hprepare. split.
  - unfold AdvancedControlBase.short_circuit, AdvancedControlBase.attribute.
    destruct (AdvancedControlBase.strength self' =? 0)%float.
    + split; auto.
    + destruct (AdvancedControlBase.current_timestep_keyframe self') as [tk|];
        simpl.
      * split.
        -- intros [= Hz]. right. eauto.
        -- intros [Hz|(tk' & [= <-] & Hz)]; [discriminate|]. now rewrite Hz.
      * split; [discriminate|].
        intros [Hz|(tk' & Hz & _)]; discriminate.
  - intros Hskip.
    assert (ControlChain.get_control c sample t batched_number
            = (do r <- ControlChain.upstream c sample t batched_number;
               Py.Ok (r.1, ControlChain.Control self' r.2))) as Heq.
    { destruct c as [self previous]. simpl in Hprepare.
      unfold ControlChain.upstream. simpl.
      rewrite Hprepare. simpl. rewrite Hskip. simpl.
      destruct previous as [p|]; [|reflexivity].
      destruct (ControlChain.get_control p sample t batched_number);
        reflexivity. }
    split; [exact Heq|].
    intros Hnone. rewrite Heq. unfold ControlChain.upstream.
    rewrite Hnone. reflexivity.
Qed.

Lemma short_circuit_passes_upstream_witness :
  Py.lift fst
    (@ControlChain.get_control scalar_torch exact_libm stub_models
       ChainExamples.chain tt [999%float] 1)
  = Py.lift fst
      (@ControlChain.get_control scalar_torch exact_libm stub_models
         (ControlChain.Control ChainExamples.tail_node None) tt [999%float] 1).
Proof.
  destruct (@short_circuit_passes_upstream scalar_torch exact_libm stub_models
              ChainExamples.chain tt [999%float] 1
              (MergeExamples.prepared ChainExamples.zero_node) eq_refl)
    as [_ Hpass].
  destruct (Hpass eq_refl) as [-> _].
  reflexivity.
Defined.

(** ** Cloning a keyframe list *)

Module CloneFacts.
Section Generic.

Context {E K : Type} (key : E -> K) (eqb ltb : K -> K -> bool).

(** [<] excludes [==] and the converse [<], as on ints and on floats. *)
Hypothesis lt_not_eq : forall a b, ltb a b = true -> eqb a b = false.
Hypothesis lt_asym : forall a b, ltb a b = true -> ltb b a = false.

Abbreviation before := (fun a b : E => ltb (key a) (key b) = true).
Abbreviation add := (KeyframeList.add key eqb ltb).
Abbreviation sort_by_key := (KeyframeList.sort_by_key key ltb).

(** A list in strictly increasing order of keys is left as it is. *)
Lemma sort_by_key_increasing (l : list E) :
  StronglySorted before l -> sort_by_key l = l.
Proof.
  induction 1 as [|a l Hs IH Hall]; simpl; [reflexivity|].
  fold (KeyframeList.sort_by_key key ltb l). rewrite IH.
  destruct l as [|b l]; [reflexivity|]. simpl.
  apply Forall_cons_1 in Hall as [Hab _].
  now rewrite (lt_asym _ _ Hab).
Qed.

Lemma find_key_larger (k : K) (l : list E) (i0 : nat) :
  Forall (fun e => ltb (key e) k = true) l ->
  KeyframeList.find_key key eqb k l i0 = None.
Proof.
  revert i0. induction l as [|e l IH]; simpl; intros i0 Hall; [reflexivity|].
  apply Forall_cons_1 in Hall as [He Hl].
  rewrite (lt_not_eq _ _ He). now apply IH.
Qed.

Lemma sorted_snoc_inv (l : list E) (k : E) :
  StronglySorted before (l ++ [k]) ->
  Forall (fun e => ltb (key e) (key k) = true) l.
Proof.
  induction l as [|a l IH]; simpl; intros Hs; [constructor|].
  apply StronglySorted_inv in Hs as [Hs Hall].
  constructor; [|now apply IH].
  apply Forall_app in Hall as [_ Hk]. now apply Forall_cons_1 in Hk as [Hk _].
Qed.

(** Adding a keyframe whose key is above all those of the list appends
    it. *)
Lemma add_largest (l : list E) (k : E) :
  StronglySorted before (l ++ [k]) -> add k l = l ++ [k].
Proof.
  intros Hs. unfold KeyframeList.add, KeyframeList.replace_or_append.
  rewrite find_key_larger by now apply sorted_snoc_inv.
  now apply sort_by_key_increasing.
Qed.

Lemma sorted_app_l (l1 l2 : list E) :
  StronglySorted before (l1 ++ l2) -> StronglySorted before l1.
Proof.
  induction l1 as [|a l1 IH]; simpl; intros Hs; [constructor|].
  apply StronglySorted_inv in Hs as [Hs Hall].
  constructor; [now apply IH|]. now apply Forall_app in Hall as [Hall _].
Qed.

(** The loop of [clone], from a list [cloned] that the keyframes still to
    add continue in increasing order. *)
Lemma clone_loop (cloned keyframes : list E) :
  StronglySorted before (cloned ++ keyframes) ->
  fold_left (fun cloned tk => add tk cloned) keyframes cloned
  = cloned ++ keyframes.
Proof.
  revert cloned. induction keyframes as [|tk keyframes IH]; simpl;
    intros cloned Hs; [now rewrite app_nil_r|].
  assert (StronglySorted before ((cloned ++ [tk]) ++ keyframes)) as Hs'
    by now rewrite <- app_assoc.
  rewrite add_largest by now apply sorted_app_l in Hs'.
  rewrite IH by assumption. now rewrite <- app_assoc.
Qed.

(** [clone] of a list in increasing order, from an empty seed, or from a
    seed of one keyframe that has the key of the first one. *)
Lemma clone_increasing (seed keyframes : list E) :
  StronglySorted before keyframes ->
  seed = [] \/
  (exists d e0 rest,
     seed = [d] /\ keyframes = e0 :: rest /\ eqb (key d) (key e0) = true) ->
  KeyframeList.clone key eqb ltb seed keyframes = keyframes.
Proof.
  intros Hs [->|(d & e0 & rest & -> & -> & Hd)]; unfold KeyframeList.clone.
  - now apply clone_loop.
  - simpl.
    assert (add e0 [d] = [e0]) as ->.
    { unfold KeyframeList.add, KeyframeList.replace_or_append. simpl.
      rewrite Hd. reflexivity. }
    now apply (clone_loop [e0] rest).
Qed.

End Generic.
End CloneFacts.

(** ** Groups and keyframes as objects

    A keyframe in a group's list is a reference to an object, and so is
    the group: [clone] returns a new group object, and what it puts in the
    list of that group are the references it reads from the list of the
    original. The heap maps the location of a keyframe object to its
    attributes and the location of a group object to its list of
    references. [KF] is the record of attributes and [key] the one the
    group is ordered by. *)

Module Heap.
Section Objects.

Context {KF K : Type} (key : KF -> K) (eqb ltb : K -> K -> bool).

Definition loc : Type := nat.

Record heap : Type := {
  keyframe_objs : gmap loc KF;
  group_objs : gmap loc (list loc)
}.

(** The key of the object a reference points to. *)
Definition key_at (h : heap) (l : loc) : option K :=
  key <$> keyframe_objs h !! l.

(** [==] and [<] on the keys of two objects. *)
Definition on_keys (cmp : K -> K -> bool) (a b : option K) : bool :=
  match a, b with
  | Some a, Some b => cmp a b
  | _, _ => false
  end.

(** A new keyframe object. *)
Definition new_keyframe (kf : KF) (h : heap) : loc * heap :=
  let l := fresh (dom (keyframe_objs h)) in
  (l, {| keyframe_objs := <[l := kf]> (keyframe_objs h);
         group_objs := group_objs h |}).

(** The constructor of a group: a new group object, whose list holds a
    new object for each keyframe of [seed] (none for a latent group, the
    default keyframe for a timestep group). *)
Definition new_group (seed : list KF) (h : heap) : loc * heap :=
  let created :=
    foldl (fun acc kf =>
             let r := new_keyframe kf acc.2 in (acc.1 ++ [r.1], r.2))
          ([], h) seed in
  let g := fresh (dom (group_objs created.2)) in
  (g, {| keyframe_objs := keyframe_objs created.2;
         group_objs := <[g := created.1]> (group_objs created.2) |}).

(** [group.add(keyframe)], for the group at [g] and the reference
    [keyframe]: the list of the group is changed in place. *)
Definition add (g : loc) (keyframe : loc) (h : heap) : option heap :=
  keyframes ← group_objs h !! g;
  Some {| keyframe_objs := keyframe_objs h;
          group_objs :=
            <[g := KeyframeList.add (key_at h) (on_keys eqb) (on_keys ltb)
                     keyframe keyframes]> (group_objs h) |}.

(** [group.clone()]: the new group and the heap after the call. *)
Definition clone (seed : list KF) (g : loc) (h : heap) : option (loc * heap) :=
  keyframes ← group_objs h !! g;
  let created := new_group seed h in
  h' ← foldl (fun h tk => h ≫= add created.1 tk) (Some created.2) keyframes;
  Some (created.1, h').

(** An assignment to attributes of the keyframe object at [l], which then
    holds [kf]. *)
Definition assign (l : loc) (kf : KF) (h : heap) : heap :=
  {| keyframe_objs := <[l := kf]> (keyframe_objs h);
     group_objs := group_objs h |}.

(** The keyframes of the group at [g], by value and in order. *)
Definition entries (g : loc) (h : heap) : option (list KF) :=
  keyframes ← group_objs h !! g;
  mapM (fun l => keyframe_objs h !! l) keyframes.

(** Every reference of the list is to a keyframe object of the heap. *)
Definition allocated (h : heap) (keyframes : list loc) : Prop :=
  Forall (fun l => is_Some (keyframe_objs h !! l)) keyframes.

(** The keys of the objects grow strictly along the list, as in a list
    built by [add] alone. *)
Definition increasing (h : heap) (keyframes : list loc) : Prop :=
  StronglySorted
    (fun a b => on_keys ltb (key_at h a) (key_at h b) = true) keyframes.

(** [cloned], in [h'], is a clone of the group [g] of [h]: it is a new
    object; its list holds the references of the list of [g], in their
    order, so the same keyframes by value; no object of [h] has changed;
    and adding to [cloned] leaves the list and the keyframes of [g] as they
    are. *)
Definition cloned_from (g cloned : loc) (h h' : heap) : Prop :=
  (cloned <> g) /\
  (group_objs h !! cloned = None) /\
  (group_objs h' !! cloned = group_objs h !! g) /\
  (group_objs h' !! g = group_objs h !! g) /\
  (keyframe_objs h ⊆ keyframe_objs h') /\
  (entries cloned h' = entries g h) /\
  (entries g h' = entries g h) /\
  forall (keyframe : loc) (h'' : heap),
    add cloned keyframe h' = Some h'' ->
    (group_objs h'' !! g = group_objs h !! g) /\
    (entries g h'' = entries g h).

End Objects.
End Heap.

(** The two kinds of group as objects. *)
Module LatentObjects.

Definition heap : Type := @Heap.heap LatentKeyframe.t.

Definition add (g keyframe : Heap.loc) (h : heap) : option heap :=
  Heap.add LatentKeyframe.batch_index Z.eqb Z.ltb g keyframe h.

Definition clone (g : Heap.loc) (h : heap) : option (Heap.loc * heap) :=
  Heap.clone LatentKeyframe.batch_index Z.eqb Z.ltb [] g h.

End LatentObjects.

Module TimestepObjects.
Section WithTorch.
Context `{Torch}.

Definition heap : Type := @Heap.heap TimestepKeyframe.t.

Definition add (g keyframe : Heap.loc) (h : heap) : option heap :=
  Heap.add TimestepKeyframe.start_percent PrimFloat.eqb PrimFloat.ltb
    g keyframe h.

Definition clone (g : Heap.loc) (h : heap) : option (Heap.loc * heap) :=
  Heap.clone TimestepKeyframe.start_percent PrimFloat.eqb PrimFloat.ltb
    [TimestepKeyframe.default] g h.

End WithTorch.
End TimestepObjects.

Module HeapFacts.
Section Objects.

Context {KF K : Type} (key : KF -> K) (eqb ltb : K -> K -> bool).

Hypothesis lt_not_eq : forall a b, ltb a b = true -> eqb a b = false.
Hypothesis lt_asym : forall a b, ltb a b = true -> ltb b a = false.

Abbreviation heap := (@Heap.heap KF).
Abbreviation key_at := (Heap.key_at key).
Abbreviation list_add h :=
  (KeyframeList.add (key_at h) (Heap.on_keys eqb) (Heap.on_keys ltb)).
Abbreviation increasing := (Heap.increasing key ltb).

Lemma on_keys_lt_not_eq (a b : option K) :
  Heap.on_keys ltb a b = true -> Heap.on_keys eqb a b = false.
Proof. destruct a, b; simpl; auto. Qed.

Lemma on_keys_lt_asym (a b : option K) :
  Heap.on_keys ltb a b = true -> Heap.on_keys ltb b a = false.
Proof. destruct a, b; simpl; auto. Qed.

(** The loop of [clone] changes the list of the new group and nothing
    else. *)
Lemma add_loop (c : Heap.loc) (keyframes : list Heap.loc) (h : heap)
    (cloned : list Heap.loc) :
  Heap.group_objs h !! c = Some cloned ->
  foldl (fun h tk => h ≫= Heap.add key eqb ltb c tk) (Some h) keyframes
  = Some {| Heap.keyframe_objs := Heap.keyframe_objs h;
            Heap.group_objs :=
              <[c := fold_left (fun cloned tk => list_add h tk cloned)
                       keyframes cloned]> (Heap.group_objs h) |}.
Proof.
  revert h cloned. induction keyframes as [|tk keyframes IH];
    intros h cloned Hc; simpl.
  - rewrite insert_id by assumption. now destruct h.
  - unfold Heap.add at 2. rewrite Hc. simpl.
    rewrite (IH _ (list_add h tk cloned)) by (simpl; apply lookup_insert_eq).
    simpl. rewrite insert_insert_eq. reflexivity.
Qed.

Lemma increasing_ext (h h' : heap) (l : list Heap.loc) :
  Forall (fun a => key_at h' a = key_at h a) l ->
  increasing h l -> increasing h' l.
Proof.
  intros Hsame Hs. induction Hs as [|a l Hs IH Hall]; [constructor|].
  apply Forall_cons_1 in Hsame as [Ha Hl].
  constructor; [now apply IH|].
  rewrite Forall_forall in Hall, Hl |- *.
  intros b Hb. rewrite Ha, (Hl b Hb). now apply Hall.
Qed.

(** [clone] of a group whose list is in increasing order of keys: the new
    group is a new object, its list holds the references of the original
    in the same order, and no other group and no keyframe of the heap is
    changed. *)
Lemma clone_shares (seed : list KF) (g : Heap.loc) (h : heap)
    (keyframes : list Heap.loc) :
  Heap.group_objs h !! g = Some keyframes ->
  Heap.allocated h keyframes ->
  increasing h keyframes ->
  seed = [] \/
  (exists d e0 rest,
     seed = [d] /\ keyframes = e0 :: rest /\
     Heap.on_keys eqb (Some (key d)) (key_at h e0) = true) ->
  exists cloned h',
    Heap.clone key eqb ltb seed g h = Some (cloned, h') /\
    Heap.group_objs h !! cloned = None /\
    Heap.group_objs h' = <[cloned := keyframes]> (Heap.group_objs h) /\
    Heap.keyframe_objs h ⊆ Heap.keyframe_objs h' /\
    (seed = [] -> Heap.keyframe_objs h' = Heap.keyframe_objs h).
Proof.
  intros Hg Halloc Hs Hseed. unfold Heap.clone. rewrite Hg. simpl.
  assert (Heap.group_objs h !! fresh (dom (Heap.group_objs h)) = None)
    as Hfresh by (apply not_elem_of_dom, is_fresh).
  destruct Hseed as [->|(d & e0 & rest & -> & -> & Hd)].
  - simpl. rewrite (add_loop _ _ _ []) by (simpl; apply lookup_insert_eq).
    simpl. rewrite insert_insert_eq.
    eexists _, _. split; [reflexivity|]. simpl.
    split; [assumption|]. split; [|split; [reflexivity|reflexivity]].
    f_equal.
    apply (CloneFacts.clone_increasing _ _ _ on_keys_lt_not_eq on_keys_lt_asym
             [] keyframes); [exact Hs|now left].
  - simpl.
    set (dl := fresh (dom (Heap.keyframe_objs h))).
    assert (Heap.keyframe_objs h !! dl = None) as Hdl
      by (apply not_elem_of_dom, is_fresh).
    set (h1 := {| Heap.keyframe_objs := <[dl := d]> (Heap.keyframe_objs h);
                  Heap.group_objs :=
                    <[fresh (dom (Heap.group_objs h)) := [dl]]>
                      (Heap.group_objs h) |}).
    change (foldl ?f (Heap.add key eqb ltb ?c e0 h1) rest)
      with (foldl f (Some h1) (e0 :: rest)).
    rewrite (add_loop _ _ h1 [dl]) by (simpl; apply lookup_insert_eq).
    simpl. rewrite insert_insert_eq.
    eexists _, _. split; [reflexivity|]. simpl.
    split; [assumption|]. split; [|split].
    + f_equal.
      assert (Forall (fun a => key_at h1 a = key_at h a) (e0 :: rest)) as Hsame.
      { eapply Forall_impl; [exact Halloc|]. intros a [kf Ha].
        unfold Heap.key_at. simpl. rewrite lookup_insert_ne; [reflexivity|].
        intros ->. congruence. }
      apply (CloneFacts.clone_increasing (key_at h1) _ _
               on_keys_lt_not_eq on_keys_lt_asym [dl] (e0 :: rest)).
      * now apply (increasing_ext h).
      * right. exists dl, e0, rest. repeat split.
        apply Forall_cons_1 in Hsame as [-> _].
        unfold Heap.key_at at 1. simpl. rewrite lookup_insert_eq. exact Hd.
    + now apply insert_subseteq.
    + discriminate.
Qed.

(** Adding to a group changes the list of that group alone. *)
Lemma add_other_group (g g' keyframe : Heap.loc) (h h' : heap) :
  Heap.add key eqb ltb g' keyframe h = Some h' ->
  g <> g' ->
  Heap.group_objs h' !! g = Heap.group_objs h !! g /\
  Heap.keyframe_objs h' = Heap.keyframe_objs h.
Proof.
  unfold Heap.add. destruct (Heap.group_objs h !! g'); simpl; [|discriminate].
  intros [= <-] Hne. simpl. split; [|reflexivity].
  now apply lookup_insert_ne.
Qed.

End Objects.
End HeapFacts.

Module CloneObjectFacts.
Section Objects.

Context {KF K : Type} (key : KF -> K) (eqb ltb : K -> K -> bool).

Hypothesis lt_not_eq : forall a b, ltb a b = true -> eqb a b = false.
Hypothesis lt_asym : forall a b, ltb a b = true -> ltb b a = false.

Lemma values_weaken (kfs kfs' : gmap Heap.loc KF) (keyframes : list Heap.loc) :
  kfs ⊆ kfs' ->
  Forall (fun l => is_Some (kfs !! l)) keyframes ->
  mapM (fun l => kfs' !! l) keyframes = mapM (fun l => kfs !! l) keyframes.
Proof.
  intros Hsub. induction 1 as [|l keyframes [kf Hl] _ IH]; [reflexivity|].
  simpl. rewrite IH, Hl, (lookup_weaken _ _ _ _ Hl Hsub). reflexivity.
Qed.

(** [clone] of a group whose keys are in increasing order clones it. *)
Lemma clone_cloned_from (seed : list KF) (g : Heap.loc) (h : @Heap.heap KF)
    (keyframes : list Heap.loc) :
  Heap.group_objs h !! g = Some keyframes ->
  Heap.allocated h keyframes ->
  Heap.increasing key ltb h keyframes ->
  seed = [] \/
  (exists d e0 rest,
     seed = [d] /\ keyframes = e0 :: rest /\
     Heap.on_keys eqb (Some (key d)) (Heap.key_at key h e0) = true) ->
  exists cloned h',
    Heap.clone key eqb ltb seed g h = Some (cloned, h') /\
    Heap.cloned_from key eqb ltb g cloned h h'.
Proof.
  intros Hg Halloc Hs Hseed.
  destruct (HeapFacts.clone_shares key eqb ltb lt_not_eq lt_asym
              seed g h keyframes Hg Halloc Hs Hseed)
    as (cloned & h' & Hclone & Hnew & Hgroups & Hsub & _).
  exists cloned, h'. split; [exact Hclone|].
  assert (cloned <> g) as Hne by congruence.
  assert (Heap.group_objs h' !! g = Some keyframes) as Hg'
    by (rewrite Hgroups, lookup_insert_ne; auto).
  assert (Heap.entries g h' = Heap.entries g h) as Hentries.
  { unfold Heap.entries. rewrite Hg', Hg. simpl. now apply values_weaken. }
  unfold Heap.cloned_from. rewrite Hg.
  split; [exact Hne|]. split; [exact Hnew|].
  split; [rewrite Hgroups; apply lookup_insert_eq|].
  split; [exact Hg'|]. split; [exact Hsub|].
  split.
  { unfold Heap.entries. rewrite Hgroups, lookup_insert_eq, Hg. simpl.
    now apply values_weaken. }
  split; [exact Hentries|].
  intros keyframe h'' Hadd.
  destruct (HeapFacts.add_other_group key eqb ltb g cloned keyframe h' h'' Hadd)
    as [Hlist Hkfs]; [congruence|].
  split; [now rewrite Hlist|].
  rewrite <- Hentries. unfold Heap.entries. now rewrite Hlist, Hkfs.
Qed.

End Objects.
End CloneObjectFacts.

Module CloneExamples.

(** One latent keyframe, at location [0], in the group at location [0]. *)
Definition latent_heap : LatentObjects.heap :=
  {| Heap.keyframe_objs := {[ 0%nat := Examples.latent 0 1 ]};
     Heap.group_objs := {[ 0%nat := [0%nat] ]} |}.

(** The timestep keyframes of [SchedulerExamples.two_keyframes], in the
    group at location [0]. *)
Definition timestep_heap : @TimestepObjects.heap scalar_torch :=
  {| Heap.keyframe_objs :=
       {[ 0%nat := Examples.timestep 0 1;
          1%nat := SchedulerExamples.second_keyframe ]};
     Heap.group_objs := {[ 0%nat := [0%nat; 1%nat] ]} |}.

End CloneExamples.

(** C7, as the code has it. [clone] of a group whose keys grow strictly
    along its list, as [add] leaves them, and, for a timestep group,
    whose first keyframe has the [start_percent] of the default keyframe,
    returns a new group object whose list holds the keyframe objects of
    the original in the same order, so the same keys and values; no object
    that existed is changed; the list of the clone is its own, and adding to
    the clone leaves the original as it is. The keyframe objects are not
    copied. *)
Theorem clone_shares_keyframes `{Torch} :
  (forall (h : LatentObjects.heap) (g : Heap.loc) (keyframes : list Heap.loc),
     Heap.group_objs h !! g = Some keyframes ->
     Heap.allocated h keyframes ->
     Heap.increasing LatentKeyframe.batch_index Z.ltb h keyframes ->
     exists cloned h',
       LatentObjects.clone g h = Some (cloned, h') /\
       Heap.keyframe_objs h' = Heap.keyframe_objs h /\
       Heap.cloned_from LatentKeyframe.batch_index Z.eqb Z.ltb g cloned h h') /\
  (forall (h : TimestepObjects.heap) (g first : Heap.loc)
          (rest : list Heap.loc),
     Heap.group_objs h !! g = Some (first :: rest) ->
     Heap.allocated h (first :: rest) ->
     Heap.increasing TimestepKeyframe.start_percent PrimFloat.ltb h
       (first :: rest) ->
     Heap.on_keys PrimFloat.eqb
       (Some (TimestepKeyframe.start_percent TimestepKeyframe.default))
       (Heap.key_at TimestepKeyframe.start_percent h first) = true ->
     exists cloned h',
       TimestepObjects.clone g h = Some (cloned, h') /\
       Heap.cloned_from TimestepKeyframe.start_percent PrimFloat.eqb
         PrimFloat.ltb g cloned h h').
Proof.
  assert (forall a b : Z, (a <? b) = true -> (a =? b) = false) as Zlt_neq
    by (intros a b Hlt%Z.ltb_lt; apply Z.eqb_neq; lia).
  assert (forall a b : Z, (a <? b) = true -> (b <? a) = false) as Zlt_asym
    by (intros a b Hlt%Z.ltb_lt; apply Z.ltb_ge; lia).
  split.
  - intros h g keyframes Hg Halloc Hs.
    destruct (HeapFacts.clone_shares LatentKeyframe.batch_index Z.eqb Z.ltb
                Zlt_neq Zlt_asym [] g h keyframes Hg Halloc Hs (or_introl eq_refl))
      as (cloned & h' & Hclone & _ & _ & _ & Hkfs).
    destruct (CloneObjectFacts.clone_cloned_from LatentKeyframe.batch_index
                Z.eqb Z.ltb Zlt_neq Zlt_asym [] g h keyframes Hg Halloc Hs
                (or_introl eq_refl))
      as (cloned' & h'' & Hclone' & Hfrom).
    rewrite Hclone in Hclone'. injection Hclone' as <- <-.
    exists cloned, h'. auto.
  - intros h g first rest Hg Halloc Hs Hfirst.
    apply (CloneObjectFacts.clone_cloned_from TimestepKeyframe.start_percent
             PrimFloat.eqb PrimFloat.ltb FloatOrder.ltb_neq FloatOrder.ltb_asym
             [TimestepKeyframe.default] g h (first :: rest) Hg Halloc Hs).
    right. exists TimestepKeyframe.default, first, rest. auto.
Qed.

Lemma clone_shares_keyframes_witness :
  (exists cloned h',
     LatentObjects.clone 0%nat CloneExamples.latent_heap = Some (cloned, h') /\
     Heap.entries cloned h' = Heap.entries 0%nat CloneExamples.latent_heap) /\
  (exists cloned h',
     @TimestepObjects.clone scalar_torch 0%nat CloneExamples.timestep_heap
     = Some (cloned, h') /\
     Heap.entries cloned h' = Heap.entries 0%nat CloneExamples.timestep_heap).
Proof.
  destruct (@clone_shares_keyframes scalar_torch) as [Hlatent Htimestep].
  split.
  - destruct (Hlatent CloneExamples.latent_heap 0%nat [0%nat])
      as (cloned & h' & Hclone & _ & Hfrom).
    + reflexivity.
    + repeat constructor. eexists. reflexivity.
    + repeat constructor.
    + exists cloned, h'. split; [exact Hclone|]. apply Hfrom.
  - destruct (Htimestep CloneExamples.timestep_heap 0%nat 0%nat [1%nat])
      as (cloned & h' & Hclone & Hfrom).
    + reflexivity.
    + repeat constructor; eexists; reflexivity.
    + repeat constructor.
    + reflexivity.
    + exists cloned, h'. split; [exact Hclone|]. apply Hfrom.
Defined.

(** C7 as stated fails. The clone shares its keyframe objects with the
    original: after an assignment to the strength of the one entry of the
    clone, the original group holds a keyframe of that strength. And the
    clone of a timestep group that has no keyframe at [0.0] has one
    keyframe more, the default one. *)
Lemma clone_independence_counterexample :
  ~ (forall (h : LatentObjects.heap) (g cloned l : Heap.loc)
            (h' : LatentObjects.heap) (keyframes : list Heap.loc)
            (kf : LatentKeyframe.t),
       LatentObjects.clone g h = Some (cloned, h') ->
       Heap.group_objs h' !! cloned = Some keyframes ->
       In l keyframes ->
       Heap.entries g (Heap.assign l kf h') = Heap.entries g h') /\
  ~ (forall g : @TimestepKeyframeGroup.t scalar_torch,
       TimestepKeyframeGroup.clone g = g).
Proof.
  split.
  - intros Hc.
    destruct (LatentObjects.clone 0%nat CloneExamples.latent_heap)
      as [[cloned h']|] eqn:Hclone; [|vm_compute in Hclone; discriminate].
    specialize (Hc CloneExamples.latent_heap 0%nat cloned 0%nat h' [0%nat]
                  (Examples.latent 0 5) Hclone).
    vm_compute in Hclone. injection Hclone as <- <-.
    specialize (Hc eq_refl (or_introl eq_refl)).
    apply (f_equal (fun r => match r with
                             | Some [kf] => (LatentKeyframe.strength kf =? 5)%float
                             | _ => false
                             end)) in Hc.
    vm_compute in Hc. discriminate.
  - intros Hc.
    specialize (Hc (TimestepKeyframeGroup.default (Examples.timestep 0.5 1))).
    apply (f_equal length) in Hc. vm_compute in Hc. discriminate.
Qed.

(** ** Latent keyframes on a batch *)

Module LatentExamples.

(** A timestep keyframe at [0.0] that carries the latent keyframes [g]
    and the strength [null] for the other slots. *)
Definition latent_timestep (g : LatentKeyframeGroup.t) (null : float)
  : @TimestepKeyframe.t scalar_torch :=
  TimestepKeyframe.init 0 1 StrengthInterpolation.NONE None (Some g)
    null true true None.

(** A node, after the first step of a run, with that one keyframe. *)
Definition latent_node (g : LatentKeyframeGroup.t) (null : float)
  : @AdvancedControlBase.state scalar_torch :=
  MergeExamples.prepared
    (SchedulerExamples.controlnet_node [latent_timestep g null]).

(** A batch of [n] slots that hold [1.0]. *)
Definition ones (n : nat) : @Tensor scalar_torch := repeat 1%float n.

End LatentExamples.

(** Without a subset of indices, the branch for latent keyframes is a
    sequence of multiplications of single slots, [x[k] = x[k] * s]; a slot
    ends up multiplied by the factors of the multiplications that name it. *)

Module LatentFacts.
Section WithTorch.
Context `{Torch}.

Import AdvancedControlBase.

(** One multiplication of one slot: the index and the factor. *)
Definition op : Type := (Z * float)%type.

(** A slot function after one more multiplication at index [k]. *)
Definition upd (k : Z) (s : float) (F : nat -> Slot -> Slot)
  : nat -> Slot -> Slot :=
  fun p v => if Z.of_nat p =? k then slot_mul (F p v) s else F p v.

Definition run (ops : list op) (x : Tensor) : Py.result Tensor :=
  Py.for_each (fun x o => scale_slot o.1 o.2 x) ops x.

Lemma for_each_app {A S : Type} (body : S -> A -> Py.result S)
    (l1 l2 : list A) (acc : S) :
  Py.for_each body (l1 ++ l2) acc
  = (do acc' <- Py.for_each body l1 acc; Py.for_each body l2 acc').
Proof.
  revert acc. induction l1 as [|a l1 IH]; intros acc; simpl; [reflexivity|].
  destruct (body acc a); simpl; [apply IH|reflexivity].
Qed.

Lemma for_each_map {A B S : Type} (body : S -> B -> Py.result S)
    (g : A -> B) (l : list A) (acc : S) :
  Py.for_each body (map g l) acc = Py.for_each (fun s a => body s (g a)) l acc.
Proof.
  revert acc. induction l as [|a l IH]; intros acc; simpl; [reflexivity|].
  destruct (body acc (g a)); simpl; [apply IH|reflexivity].
Qed.

Lemma scale_slot_imap (k : Z) (s : float) (F : nat -> Slot -> Slot)
    (x : Tensor) :
  0 <= k < Py.len x ->
  scale_slot k s (imap F x) = Py.Ok (imap (upd k s F) x).
Proof.
  unfold Tensor in *.
  intros Hk. unfold scale_slot, Py.getitem, Py.setitem.
  assert (Py.len (imap F x) = Py.len x) as Hlen
    by (unfold Py.len; now rewrite length_imap).
  rewrite Hlen, PyFacts.position_inside by assumption.
  rewrite list_lookup_imap.
  destruct (lookup_lt_is_Some_2 x (Z.to_nat k)) as [v Hv];
    [unfold Py.len in Hk; lia|].
  rewrite Hv. simpl. f_equal.
  apply list_eq. intros i.
  destruct (decide (i = Z.to_nat k)) as [->|Hne].
  - rewrite list_lookup_insert_eq by (rewrite length_imap; unfold Py.len in Hk; lia).
    rewrite list_lookup_imap, Hv. simpl. unfold upd.
    rewrite Z2Nat.id, Z.eqb_refl by lia. reflexivity.
  - rewrite list_lookup_insert_ne by auto.
    rewrite !list_lookup_imap. destruct (x !! i); simpl; [|reflexivity].
    unfold upd. destruct (Z.eqb_spec (Z.of_nat i) k); [lia|reflexivity].
Qed.

Lemma run_imap (ops : list op) (F : nat -> Slot -> Slot) (x : Tensor) :
  Forall (fun o => 0 <= o.1 < Py.len x) ops ->
  run ops (imap F x)
  = Py.Ok (imap (foldl (fun F o => upd o.1 o.2 F) F ops) x).
Proof.
  revert F. induction ops as [|o ops IH]; intros F Hall; simpl; [reflexivity|].
  apply Forall_cons_1 in Hall as [Ho Hops].
  unfold run in *. simpl. rewrite scale_slot_imap by assumption. simpl.
  now apply IH.
Qed.

(** The slot a batch index stands for when no subset is set. *)
Definition real_index (count : Z) (kf : LatentKeyframe.t) : Z :=
  if LatentKeyframe.batch_index kf <? 0
  then LatentKeyframe.batch_index kf + count
  else LatentKeyframe.batch_index kf.

(** The multiplications of slot [j] in each part of the batch. *)
Definition batch_ops (count batched_number j : Z) (s : float) : list op :=
  map (fun b => (count * b + j, s)) (Py.range_from 0 batched_number).

Definition keyframe_ops (count batched_number : Z) (g : list LatentKeyframe.t)
  : list op :=
  flat_map
    (fun kf => batch_ops count batched_number (real_index count kf)
                 (LatentKeyframe.strength kf)) g.

Definition null_ops (count batched_number : Z) (null : float) (l : list Z)
  : list op :=
  flat_map (fun i => batch_ops count batched_number i null) l.

(** [indeces_to_null] after the loop over the keyframes. *)
Definition remaining (count : Z) (g : list LatentKeyframe.t) (s : gset Z)
  : gset Z :=
  foldl (fun s kf =>
           if decide (real_index count kf ∈ s) then s ∖ {[real_index count kf]}
           else s) s g.

Lemma scale_in_each_batch_run (count batched_number j : Z) (s : float)
    (x : Tensor) :
  scale_in_each_batch count batched_number j s x
  = run (batch_ops count batched_number j s) x.
Proof.
  unfold scale_in_each_batch, run, batch_ops. now rewrite for_each_map.
Qed.

Lemma run_app (ops1 ops2 : list op) (x : Tensor) :
  run (ops1 ++ ops2) x = (do x' <- run ops1 x; run ops2 x').
Proof. apply for_each_app. Qed.

Lemma latent_keyframe_step_run (self : state) (count batched_number : Z)
    (x : Tensor) (s : gset Z) (kf : LatentKeyframe.t) :
  sub_idxs self = None ->
  latent_keyframe_step self count batched_number None (x, s) kf
  = (do x' <- run (batch_ops count batched_number (real_index count kf)
                     (LatentKeyframe.strength kf)) x;
     Py.Ok (x', if decide (real_index count kf ∈ s)
                then s ∖ {[real_index count kf]} else s)).
Proof.
  intros Hsub. unfold latent_keyframe_step. rewrite Hsub. simpl.
  fold (real_index count kf). now rewrite scale_in_each_batch_run.
Qed.

Lemma keyframe_loop (self : state) (count batched_number : Z)
    (g : list LatentKeyframe.t) (x : Tensor) (s : gset Z) :
  sub_idxs self = None ->
  Py.for_each (latent_keyframe_step self count batched_number None) g (x, s)
  = (do x' <- run (keyframe_ops count batched_number g) x;
     Py.Ok (x', remaining count g s)).
Proof.
  intros Hsub. revert x s. induction g as [|kf g IH]; intros x s;
    [reflexivity|].
  cbn [Py.for_each]. rewrite latent_keyframe_step_run by assumption.
  unfold keyframe_ops. cbn [flat_map]. rewrite run_app.
  destruct (run (batch_ops _ _ _ _) x) as [x'|e]; simpl; [|reflexivity].
  apply IH.
Qed.

Lemma null_batch_loop (self : state) (tk : TimestepKeyframe.t)
    (count i : Z) (bs : list Z) (x : Tensor) :
  current_timestep_keyframe self = Some tk ->
  Py.for_each
    (fun x b =>
       do tk <- attribute (current_timestep_keyframe self);
       scale_slot (count * b + i) (TimestepKeyframe.null_latent_kf_strength tk) x)
    bs x
  = run (map (fun b => (count * b + i,
                        TimestepKeyframe.null_latent_kf_strength tk)) bs) x.
Proof.
  intros Htk. rewrite Htk. revert x.
  induction bs as [|b bs IH]; intros x; [reflexivity|].
  unfold run in *. simpl.
  destruct (scale_slot _ _ x); simpl; [apply IH|reflexivity].
Qed.

Lemma null_loop (self : state) (tk : TimestepKeyframe.t)
    (count batched_number : Z) (l : list Z) (x : Tensor) :
  current_timestep_keyframe self = Some tk ->
  Py.for_each
    (fun x batch_index =>
       Py.for_each
         (fun x b =>
            do tk <- attribute (current_timestep_keyframe self);
            scale_slot (count * b + batch_index)
              (TimestepKeyframe.null_latent_kf_strength tk) x)
         (Py.range_from 0 batched_number) x)
    l x
  = run (null_ops count batched_number
           (TimestepKeyframe.null_latent_kf_strength tk) l) x.
Proof.
  intros Htk. revert x. induction l as [|i l IH]; intros x; [reflexivity|].
  cbn [Py.for_each null_ops flat_map].
  rewrite (null_batch_loop self tk) by assumption.
  fold (batch_ops count batched_number i
          (TimestepKeyframe.null_latent_kf_strength tk)).
  rewrite run_app.
  destruct (run (batch_ops _ _ _ _) x); simpl; [apply IH|reflexivity].
Qed.

(** Without a subset, the branch for latent keyframes is a sequence of
    multiplications of single slots. *)
Lemma apply_latent_keyframes_run (self : state) (tk : TimestepKeyframe.t)
    (g : list LatentKeyframe.t) (x : Tensor) (batched_number : Z) :
  sub_idxs self = None ->
  current_timestep_keyframe self = Some tk ->
  batched_number <> 0 ->
  apply_latent_keyframes self g x (Some batched_number)
  = run (keyframe_ops (Py.len x `div` batched_number) batched_number g ++
         null_ops (Py.len x `div` batched_number) batched_number
           (TimestepKeyframe.null_latent_kf_strength tk)
           (elements
              (remaining (Py.len x `div` batched_number) g
                 (list_to_set
                    (Py.range_from 0 (Py.len x `div` batched_number))))))
      x.
Proof.
  intros Hsub Htk Hbn. unfold apply_latent_keyframes. simpl.
  destruct (Z.eqb_spec batched_number 0); [contradiction|].
  rewrite Hsub, keyframe_loop by assumption.
  rewrite run_app.
  destruct (run (keyframe_ops _ _ _) x) as [x'|e]; simpl; [|reflexivity].
  now apply null_loop.
Qed.

(** The factors of the multiplications of the slot at position [p], in
    their order. *)
Definition factors_at (p : nat) (ops : list op) : list float :=
  snd <$> filter (fun o => o.1 = Z.of_nat p) ops.

Lemma factors_at_app (p : nat) (ops1 ops2 : list op) :
  factors_at p (ops1 ++ ops2) = factors_at p ops1 ++ factors_at p ops2.
Proof. unfold factors_at. now rewrite filter_app, fmap_app. Qed.

Lemma foldl_upd (ops : list op) (F : nat -> Slot -> Slot) (p : nat) (v : Slot) :
  foldl (fun F o => upd o.1 o.2 F) F ops p v
  = foldl slot_mul (F p v) (factors_at p ops).
Proof.
  revert F. induction ops as [|o ops IH]; intros F; [reflexivity|].
  simpl. rewrite IH. unfold factors_at. rewrite filter_cons. unfold upd.
  destruct (decide (o.1 = Z.of_nat p)) as [->|Hne].
  - now rewrite Z.eqb_refl.
  - destruct (Z.eqb_spec (Z.of_nat p) o.1); [congruence|reflexivity].
Qed.

Lemma slot_index_inj (count b b' j j' : Z) :
  0 <= j < count -> 0 <= j' < count ->
  count * b' + j' = count * b + j -> b' = b /\ j' = j.
Proof.
  intros Hj Hj' Heq.
  assert (b' = b) as -> by nia. split; [reflexivity|lia].
Qed.

Lemma factors_at_miss (p : nat) (count j' : Z) (s : float) (bs : list Z) :
  Forall (fun b' => count * b' + j' <> Z.of_nat p) bs ->
  factors_at p (map (fun b' => (count * b' + j', s)) bs) = [].
Proof.
  induction 1 as [|b' bs Hb _ IH]; [reflexivity|].
  unfold factors_at in *. simpl. rewrite filter_cons. simpl.
  destruct (decide (count * b' + j' = Z.of_nat p)); [contradiction|assumption].
Qed.

Lemma factors_at_hit (p : nat) (count b j : Z) (s : float) (bs : list Z) :
  0 <= j < count -> Z.of_nat p = count * b + j ->
  NoDup bs -> In b bs ->
  factors_at p (map (fun b' => (count * b' + j, s)) bs) = [s].
Proof.
  intros Hj Hp Hnodup. induction Hnodup as [|a bs Ha Hnodup IH]; intros Hin;
    [contradiction|].
  unfold factors_at in *. simpl. rewrite filter_cons. simpl.
  destruct (decide (count * a + j = Z.of_nat p)) as [Heq|Hne].
  - rewrite Hp in Heq. apply slot_index_inj in Heq as [-> _]; [|assumption..].
    simpl. f_equal.
    apply (factors_at_miss p count j s bs).
    apply Forall_forall. intros b' Hb' Heq. rewrite Hp in Heq.
    apply slot_index_inj in Heq as [-> _]; [|assumption..]. contradiction.
  - destruct Hin as [->|Hin]; [lia|]. now apply IH.
Qed.

Lemma NoDup_range_from (a b : Z) : NoDup (Py.range_from a b).
Proof.
  unfold Py.range_from. apply NoDup_fmap_2_strong; [|apply NoDup_seq].
  intros x y _ _. lia.
Qed.

Lemma in_range_from (a b i : Z) : a <= i < b -> In i (Py.range_from a b).
Proof.
  intros Hi. unfold Py.range_from. apply in_map_iff.
  exists (Z.to_nat (i - a)). split; [lia|]. apply in_seq. lia.
Qed.

(** The factors that the multiplications for slot [j'] put on the slot
    [j] of part [b] of the batch. *)
Lemma factors_at_batch (p : nat) (count batched_number b j j' : Z) (s : float) :
  0 <= j < count -> 0 <= j' < count -> 0 <= b < batched_number ->
  Z.of_nat p = count * b + j ->
  factors_at p (batch_ops count batched_number j' s)
  = if decide (j' = j) then [s] else [].
Proof.
  intros Hj Hj' Hb Hp. unfold batch_ops.
  destruct (decide (j' = j)) as [->|Hne].
  - apply (factors_at_hit p count b j); auto using NoDup_range_from, in_range_from.
  - apply factors_at_miss. apply Forall_forall. intros b' _ Heq.
    rewrite Hp in Heq. apply slot_index_inj in Heq as [_ ?]; auto.
Qed.

Lemma factors_at_keyframes (p : nat) (count batched_number b j : Z)
    (g : list LatentKeyframe.t) :
  0 <= j < count -> 0 <= b < batched_number ->
  Z.of_nat p = count * b + j ->
  Forall (fun kf => 0 <= real_index count kf < count) g ->
  factors_at p (keyframe_ops count batched_number g)
  = LatentKeyframe.strength <$> filter (fun kf => real_index count kf = j) g.
Proof.
  intros Hj Hb Hp. induction 1 as [|kf g Hkf _ IH]; [reflexivity|].
  unfold keyframe_ops in *. cbn [flat_map].
  rewrite factors_at_app, IH, filter_cons.
  rewrite (factors_at_batch p count batched_number b j) by assumption.
  destruct (decide (real_index count kf = j)); reflexivity.
Qed.

Lemma factors_at_null (p : nat) (count batched_number b j : Z) (null : float)
    (l : list Z) :
  0 <= j < count -> 0 <= b < batched_number ->
  Z.of_nat p = count * b + j ->
  NoDup l -> Forall (fun i => 0 <= i < count) l ->
  factors_at p (null_ops count batched_number null l)
  = if decide (j ∈ l) then [null] else [].
Proof.
  intros Hj Hb Hp. induction 1 as [|i l Hi Hnodup IH]; intros Hall;
    [reflexivity|].
  apply Forall_cons_1 in Hall as [Hrange Hall].
  unfold null_ops in *. cbn [flat_map].
  rewrite factors_at_app, IH by assumption.
  rewrite (factors_at_batch p count batched_number b j) by assumption.
  destruct (decide (i = j)) as [->|Hne].
  - rewrite (decide_False (P := j ∈ l)) by assumption.
    now rewrite (decide_True (P := j ∈ j :: l)) by (apply elem_of_cons; auto).
  - destruct (decide (j ∈ l)) as [Hin|Hout].
    + now rewrite (decide_True (P := j ∈ i :: l)) by (apply elem_of_cons; auto).
    + rewrite (decide_False (P := j ∈ i :: l)); [reflexivity|].
      intros [?|?]%elem_of_cons; congruence.
Qed.

(** No multiplication reaches a position at or above
    [count * batched_number]. *)
Lemma factors_at_beyond (p : nat) (count batched_number : Z) (ops : list op) :
  Forall (fun o => o.1 < count * batched_number) ops ->
  count * batched_number <= Z.of_nat p ->
  factors_at p ops = [].
Proof.
  intros Hall Hp. unfold factors_at.
  induction Hall as [|o ops Ho _ IH]; [reflexivity|].
  rewrite filter_cons. destruct (decide (o.1 = Z.of_nat p)); [lia|assumption].
Qed.

Lemma batch_ops_bounds (count batched_number j : Z) (s : float) :
  0 <= j < count ->
  Forall (fun o => 0 <= o.1 < count * batched_number)
    (batch_ops count batched_number j s).
Proof.
  intros Hj. unfold batch_ops. apply Forall_forall.
  intros o (b & -> & Hb%list_elem_of_In%TimestepFacts.range_from_bounds)%list_elem_of_fmap.
  simpl. nia.
Qed.

Lemma flat_batch_ops_bounds {A : Type} (count batched_number : Z)
    (slot : A -> Z) (factor : A -> float) (l : list A) :
  Forall (fun a => 0 <= slot a < count) l ->
  Forall (fun o => 0 <= o.1 < count * batched_number)
    (flat_map (fun a => batch_ops count batched_number (slot a) (factor a)) l).
Proof.
  induction 1 as [|a l Ha _ IH]; [constructor|].
  cbn [flat_map]. apply Forall_app. split; [|assumption].
  now apply batch_ops_bounds.
Qed.

Lemma remaining_spec (count i : Z) (g : list LatentKeyframe.t) (s : gset Z) :
  i ∈ remaining count g s <->
  i ∈ s /\ Forall (fun kf => real_index count kf <> i) g.
Proof.
  revert s. induction g as [|kf g IH]; intros s; simpl.
  - split; [intros Hi; split; [assumption|constructor]|now intros [Hi _]].
  - rewrite IH, Forall_cons.
    destruct (decide (real_index count kf ∈ s)) as [Hin|Hout].
    + rewrite elem_of_difference, elem_of_singleton. intuition congruence.
    + intuition congruence.
Qed.

Lemma real_index_inside (count : Z) (kf : LatentKeyframe.t) :
  - count <= LatentKeyframe.batch_index kf < count ->
  0 <= real_index count kf < count.
Proof.
  unfold real_index. destruct (Z.ltb_spec (LatentKeyframe.batch_index kf) 0); lia.
Qed.

Lemma imap_id (x : Tensor) : imap (fun _ v => v) x = x.
Proof.
  unfold Tensor in *. apply list_eq. intros i. rewrite list_lookup_imap.
  now destruct (x !! i).
Qed.

(** What the branch makes of a slot: its product with the strengths of
    the keyframes that stand for it, in the order of the group, or with
    [null] when no keyframe does. *)
Definition scaled_slot (count : Z) (null : float) (g : list LatentKeyframe.t)
    (j : Z) (v : Slot) : Slot :=
  match filter (fun kf => real_index count kf = j) g with
  | [] => slot_mul v null
  | ks => foldl slot_mul v (LatentKeyframe.strength <$> ks)
  end.

(** Without a subset and with every batch index inside the batch, the
    branch for latent keyframes returns; in each of the [batched_number]
    parts of the batch every slot is multiplied by the strengths of its
    keyframes or, without one, by [null_latent_kf_strength]; the slots
    after the last part are left as they are. *)
Theorem latent_keyframes_inside_batch (self : state)
    (tk : TimestepKeyframe.t) (g : list LatentKeyframe.t) (x : Tensor)
    (batched_number : Z) :
  sub_idxs self = None ->
  current_timestep_keyframe self = Some tk ->
  0 < batched_number ->
  Forall
    (fun kf =>
       - (Py.len x `div` batched_number) <= LatentKeyframe.batch_index kf
       < Py.len x `div` batched_number) g ->
  exists x',
    apply_latent_keyframes self g x (Some batched_number) = Py.Ok x' /\
    length x' = length x /\
    (forall (b j : Z) (v : Slot),
       0 <= b < batched_number ->
       0 <= j < Py.len x `div` batched_number ->
       x !! Z.to_nat (Py.len x `div` batched_number * b + j) = Some v ->
       x' !! Z.to_nat (Py.len x `div` batched_number * b + j)
       = Some (scaled_slot (Py.len x `div` batched_number)
                 (TimestepKeyframe.null_latent_kf_strength tk) g j v)) /\
    (forall p : nat,
       Py.len x `div` batched_number * batched_number <= Z.of_nat p ->
       x' !! p = x !! p).
Proof.
  unfold Tensor in *. intros Hsub Htk Hbn Hg.
  set (count := Py.len x `div` batched_number) in *.
  set (null := TimestepKeyframe.null_latent_kf_strength tk).
  assert (count * batched_number <= Py.len x) as Hfit.
  { unfold count. rewrite Z.mul_comm. apply Z.mul_div_le. assumption. }
  assert (Forall (fun kf => 0 <= real_index count kf < count) g) as Hres.
  { eapply Forall_impl; [exact Hg|]. intros kf. apply real_index_inside. }
  set (left_over :=
         elements (remaining count g (list_to_set (Py.range_from 0 count)))).
  assert (forall i, i ∈ left_over <->
                    0 <= i < count /\ Forall (fun kf => real_index count kf <> i) g)
    as Hleft.
  { intros i. unfold left_over.
    rewrite elem_of_elements, remaining_spec, elem_of_list_to_set.
    split; intros [Hi Hall]; split; try assumption.
    - now apply list_elem_of_In, TimestepFacts.range_from_bounds in Hi.
    - now apply list_elem_of_In, in_range_from. }
  assert (Forall (fun i => 0 <= i < count) left_over) as Hleft_range.
  { apply Forall_forall. intros i Hi. now apply Hleft in Hi as [Hi _]. }
  set (ops := keyframe_ops count batched_number g ++
              null_ops count batched_number null left_over).
  assert (Forall (fun o => 0 <= o.1 < count * batched_number) ops) as Hops.
  { apply Forall_app. split; now apply flat_batch_ops_bounds. }
  rewrite (apply_latent_keyframes_run self tk) by (assumption || lia).
  fold count. fold null. fold left_over. fold ops.
  replace (run ops x) with (run ops (imap (fun _ v => v) x))
    by now rewrite imap_id.
  rewrite run_imap
    by (eapply Forall_impl; [exact Hops|]; simpl; intros o Ho; lia).
  eexists. split; [reflexivity|].
  split; [apply length_imap|]. split.
  - intros b j v Hb Hj Hv.
    rewrite list_lookup_imap, Hv. simpl. f_equal.
    rewrite foldl_upd. unfold ops. rewrite factors_at_app.
    rewrite (factors_at_keyframes _ count batched_number b j),
      (factors_at_null _ count batched_number b j) by
        (assumption || (unfold left_over; apply NoDup_elements) || nia).
    unfold scaled_slot.
    destruct (filter (fun kf => real_index count kf = j) g) as [|kf ks] eqn:Hf.
    + rewrite decide_True; [reflexivity|].
      apply Hleft. split; [assumption|].
      apply Forall_forall. intros kf Hkf Heq.
      now apply (filter_nil_not_elem_of _ _ kf Hf).
    + rewrite decide_False; [now rewrite app_nil_r|].
      intros [_ Hall]%Hleft.
      assert (kf ∈ filter (fun kf => real_index count kf = j) g) as Hin
        by (rewrite Hf; left).
      apply list_elem_of_filter in Hin as [Hkf Hin].
      rewrite Forall_forall in Hall. now apply (Hall kf).
  - intros p Hp.
    rewrite list_lookup_imap.
    destruct (x !! p) as [v|]; simpl; [|reflexivity].
    rewrite foldl_upd, (factors_at_beyond p count batched_number); auto.
    eapply Forall_impl; [exact Hops|]. simpl. intros o Ho. lia.
Qed.

End WithTorch.
End LatentFacts.

(** The theorem at the keyframes [(0, 2.0)] and [(2, 0.5)] over four
    slots: slot [2] of the one part of the batch. *)
Example latent_keyframes_inside_batch_example :
  exists x',
    AdvancedControlBase.apply_latent_keyframes
      (LatentExamples.latent_node [Examples.latent 0 2; Examples.latent 2 0.5] 0)
      [Examples.latent 0 2; Examples.latent 2 0.5]
      (LatentExamples.ones 4) (Some 1)
    = Py.Ok x' /\
    x' !! 2%nat = Some 0.5%float /\ x' !! 3%nat = Some 0%float.
Proof.
  destruct (@LatentFacts.latent_keyframes_inside_batch scalar_torch
              (LatentExamples.latent_node
                 [Examples.latent 0 2; Examples.latent 2 0.5] 0)
              (LatentExamples.latent_timestep
                 [Examples.latent 0 2; Examples.latent 2 0.5] 0)
              [Examples.latent 0 2; Examples.latent 2 0.5]
              (LatentExamples.ones 4) 1)
    as (x' & Hx' & _ & Hslots & _).
  - reflexivity.
  - vm_compute. reflexivity.
  - lia.
  - repeat constructor; vm_compute; congruence.
  - exists x'. split; [exact Hx'|]. split.
    + apply (Hslots 0 2 1%float); [lia|vm_compute; intuition congruence|reflexivity].
    + apply (Hslots 0 3 1%float); [lia|vm_compute; intuition congruence|reflexivity].
Qed.

(** C6, at the inputs the code does not handle. With the latent keyframes
    [(0, 2.0)] and [(2, 0.5)] over four slots and the strength [0.0] for
    the others, slot [0] is scaled by [2.0], slot [2] by [0.5] and slots
    [1] and [3] become zero, in each cond/uncond part of the batch; the
    batch index [-1] is slot [3]. But a keyframe whose batch index is not
    one of the batch is not skipped: with [(5, 2.0)] over four slots the
    call raises [IndexError], and with [(-5, 2.0)] it scales slot [3] by
    [2.0] on top of the strength for slots without a keyframe. *)
Theorem latent_keyframe_outside_batch :
  AdvancedControlBase.apply_advanced_strengths_and_masks
    (LatentExamples.latent_node [Examples.latent 5 2] 0)
    (LatentExamples.ones 4) (Some 1)
  = Py.Raise Py.IndexError /\
  AdvancedControlBase.apply_advanced_strengths_and_masks
    (LatentExamples.latent_node [Examples.latent (-5) 2] 0.5)
    (LatentExamples.ones 4) (Some 1)
  = Py.Ok [0.5; 0.5; 0.5; 1]%float /\
  AdvancedControlBase.apply_advanced_strengths_and_masks
    (LatentExamples.latent_node [Examples.latent 0 2; Examples.latent 2 0.5] 0)
    (LatentExamples.ones 4) (Some 1)
  = Py.Ok [2; 0; 0.5; 0]%float /\
  AdvancedControlBase.apply_advanced_strengths_and_masks
    (LatentExamples.latent_node [Examples.latent 0 2; Examples.latent 2 0.5] 0)
    (LatentExamples.ones 8) (Some 2)
  = Py.Ok [2; 0; 0.5; 0; 2; 0; 0.5; 0]%float /\
  AdvancedControlBase.apply_advanced_strengths_and_masks
    (LatentExamples.latent_node [Examples.latent (-1) 3] 0)
    (LatentExamples.ones 4) (Some 1)
  = Py.Ok [0; 0; 0; 3]%float.
Proof.
  repeat split; vm_compute; reflexivity.
Qed.


(** * Further properties *)

(** ** More on the order of floats *)

Module FloatOrderFacts.

Import FloatOrder.

Lemma rank_cmp_Eq (a b : Z * Z * Z) : rank_cmp a b = Eq -> a = b.
Proof.
  destruct a as [[a1 a2] a3], b as [[b1 b2] b3]. unfold rank_cmp. simpl.
  destruct (Z.compare_spec a1 b1); try discriminate.
  destruct (Z.compare_spec a2 b2); try discriminate.
  destruct (Z.compare_spec a3 b3); try discriminate.
  congruence.
Qed.

Lemma rank_cmp_lt_trans (a b c : Z * Z * Z) :
  rank_cmp a b = Lt -> rank_cmp b c = Lt -> rank_cmp a c = Lt.
Proof.
  destruct a as [[a1 a2] a3], b as [[b1 b2] b3], c as [[c1 c2] c3].
  unfold rank_cmp; simpl.
  destruct (Z.compare_spec a1 b1), (Z.compare_spec b1 c1), (Z.compare_spec a1 c1);
    try lia; try congruence;
    destruct (Z.compare_spec a2 b2), (Z.compare_spec b2 c2), (Z.compare_spec a2 c2);
    try lia; try congruence;
    destruct (Z.compare_spec a3 b3), (Z.compare_spec b3 c3), (Z.compare_spec a3 c3);
    try lia; congruence.
Qed.

Lemma ltb_not_nan (x y : float) :
  (x <? y)%float = true -> Prim2SF x <> S754_nan /\ Prim2SF y <> S754_nan.
Proof. intros Hlt%ltb_leb. now apply leb_not_nan. Qed.

Lemma eqb_not_nan (x y : float) :
  (x =? y)%float = true -> Prim2SF x <> S754_nan /\ Prim2SF y <> S754_nan.
Proof.
  rewrite FloatAxioms.eqb_spec. unfold SFeqb.
  destruct (Prim2SF x), (Prim2SF y); simpl; try discriminate; split; congruence.
Qed.

Lemma eqb_rank (x y : float) :
  Prim2SF x <> S754_nan -> Prim2SF y <> S754_nan ->
  (x =? y)%float = true <-> rank_cmp (rank (Prim2SF x)) (rank (Prim2SF y)) = Eq.
Proof.
  intros Hx Hy. rewrite FloatAxioms.eqb_spec. unfold SFeqb.
  rewrite (SFcompare_rank _ _ Hx Hy).
  destruct (rank_cmp _ _); split; congruence.
Qed.

Lemma eqb_same_rank (x y : float) :
  (x =? y)%float = true -> rank (Prim2SF x) = rank (Prim2SF y).
Proof.
  intros Heq. destruct (eqb_not_nan _ _ Heq) as [Hx Hy].
  now apply rank_cmp_Eq, eqb_rank.
Qed.

Lemma ltb_trans (x y z : float) :
  (x <? y)%float = true -> (y <? z)%float = true -> (x <? z)%float = true.
Proof.
  intros Hxy Hyz.
  destruct (ltb_not_nan _ _ Hxy) as [Hx Hy], (ltb_not_nan _ _ Hyz) as [_ Hz].
  apply ltb_rank in Hxy, Hyz; auto. apply ltb_rank; auto.
  eapply rank_cmp_lt_trans; eauto.
Qed.

(** Of two floats other than NaN one is below the other, or they are
    equal. *)
Lemma ltb_trichotomy (x y : float) :
  is_nan x = false -> is_nan y = false ->
  (x <? y)%float = false -> (x =? y)%float = false -> (y <? x)%float = true.
Proof.
  intros Hx%not_nan Hy%not_nan Hlt Heq.
  apply ltb_rank; auto. rewrite rank_cmp_antisym.
  destruct (rank_cmp (rank (Prim2SF x)) (rank (Prim2SF y))) eqn:Hc;
    [|apply ltb_rank in Hc; auto; congruence|reflexivity].
  apply eqb_rank in Hc; auto. congruence.
Qed.

(** Floats that are [==] compare alike with every float. *)
Lemma compare_same_rank (x y z : float) :
  Prim2SF x <> S754_nan -> Prim2SF y <> S754_nan ->
  rank (Prim2SF x) = rank (Prim2SF y) ->
  SFcompare (Prim2SF z) (Prim2SF x) = SFcompare (Prim2SF z) (Prim2SF y) /\
  SFcompare (Prim2SF x) (Prim2SF z) = SFcompare (Prim2SF y) (Prim2SF z).
Proof.
  intros Hx Hy Hr.
  destruct (Prim2SF z) eqn:Hz.
  1,2,4: rewrite !SFcompare_rank by congruence; rewrite Hr; split; reflexivity.
  destruct (Prim2SF x), (Prim2SF y); try congruence; split; reflexivity.
Qed.

Lemma eqb_ltb_l (x y z : float) :
  (x =? y)%float = true -> (z <? x)%float = (z <? y)%float.
Proof.
  intros Heq. destruct (eqb_not_nan _ _ Heq) as [Hx Hy].
  rewrite !ltb_spec. unfold SFltb.
  destruct (compare_same_rank x y z Hx Hy (eqb_same_rank _ _ Heq)) as [-> _].
  reflexivity.
Qed.

Lemma eqb_ltb_r (x y z : float) :
  (x =? y)%float = true -> (x <? z)%float = (y <? z)%float.
Proof.
  intros Heq. destruct (eqb_not_nan _ _ Heq) as [Hx Hy].
  rewrite !ltb_spec. unfold SFltb.
  destruct (compare_same_rank x y z Hx Hy (eqb_same_rank _ _ Heq)) as [_ ->].
  reflexivity.
Qed.

Lemma eqb_eqb_l (x y z : float) :
  (x =? y)%float = true -> (z =? x)%float = (z =? y)%float.
Proof.
  intros Heq. destruct (eqb_not_nan _ _ Heq) as [Hx Hy].
  rewrite !FloatAxioms.eqb_spec. unfold SFeqb.
  destruct (compare_same_rank x y z Hx Hy (eqb_same_rank _ _ Heq)) as [-> _].
  reflexivity.
Qed.

Lemma eqb_is_nan (x y : float) :
  (x =? y)%float = true -> is_nan x = false /\ is_nan y = false.
Proof.
  intros Heq. destruct (eqb_not_nan _ _ Heq) as [Hx Hy].
  split; unfold is_nan; apply negb_false_iff, eqb_rank; auto;
    destruct (rank _) as [[a b] c]; unfold rank_cmp; simpl;
    now rewrite !Z.compare_refl.
Qed.

Lemma eqb_sym (x y : float) : (x =? y)%float = (y =? x)%float.
Proof.
  rewrite !FloatAxioms.eqb_spec. unfold SFeqb.
  destruct (Prim2SF x) as [sx|sx| |sx mx ex] eqn:Hx.
  3: destruct (Prim2SF y) as [| | |[]]; reflexivity.
  all: destruct (Prim2SF y) as [sy|sy| |sy my ey] eqn:Hy.
  all: try (destruct sx; reflexivity).
  all: rewrite !SFcompare_rank by congruence.
  all: rewrite (rank_cmp_antisym (rank _) (rank _)).
  all: destruct (rank_cmp _ _); reflexivity.
Qed.

End FloatOrderFacts.

(** ** The order a group keeps

    The source says of both groups: always maintain sorted state. A list
    is [strictly_increasing] when the keys grow strictly along it; then no two
    entries have the same key. *)

Definition strictly_increasing {E K : Type} (key : E -> K) (ltb : K -> K -> bool)
    (l : list E) : Prop :=
  StronglySorted (fun a b => ltb (key a) (key b) = true) l.

(** The keyframe [e] is in [ks], and no keyframe after it there has its
    key. *)
Definition last_with_key {E K : Type} (key : E -> K) (eqb : K -> K -> bool)
    (e : E) (ks : list E) : Prop :=
  exists pre post,
    ks = pre ++ e :: post /\ Forall (fun k => eqb (key e) (key k) = false) post.

Module OrderFacts.
Section Generic.

Context {E K : Type} (key : E -> K) (eqb ltb : K -> K -> bool).

(** [D] holds of the keys that [<] and [==] order totally: every int,
    every float but NaN. *)
Variable D : K -> Prop.
Hypothesis lt_asym : forall a b, ltb a b = true -> ltb b a = false.
Hypothesis lt_trans :
  forall a b c, ltb a b = true -> ltb b c = true -> ltb a c = true.
Hypothesis lt_not_eq : forall a b, ltb a b = true -> eqb a b = false.
Hypothesis eq_sym : forall a b, eqb a b = eqb b a.
Hypothesis trichotomy :
  forall a b, D a -> D b -> ltb a b = false -> eqb a b = false -> ltb b a = true.
Hypothesis eq_lt_l : forall a b c, eqb a b = true -> ltb c a = ltb c b.
Hypothesis eq_lt_r : forall a b c, eqb a b = true -> ltb a c = ltb b c.
Hypothesis eq_eq_l : forall a b c, eqb a b = true -> eqb c a = eqb c b.

Abbreviation inc := (strictly_increasing key ltb).
Abbreviation add := (KeyframeList.add key eqb ltb).
Abbreviation insert_by_key := (KeyframeList.insert_by_key key ltb).
Abbreviation sort_by_key := (KeyframeList.sort_by_key key ltb).
Abbreviation comparable := (Forall (fun e => D (key e))).
Abbreviation other_key k := (Forall (fun e => eqb (key e) (key k) = false)).

Lemma insert_increasing (a : E) (l : list E) :
  inc l -> D (key a) -> comparable l -> other_key a l -> inc (insert_by_key a l).
Proof.
  intros Hs Ha Hl Hne. induction Hs as [|h t Hs IH Hall]; simpl.
  - repeat constructor.
  - apply Forall_cons_1 in Hl as [Hh Hl]. apply Forall_cons_1 in Hne as [Hhne Hne].
    destruct (ltb (key h) (key a)) eqn:Hlt.
    + constructor; [now apply IH|].
      rewrite AddFacts.insert_by_key_perm. now constructor.
    + assert (ltb (key a) (key h) = true) as Hah by auto.
      constructor; [now constructor|].
      constructor; [assumption|].
      eapply Forall_impl; [exact Hall|]. simpl. eauto.
Qed.

(** Sorting a list of comparable keys of which no two are [==]. *)
Lemma sort_increasing (l : list E) :
  comparable l ->
  StronglySorted (fun a b => eqb (key b) (key a) = false) l ->
  inc (sort_by_key l).
Proof.
  intros Hl Hs. induction Hs as [|a l Hs IH Hall]; simpl; [constructor|].
  apply Forall_cons_1 in Hl as [Ha Hl].
  apply insert_increasing; auto.
  - now rewrite AddFacts.sort_by_key_perm.
  - now rewrite AddFacts.sort_by_key_perm.
Qed.

Lemma increasing_app (l1 l2 : list E) :
  inc (l1 ++ l2) <->
  inc l1 /\ inc l2 /\
  Forall (fun a => Forall (fun b => ltb (key a) (key b) = true) l2) l1.
Proof.
  unfold strictly_increasing. induction l1 as [|a l1 IH]; simpl.
  - split; [intros Hs; repeat split; auto; constructor|now intros (_ & Hs & _)].
  - split.
    + intros [Hs Hall]%StronglySorted_inv. apply IH in Hs as (H1 & H2 & H12).
      apply Forall_app in Hall as [Ha1 Ha2].
      repeat split; auto; now constructor.
    + intros ([H1 Ha1]%StronglySorted_inv & H2 & [Ha2 H12]%Forall_cons_1).
      constructor; [apply IH; auto|]. apply Forall_app; auto.
Qed.

(** An entry may be replaced by one that has an [==] key. *)
Lemma increasing_replace (l1 l2 : list E) (e k : E) :
  eqb (key e) (key k) = true ->
  inc (l1 ++ e :: l2) -> inc (l1 ++ k :: l2).
Proof.
  intros Heq. rewrite !increasing_app.
  intros (H1 & [H2 He2]%StronglySorted_inv & H12). repeat split; auto.
  - constructor; [assumption|].
    eapply Forall_impl; [exact He2|]. simpl. intros b Hb.
    now rewrite <- (eq_lt_r _ _ _ Heq).
  - eapply Forall_impl; [exact H12|]. simpl.
    intros a [Hae Ha2]%Forall_cons_1. constructor; [|assumption].
    now rewrite <- (eq_lt_l _ _ _ Heq).
Qed.

Lemma increasing_other_keys (l : list E) :
  inc l -> StronglySorted (fun a b => eqb (key b) (key a) = false) l.
Proof.
  induction 1 as [|a l Hs IH Hall]; constructor; auto.
  eapply Forall_impl; [exact Hall|]. simpl. intros b Hab.
  rewrite eq_sym. auto.
Qed.

(** [add] keeps the keys strictly increasing. *)
Lemma add_increasing (k : E) (l : list E) :
  inc l -> D (key k) -> comparable l -> inc (add k l).
Proof.
  intros Hs Hk Hl. unfold KeyframeList.add.
  pose proof (AddFacts.replace_or_append_spec key eqb k l) as Hspec.
  destruct (KeyframeList.contains_key _ _ _ _).
  - destruct Hspec as (l1 & e & l2 & -> & He & _ & ->).
    rewrite CloneFacts.sort_by_key_increasing; auto.
    all: now apply (increasing_replace l1 l2 e k).
  - rewrite Hspec.
    assert (other_key k l) as Hne.
    { pose proof (AddFacts.find_key_None key eqb (key k) l 0) as Hnone.
      apply Hnone. unfold KeyframeList.replace_or_append in Hspec.
      destruct (KeyframeList.find_key _ _ _ _ _) as [i|]; [|reflexivity].
      apply (f_equal length) in Hspec.
      rewrite length_insert, length_app in Hspec. simpl in Hspec. lia. }
    apply sort_increasing.
    + apply Forall_app. split; [assumption|]. now repeat constructor.
    + clear Hspec Hl. induction Hs as [|a l Hs IH Hall]; simpl.
      * repeat constructor.
      * apply Forall_cons_1 in Hne as [Ha Hne].
        constructor; [now apply IH|].
        apply Forall_app. split.
        -- eapply Forall_impl; [exact Hall|]. simpl. intros b Hab.
           rewrite eq_sym. auto.
        -- repeat constructor. now rewrite eq_sym.
Qed.

(** What a group holds after [add]: the keyframe, and the entries it
    held under another key. *)
Lemma add_elements (k e : E) (l : list E) :
  inc l ->
  In e (add k l) <-> e = k \/ (In e l /\ eqb (key e) (key k) = false).
Proof.
  intros Hs.
  rewrite (Permutation_in' (eq_refl e) (AddFacts.add_perm key eqb ltb k l)).
  pose proof (AddFacts.replace_or_append_spec key eqb k l) as Hspec.
  destruct (KeyframeList.contains_key _ _ _ _) eqn:Hhas.
  - destruct Hspec as (l1 & e0 & l2 & -> & He0 & Hl1 & ->).
    apply increasing_app in Hs as (_ & [_ He2]%StronglySorted_inv & _).
    rewrite Forall_forall in Hl1, He2.
    rewrite !in_app_iff. simpl. split.
    + intros [Hin|[<-|Hin]]; auto.
      * right. split; auto. apply Hl1. now apply list_elem_of_In.
      * right. split; auto.
        apply list_elem_of_In, He2 in Hin.
        rewrite (eq_lt_r _ _ _ He0) in Hin. rewrite eq_sym. auto.
    + intros [->|[[Hin|[<-|Hin]] Hne]]; auto. congruence.
  - rewrite Hspec, in_app_iff. simpl.
    assert (other_key k l) as Hne.
    { apply (AddFacts.find_key_None key eqb (key k) l 0).
      rewrite (AddFacts.find_key_contains key eqb _ _ 0) in Hhas.
      destruct (KeyframeList.find_key _ _ _ _ _); [discriminate|reflexivity]. }
    rewrite Forall_forall in Hne. split.
    + intros [Hin|[<-|[]]]; auto.
      right. split; auto. apply Hne. now apply list_elem_of_In.
    + intros [->|[Hin _]]; auto.
Qed.

(** Two increasing lists with the same entries are the same list. *)
Lemma increasing_unique (l1 l2 : list E) :
  inc l1 -> inc l2 -> (forall e, In e l1 <-> In e l2) -> l1 = l2.
Proof.
  assert (forall a, ltb a a = false) as lt_irrefl.
  { intros a. destruct (ltb a a) eqn:Haa; [|reflexivity].
    now rewrite (lt_asym _ _ Haa) in Haa. }
  intros Hs1. revert l2. induction Hs1 as [|a l1 Hs1 IH Ha]; intros l2 Hs2 Hsame.
  - destruct l2 as [|b l2]; [reflexivity|].
    destruct (proj2 (Hsame b)); now left.
  - destruct Hs2 as [|b l2 Hs2 Hb].
    { destruct (proj1 (Hsame a)); now left. }
    rewrite Forall_forall in Ha, Hb.
    assert (a = b) as <-.
    { destruct (proj1 (Hsame a) (or_introl eq_refl)) as [Heq|Hin]; [auto|].
      destruct (proj2 (Hsame b) (or_introl eq_refl)) as [Heq|Hin']; [auto|].
      apply list_elem_of_In, Hb in Hin. apply list_elem_of_In, Ha in Hin'.
      now rewrite (lt_asym _ _ Hin) in Hin'. }
    f_equal. apply IH; [assumption|].
    intros e. split; intros Hin.
    + destruct (proj1 (Hsame e) (or_intror Hin)) as [<-|Hin']; [|assumption].
      apply list_elem_of_In, Ha in Hin. now rewrite lt_irrefl in Hin.
    + destruct (proj2 (Hsame e) (or_intror Hin)) as [<-|Hin']; [|assumption].
      apply list_elem_of_In, Hb in Hin. now rewrite lt_irrefl in Hin.
Qed.

Lemma add_comparable (k : E) (l : list E) :
  D (key k) -> comparable l -> comparable (add k l).
Proof.
  intros Hk Hl. apply Forall_forall. intros e Hin%list_elem_of_In.
  apply (Permutation_in _ (AddFacts.add_perm key eqb ltb k l)) in Hin.
  pose proof (AddFacts.replace_or_append_spec key eqb k l) as Hspec.
  rewrite Forall_forall in Hl.
  destruct (KeyframeList.contains_key _ _ _ _).
  - destruct Hspec as (l1 & e0 & l2 & -> & _ & _ & Hr). rewrite Hr in Hin.
    apply in_app_iff in Hin as [Hin|[<-|Hin]]; auto;
      apply Hl, list_elem_of_In, in_app_iff; simpl; auto.
  - rewrite Hspec in Hin. apply in_app_iff in Hin as [Hin|[<-|[]]]; auto.
    now apply Hl, list_elem_of_In.
Qed.

(** Of two keyframes with [==] keys added one after the other, the second
    stays: the group is as if the first had never been added. *)
Lemma add_same_key (k1 k2 : E) (l : list E) :
  inc l -> comparable l -> D (key k1) -> D (key k2) ->
  eqb (key k1) (key k2) = true ->
  add k2 (add k1 l) = add k2 l.
Proof.
  intros Hs Hl Hk1 Hk2 Heq.
  assert (inc (add k1 l)) as Hs1 by now apply add_increasing.
  apply increasing_unique.
  - apply add_increasing; auto. now apply add_comparable.
  - now apply add_increasing.
  - intros e. rewrite !add_elements by assumption.
    split.
    + intros [->|[[->|[Hin Hne1]] Hne2]]; auto. congruence.
    + intros [->|[Hin Hne]]; auto.
      right. split; [|assumption]. right. split; [assumption|].
      now rewrite (eq_eq_l _ _ _ Heq).
Qed.

(** Two keyframes with different keys may be added in either order. *)
Lemma add_commute (k1 k2 : E) (l : list E) :
  inc l -> comparable l -> D (key k1) -> D (key k2) ->
  eqb (key k1) (key k2) = false ->
  add k1 (add k2 l) = add k2 (add k1 l).
Proof.
  intros Hs Hl Hk1 Hk2 Hne.
  assert (eqb (key k2) (key k1) = false) as Hne' by now rewrite eq_sym.
  apply increasing_unique.
  - apply add_increasing; auto using add_increasing, add_comparable.
  - apply add_increasing; auto using add_increasing, add_comparable.
  - intros e. rewrite !add_elements by auto using add_increasing.
    split.
    + intros [->|[[->|[Hin Hne2]] Hne1]]; auto.
    + intros [->|[[->|[Hin Hne1]] Hne2]]; auto.
Qed.

Abbreviation last_with_key := (last_with_key key eqb).

Lemma last_with_key_cons (e k : E) (ks : list E) :
  last_with_key e (k :: ks) <->
  (e = k /\ Forall (fun k' => eqb (key e) (key k') = false) ks) \/
  last_with_key e ks.
Proof.
  split.
  - intros ([|k' pre] & post & Heq & Hpost); simpl in Heq.
    + injection Heq as <- <-. auto.
    + injection Heq as <- ->. right. now exists pre, post.
  - intros [[-> Hks]|(pre & post & -> & Hpost)].
    + now exists [], ks.
    + now exists (k :: pre), post.
Qed.

(** The loop [for k in ks: g.add(k)]. *)
Abbreviation add_all ks g := (fold_left (fun g k => add k g) ks g).

Lemma add_all_increasing (ks g : list E) :
  inc g -> comparable g -> comparable ks ->
  inc (add_all ks g) /\ comparable (add_all ks g).
Proof.
  revert g. induction ks as [|k ks IH]; simpl; intros g Hs Hg Hks; [auto|].
  apply Forall_cons_1 in Hks as [Hk Hks].
  apply IH; auto using add_increasing, add_comparable.
Qed.

(** What the group holds after the loop: of the keyframes added, the last
    one under each key; of those it held, the ones whose key was not added. *)
Lemma add_all_elements (ks g : list E) (e : E) :
  inc g -> comparable g -> comparable ks ->
  In e (add_all ks g) <->
  last_with_key e ks \/
  (In e g /\ Forall (fun k => eqb (key e) (key k) = false) ks).
Proof.
  revert g. induction ks as [|k ks IH]; simpl; intros g Hs Hg Hks.
  - split; [auto|]. intros [([|? ?] & ? & ? & _)|[Hin _]]; [discriminate..|auto].
  - apply Forall_cons_1 in Hks as [Hk Hks].
    rewrite IH by auto using add_increasing, add_comparable.
    rewrite add_elements, last_with_key_cons by assumption.
    rewrite Forall_cons. intuition.
Qed.

End Generic.
End OrderFacts.

(** ** The keys of the two groups *)

Definition latent_increasing (g : LatentKeyframeGroup.t) : Prop :=
  strictly_increasing LatentKeyframe.batch_index Z.ltb g.

Definition timestep_increasing `{Torch} (g : TimestepKeyframeGroup.t) : Prop :=
  strictly_increasing TimestepKeyframe.start_percent PrimFloat.ltb g.

(** The facts of [==] and [<] the lemmas on keys ask for, on ints and on
    floats. *)
Ltac int_keys :=
  intros;
  repeat match goal with
         | H : (_ <? _) = true |- _ => apply Z.ltb_lt in H
         | H : (_ <? _) = false |- _ => apply Z.ltb_ge in H
         | H : (_ =? _) = true |- _ => apply Z.eqb_eq in H
         | H : (_ =? _) = false |- _ => apply Z.eqb_neq in H
         end;
  first [ apply Z.ltb_lt; lia | apply Z.ltb_ge; lia | apply Z.eqb_neq; lia
        | apply Z.eqb_sym | subst; reflexivity ].

Ltac float_keys :=
  first [ exact FloatOrder.ltb_asym | exact FloatOrderFacts.ltb_trans
        | exact FloatOrder.ltb_neq | exact FloatOrderFacts.eqb_sym
        | exact FloatOrderFacts.ltb_trichotomy | exact FloatOrderFacts.eqb_ltb_l
        | exact FloatOrderFacts.eqb_ltb_r | exact FloatOrderFacts.eqb_eqb_l ].

Module GroupFacts.

Lemma all_true {A : Type} (l : list A) : Forall (fun _ => True) l.
Proof. apply Forall_forall. auto. Qed.

Lemma latent_add_all (ks g : list LatentKeyframe.t) :
  latent_increasing g ->
  latent_increasing (fold_left (fun g k => LatentKeyframeGroup.add k g) ks g) /\
  forall e,
    In e (fold_left (fun g k => LatentKeyframeGroup.add k g) ks g) <->
    last_with_key LatentKeyframe.batch_index Z.eqb e ks \/
    (In e g /\
     Forall (fun k => (LatentKeyframe.batch_index e =?
                       LatentKeyframe.batch_index k) = false) ks).
Proof.
  intros Hg. split.
  - apply (OrderFacts.add_all_increasing LatentKeyframe.batch_index Z.eqb Z.ltb
             (fun _ => True)); try int_keys; auto using all_true.
  - intros e.
    apply (OrderFacts.add_all_elements LatentKeyframe.batch_index Z.eqb Z.ltb
             (fun _ => True)); try int_keys; auto using all_true.
Qed.

Section WithTorch.
Context `{Torch}.

Lemma timestep_add_all (ks g : list TimestepKeyframe.t) :
  timestep_increasing g -> no_nan_percent g -> no_nan_percent ks ->
  timestep_increasing
    (fold_left (fun g k => TimestepKeyframeGroup.add k g) ks g) /\
  forall e,
    In e (fold_left (fun g k => TimestepKeyframeGroup.add k g) ks g) <->
    last_with_key TimestepKeyframe.start_percent PrimFloat.eqb e ks \/
    (In e g /\
     Forall (fun k => (TimestepKeyframe.start_percent e =?
                       TimestepKeyframe.start_percent k)%float = false) ks).
Proof.
  intros Hg Hnan Hks. split.
  - apply (OrderFacts.add_all_increasing TimestepKeyframe.start_percent
             PrimFloat.eqb PrimFloat.ltb (fun x => is_nan x = false));
      try float_keys; assumption.
  - intros e.
    apply (OrderFacts.add_all_elements TimestepKeyframe.start_percent
             PrimFloat.eqb PrimFloat.ltb (fun x => is_nan x = false));
      try float_keys; assumption.
Qed.

End WithTorch.
End GroupFacts.

(** X1. A latent group filled by [add] from a new one, as [clone] fills
    its copy: the batch indices grow strictly along the list, so no two
    keyframes share one; the group holds, of the keyframes added, the last
    one under each batch index and nothing else; cloning it again returns
    the same list. *)
Theorem latent_group_keys_increase (ks : list LatentKeyframe.t) :
  let g := fold_left (fun g k => LatentKeyframeGroup.add k g) ks
             LatentKeyframeGroup.init in
  latent_increasing g /\
  (forall e, In e g <-> last_with_key LatentKeyframe.batch_index Z.eqb e ks) /\
  LatentKeyframeGroup.clone ks = g /\
  LatentKeyframeGroup.clone g = g.
Proof.
  cbv zeta.
  destruct (GroupFacts.latent_add_all ks LatentKeyframeGroup.init) as [Hinc Hin];
    [constructor|].
  split; [exact Hinc|]. split; [|split].
  - intros e. rewrite Hin. split; [|auto]. intros [Hl|[[] _]]. exact Hl.
  - reflexivity.
  - apply CloneFacts.clone_increasing; try int_keys; auto.
Qed.

(** X2. A timestep group filled by [add] from a new one, when no
    [start_percent] is NaN: the values of [start_percent] grow strictly
    along the list; the group holds, of the keyframes added, the last one
    under each [start_percent], and the default keyframe of the constructor
    exactly when no keyframe added has a [start_percent] equal to [0.0]. *)
Theorem timestep_group_keys_increase `{Torch} (ks : list TimestepKeyframe.t) :
  no_nan_percent ks ->
  let g := fold_left (fun g k => TimestepKeyframeGroup.add k g) ks
             TimestepKeyframeGroup.init in
  timestep_increasing g /\
  (forall e,
     In e g <->
     last_with_key TimestepKeyframe.start_percent PrimFloat.eqb e ks \/
     (e = TimestepKeyframe.default /\
      Forall (fun k => (0 =? TimestepKeyframe.start_percent k)%float = false)
        ks)) /\
  TimestepKeyframeGroup.clone ks = g.
Proof.
  intros Hks. cbv zeta.
  destruct (GroupFacts.timestep_add_all ks TimestepKeyframeGroup.init)
    as [Hinc Hin]; [repeat constructor..|assumption|].
  split; [exact Hinc|]. split; [|reflexivity].
  intros e. rewrite Hin. split.
  - intros [Hl|[[<-|[]] Hall]]; auto.
  - intros [Hl|[-> Hall]]; auto. right. split; [now left|exact Hall].
Qed.

Lemma timestep_group_keys_increase_witness :
  timestep_increasing
    (fold_left (fun g k => TimestepKeyframeGroup.add k g)
       [Examples.timestep 0.5 2; Examples.timestep 0 3; Examples.timestep 0.5 1]
       TimestepKeyframeGroup.init) /\
  In (Examples.timestep 0.5 1)
    (fold_left (fun g k => TimestepKeyframeGroup.add k g)
       [Examples.timestep 0.5 2; Examples.timestep 0 3; Examples.timestep 0.5 1]
       TimestepKeyframeGroup.init).
Proof.
  destruct (@timestep_group_keys_increase scalar_torch
              [Examples.timestep 0.5 2; Examples.timestep 0 3;
               Examples.timestep 0.5 1])
    as (Hinc & Hin & _).
  - repeat constructor.
  - split; [exact Hinc|]. apply Hin. left.
    exists [Examples.timestep 0.5 2; Examples.timestep 0 3], [].
    split; [reflexivity|constructor].
Defined.

(** X3. Of two keyframes with the same key added one after the other, the
    second stays: a group in increasing order is then as if the first had
    never been added. For a timestep group, no [start_percent] in it may be
    NaN. *)
Theorem add_last_write_wins `{Torch} :
  (forall (g : LatentKeyframeGroup.t) (k1 k2 : LatentKeyframe.t),
     latent_increasing g ->
     LatentKeyframe.batch_index k1 = LatentKeyframe.batch_index k2 ->
     LatentKeyframeGroup.add k2 (LatentKeyframeGroup.add k1 g)
     = LatentKeyframeGroup.add k2 g) /\
  (forall (g : TimestepKeyframeGroup.t) (k1 k2 : TimestepKeyframe.t),
     timestep_increasing g -> no_nan_percent g ->
     (TimestepKeyframe.start_percent k1 =? TimestepKeyframe.start_percent k2)%float
     = true ->
     TimestepKeyframeGroup.add k2 (TimestepKeyframeGroup.add k1 g)
     = TimestepKeyframeGroup.add k2 g).
Proof.
  split.
  - intros g k1 k2 Hg Hk.
    apply (OrderFacts.add_same_key LatentKeyframe.batch_index Z.eqb Z.ltb
             (fun _ => True)); try int_keys; auto using GroupFacts.all_true.
    now apply Z.eqb_eq.
  - intros g k1 k2 Hg Hnan Hk.
    destruct (FloatOrderFacts.eqb_is_nan _ _ Hk) as [Hk1 Hk2].
    apply (OrderFacts.add_same_key TimestepKeyframe.start_percent
             PrimFloat.eqb PrimFloat.ltb (fun x => is_nan x = false));
      try float_keys; assumption.
Qed.

Lemma add_last_write_wins_witness :
  LatentKeyframeGroup.add (Examples.latent 2 3)
    (LatentKeyframeGroup.add (Examples.latent 2 1.5)
       [Examples.latent 0 2; Examples.latent 2 0.5])
  = LatentKeyframeGroup.add (Examples.latent 2 3)
      [Examples.latent 0 2; Examples.latent 2 0.5] /\
  TimestepKeyframeGroup.add (Examples.timestep 0.5 3)
    (TimestepKeyframeGroup.add (Examples.timestep 0.5 2)
       [Examples.timestep 0 1; Examples.timestep 0.75 1])
  = TimestepKeyframeGroup.add (Examples.timestep 0.5 3)
      [Examples.timestep 0 1; Examples.timestep 0.75 1].
Proof.
  destruct (@add_last_write_wins scalar_torch) as [Hl Ht].
  split.
  - apply Hl; [repeat constructor|reflexivity].
  - apply Ht; [repeat constructor..|reflexivity].
Defined.

(** X4. Two keyframes with different keys may be added in either order:
    the group, in increasing order before, is the same list after. For a
    timestep group, no [start_percent] may be NaN. *)
Theorem add_order_irrelevant `{Torch} :
  (forall (g : LatentKeyframeGroup.t) (k1 k2 : LatentKeyframe.t),
     latent_increasing g ->
     LatentKeyframe.batch_index k1 <> LatentKeyframe.batch_index k2 ->
     LatentKeyframeGroup.add k1 (LatentKeyframeGroup.add k2 g)
     = LatentKeyframeGroup.add k2 (LatentKeyframeGroup.add k1 g)) /\
  (forall (g : TimestepKeyframeGroup.t) (k1 k2 : TimestepKeyframe.t),
     timestep_increasing g -> no_nan_percent (k1 :: k2 :: g) ->
     (TimestepKeyframe.start_percent k1 =? TimestepKeyframe.start_percent k2)%float
     = false ->
     TimestepKeyframeGroup.add k1 (TimestepKeyframeGroup.add k2 g)
     = TimestepKeyframeGroup.add k2 (TimestepKeyframeGroup.add k1 g)).
Proof.
  split.
  - intros g k1 k2 Hg Hk.
    apply (OrderFacts.add_commute LatentKeyframe.batch_index Z.eqb Z.ltb
             (fun _ => True)); try int_keys; auto using GroupFacts.all_true.
  - intros g k1 k2 Hg [Hk1 [Hk2 Hnan]%Forall_cons_1]%Forall_cons_1 Hk.
    apply (OrderFacts.add_commute TimestepKeyframe.start_percent
             PrimFloat.eqb PrimFloat.ltb (fun x => is_nan x = false));
      try float_keys; assumption.
Qed.

Lemma add_order_irrelevant_witness :
  LatentKeyframeGroup.add (Examples.latent 1 3)
    (LatentKeyframeGroup.add (Examples.latent 2 1.5)
       [Examples.latent 0 2; Examples.latent 2 0.5])
  = LatentKeyframeGroup.add (Examples.latent 2 1.5)
      (LatentKeyframeGroup.add (Examples.latent 1 3)
         [Examples.latent 0 2; Examples.latent 2 0.5]) /\
  TimestepKeyframeGroup.add (Examples.timestep 0.5 3)
    (TimestepKeyframeGroup.add (Examples.timestep 0.25 2)
       [Examples.timestep 0 1; Examples.timestep 0.75 1])
  = TimestepKeyframeGroup.add (Examples.timestep 0.25 2)
      (TimestepKeyframeGroup.add (Examples.timestep 0.5 3)
         [Examples.timestep 0 1; Examples.timestep 0.75 1]).
Proof.
  destruct (@add_order_irrelevant scalar_torch) as [Hl Ht].
  split.
  - apply Hl; [repeat constructor|simpl; lia].
  - apply Ht; [repeat constructor..|reflexivity].
Defined.

(** ** Weight profiles *)

Module WeightFacts.

Lemma len_rev {A : Type} (l : list A) : Py.len (rev l) = Py.len l.
Proof. unfold Py.len. now rewrite length_rev. Qed.

Lemma rev_lookup {A : Type} (l : list A) (i : nat) :
  (i < length l)%nat -> rev l !! i = l !! (length l - S i)%nat.
Proof.
  intros Hi. rewrite rev_alt. change (rev_append l []) with (reverse l).
  now apply reverse_lookup.
Qed.

(** Index [i] of the reversed list is index [-1 - i] of the list, for
    every int [i]: both are out of range together. *)
Lemma getitem_rev {A : Type} (l : list A) (i : Z) :
  Py.getitem (rev l) i = Py.getitem l (-1 - i).
Proof.
  unfold Py.getitem. rewrite len_rev.
  pose proof (PyFacts.len_nonneg l) as Hn.
  destruct (Z_lt_le_dec i (- Py.len l)) as [Hlow|Hlow].
  { rewrite !PyFacts.position_outside by lia. reflexivity. }
  destruct (Z_lt_le_dec i 0) as [Hneg|Hpos].
  - rewrite PyFacts.position_from_end, PyFacts.position_inside by lia.
    unfold Py.len in *. rewrite rev_lookup by lia.
    replace (length l - S (Z.to_nat (Z.of_nat (length l) + i)))%nat
      with (Z.to_nat (-1 - i)) by lia.
    reflexivity.
  - destruct (Z_lt_le_dec i (Py.len l)) as [Hin|Hout].
    + rewrite PyFacts.position_inside, PyFacts.position_from_end by lia.
      unfold Py.len in *. rewrite rev_lookup by lia.
      replace (length l - S (Z.to_nat i))%nat
        with (Z.to_nat (Z.of_nat (length l) + (-1 - i))) by lia.
      reflexivity.
    + rewrite !PyFacts.position_outside by lia. reflexivity.
Qed.

Lemma lookup_repeat {A : Type} (a : A) (n i : nat) :
  (i < n)%nat -> repeat a n !! i = Some a.
Proof.
  revert i. induction n as [|n IH]; intros [|i] Hi; simpl; try lia; auto with lia.
Qed.

Lemma getitem_repeat {A : Type} (a : A) (n : nat) (i : Z) :
  Py.getitem (repeat a n) i
  = if (- Z.of_nat n <=? i) && (i <? Z.of_nat n) then Py.Ok a
    else Py.Raise Py.IndexError.
Proof.
  unfold Py.getitem, Py.len. rewrite repeat_length.
  destruct (Z.leb_spec (- Z.of_nat n) i), (Z.ltb_spec i (Z.of_nat n)); simpl.
  - destruct (Z_lt_le_dec i 0).
    + rewrite PyFacts.position_from_end by lia.
      rewrite lookup_repeat by lia. reflexivity.
    + rewrite PyFacts.position_inside by lia.
      rewrite lookup_repeat by lia. reflexivity.
  - rewrite PyFacts.position_outside by lia. reflexivity.
  - rewrite PyFacts.position_outside by lia. reflexivity.
  - rewrite PyFacts.position_outside by lia. reflexivity.
Qed.

Lemma rev_repeat {A : Type} (a : A) (n : nat) : rev (repeat a n) = repeat a n.
Proof.
  induction n as [|n IH]; [reflexivity|].
  simpl. rewrite IH. clear IH.
  induction n as [|n IH]; [reflexivity|]. simpl. now rewrite IH.
Qed.

End WeightFacts.

(** X5. [flip_weights] mirrors the layer index: the weight a flipped
    profile returns for index [idx] is the one the same profile, not
    flipped, returns for index [-1 - idx], and the one raises [IndexError]
    exactly when the other does. *)
Theorem flip_weights_mirrors_index `{Torch}
    (weight_type : ControlWeightType.t) (base_multiplier : float)
    (weights : list float) (weight_mask : option Mask) (idx : Z) :
  ControlWeights.get
    (ControlWeights.init weight_type base_multiplier true (Some weights)
       weight_mask) idx
  = ControlWeights.get
      (ControlWeights.init weight_type base_multiplier false (Some weights)
         weight_mask) (-1 - idx).
Proof. apply WeightFacts.getitem_rev. Qed.

(** The weight for [idx] of a profile with [n] weights [1.0]. *)
Definition unit_weight (n : Z) (idx : Z) : Py.result float :=
  if (- n <=? idx) && (idx <? n) then Py.Ok 1%float else Py.Raise Py.IndexError.

(** X6. The profiles the classes start from. [default] and [universal]
    hold no list, and [get] returns [1.0] for every index. Without a list
    given, [controlnet] holds 13 weights, [t2iadapter] 12, [controllora] 10
    and [controllllite] 200, flipped or not: [get] returns [1.0] for an
    index from minus that number up to that number less one, and raises
    [IndexError] for every other. *)
Theorem default_profiles_weigh_one `{Torch} (flip_weights : bool) (idx : Z) :
  ControlWeights.get ControlWeights.default idx = Py.Ok 1%float /\
  (forall base_multiplier,
     ControlWeights.get (ControlWeights.universal base_multiplier flip_weights) idx
     = Py.Ok 1%float) /\
  ControlWeights.get (ControlWeights.controlnet None flip_weights) idx
  = unit_weight 13 idx /\
  ControlWeights.get (ControlWeights.t2iadapter None flip_weights) idx
  = unit_weight 12 idx /\
  ControlWeights.get (ControlWeights.controllora None flip_weights) idx
  = unit_weight 10 idx /\
  ControlWeights.get (ControlWeights.controllllite None flip_weights) idx
  = unit_weight 200 idx.
Proof.
  split; [reflexivity|].
  split; [intros base_multiplier; destruct flip_weights; reflexivity|].
  unfold ControlWeights.get, ControlWeights.controlnet, ControlWeights.t2iadapter,
    ControlWeights.controllora, ControlWeights.controllllite,
    ControlWeights.init, ControlWeights.ones, unit_weight.
  cbn [ControlWeights.weights from_option option_map].
  destruct flip_weights; rewrite ?WeightFacts.rev_repeat;
    repeat split; apply WeightFacts.getitem_repeat.
Qed.

(** X7. [get_properly_arranged_t2i_weights] reads the first four weights:
    with fewer it raises [IndexError]; otherwise it returns twelve
    weights, three times each of the four in their order, and ignores any
    further ones. *)
Theorem t2i_weights_arranged (initial_weights : list float) :
  ((length initial_weights < 4)%nat ->
   get_properly_arranged_t2i_weights initial_weights = Py.Raise Py.IndexError) /\
  ((4 <= length initial_weights)%nat ->
   exists new_weights,
     get_properly_arranged_t2i_weights initial_weights = Py.Ok new_weights /\
     length new_weights = 12%nat /\
     forall p : nat, (p < 12)%nat ->
       new_weights !! p = initial_weights !! (p / 3)%nat).
Proof.
  split.
  - intros Hlen.
    destruct initial_weights as [|w0 [|w1 [|w2 [|w3 rest]]]];
      try reflexivity.
    simpl in Hlen. lia.
  - intros Hlen.
    destruct initial_weights as [|w0 [|w1 [|w2 [|w3 rest]]]];
      try (simpl in Hlen; lia).
    unfold get_properly_arranged_t2i_weights.
    rewrite (PyFacts.getitem_nat _ 0 w0), (PyFacts.getitem_nat _ 1 w1),
      (PyFacts.getitem_nat _ 2 w2), (PyFacts.getitem_nat _ 3 w3) by reflexivity.
    eexists. split; [reflexivity|]. split; [reflexivity|].
    intros p Hp.
    do 12 (destruct p as [|p]; [reflexivity|]). lia.
Qed.

Lemma t2i_weights_arranged_witness :
  get_properly_arranged_t2i_weights [1; 2; 3]%float = Py.Raise Py.IndexError /\
  exists new_weights,
    get_properly_arranged_t2i_weights [1; 2; 3; 4; 5]%float = Py.Ok new_weights /\
    length new_weights = 12%nat.
Proof.
  split.
  - apply (t2i_weights_arranged [1; 2; 3]%float). simpl. lia.
  - destruct (proj2 (t2i_weights_arranged [1; 2; 3; 4; 5]%float))
      as (new_weights & Hnew & Hlen & _); [simpl; lia|].
    exists new_weights. split; assumption.
Defined.

Module UniversalFacts.
Section WithLibm.
Context `{Torch} `{Libm}.

(** The list of powers, and its entries read from either end. *)
Lemma raw_universal_weights_spec (m : float) (top : nat) (raw : list float) :
  Forall2
    (fun i y => float_pow m (float_of_int (Z.of_nat top - i)) = Py.Ok y)
    (Py.range (S top)) raw ->
  AdvancedControlBase.raw_universal_weights m top = Py.Ok raw /\
  forall i, 0 <= i <= Z.of_nat top ->
    Py.getitem raw i = float_pow m (float_of_int (Z.of_nat top - i)) /\
    Py.getitem (rev raw) i = float_pow m (float_of_int i).
Proof.
  intros Hraw.
  pose proof (Forall2_length _ _ _ Hraw) as Hlen.
  rewrite PyLoops.length_range in Hlen.
  assert (forall n, (n <= top)%nat ->
            exists y, raw !! n = Some y /\
              float_pow m (float_of_int (Z.of_nat top - Z.of_nat n)) = Py.Ok y)
    as Hnth.
  { intros n Hn.
    destruct (Forall2_lookup_l _ _ _ n _ Hraw
                (PyLoops.range_lookup (S top) n ltac:(lia)))
      as (y & Hy & Hpow).
    eauto. }
  split.
  - unfold AdvancedControlBase.raw_universal_weights.
    now apply PyLoops.comprehension_Forall2.
  - intros i Hi. split.
    + destruct (Hnth (Z.to_nat i)) as (y & Hy & Hpow); [lia|].
      rewrite Z2Nat.id in Hpow by lia. rewrite Hpow.
      replace i with (Z.of_nat (Z.to_nat i)) at 1 by lia.
      now apply PyFacts.getitem_nat.
    + destruct (Hnth (Z.to_nat (Z.of_nat top - i))) as (y & Hy & Hpow); [lia|].
      rewrite Z2Nat.id in Hpow by lia.
      replace (Z.of_nat top - (Z.of_nat top - i)) with i in Hpow by lia.
      rewrite Hpow.
      replace i with (Z.of_nat (Z.to_nat i)) at 1 by lia.
      apply PyFacts.getitem_nat.
      rewrite WeightFacts.rev_lookup by lia.
      replace (length raw - S (Z.to_nat i))%nat
        with (Z.to_nat (Z.of_nat top - i)) by lia.
      assumption.
Qed.

End WithLibm.
End UniversalFacts.

(** X8. [get_universal_weights] of the ControlLora class: when each power
    [m ** float(9 - i)] has a value, the profile is of type [controllora]
    and holds these ten values in the order of [i], or in the reverse order
    when the profile is flipped. The LLLite class has no method of its own:
    it returns the profile it was given. *)
Theorem controllora_universal_weights `{Torch} `{Libm}
    (w : ControlWeights.t) (raw : list float) :
  (Forall2
     (fun i y =>
        float_pow (ControlWeights.base_multiplier w) (float_of_int (9 - i))
        = Py.Ok y)
     (Py.range 10) raw ->
   exists ws,
     AdvancedControlBase.get_universal_weights Variant.ControlLoraAdvanced w
     = Py.Ok ws /\
     ControlWeights.weight_type ws = ControlWeightType.CONTROLLORA /\
     ControlWeights.weights ws
     = Some (if ControlWeights.flip_weights w then rev raw else raw) /\
     forall i, 0 <= i < 10 ->
       ControlWeights.get ws i
       = float_pow (ControlWeights.base_multiplier w)
           (float_of_int (if ControlWeights.flip_weights w then i else 9 - i))) /\
  AdvancedControlBase.get_universal_weights Variant.ControlLLLiteAdvanced w
  = Py.Ok w.
Proof.
  split; [|reflexivity].
  intros Hraw.
  destruct (UniversalFacts.raw_universal_weights_spec _ 9 raw Hraw)
    as [Hlist Hget].
  eexists. split; [|split; [|split]].
  - unfold AdvancedControlBase.get_universal_weights. rewrite Hlist. reflexivity.
  - reflexivity.
  - simpl. destruct (ControlWeights.flip_weights w); reflexivity.
  - intros i Hi. unfold ControlWeights.get. simpl.
    destruct (ControlWeights.flip_weights w); simpl; apply Hget; lia.
Qed.

(** [0.5 ** 9], ..., [0.5 ** 0]. *)
Definition half_powers_lora : list float :=
  [0.001953125; 0.00390625; 0.0078125; 0.015625; 0.03125; 0.0625; 0.125;
   0.25; 0.5; 1]%float.

Lemma controllora_universal_weights_witness :
  exists ws,
    @AdvancedControlBase.get_universal_weights scalar_torch exact_libm
      Variant.ControlLoraAdvanced (ControlWeights.universal 0.5 true)
    = Py.Ok ws /\
    ControlWeights.weights ws = Some (rev half_powers_lora).
Proof.
  destruct (proj1 (@controllora_universal_weights scalar_torch exact_libm
                     (ControlWeights.universal 0.5 true) half_powers_lora))
    as (ws & Hws & _ & Hweights & _).
  - repeat constructor.
  - exists ws. split; assumption.
Defined.

(** The exponent of the weight at a position of the T2I profile. *)
Definition t2i_exponent (position : Z) : Z :=
  match position / 3 with
  | 0 => 7
  | 1 => 2
  | 2 => 1
  | _ => 0
  end.

(** X9. [get_universal_weights] of the T2I adapter class computes the
    eight powers [m ** float(7 - i)] and keeps four of them: when each
    power has a value, the profile is of type [t2iadapter] and holds twelve
    weights, [m ** 7.0], [m ** 2.0], [m ** 1.0] and [m ** 0.0], three times
    each, in this order or, when the profile is flipped, in the reverse
    order. *)
Theorem t2i_universal_weights `{Torch} `{Libm}
    (w : ControlWeights.t) (raw : list float) :
  Forall2
    (fun i y =>
       float_pow (ControlWeights.base_multiplier w) (float_of_int (7 - i))
       = Py.Ok y)
    (Py.range 8) raw ->
  exists ws,
    AdvancedControlBase.get_universal_weights Variant.T2IAdapterAdvanced w
    = Py.Ok ws /\
    ControlWeights.weight_type ws = ControlWeightType.T2IADAPTER /\
    (forall i, 0 <= i < 12 ->
       ControlWeights.get ws i
       = float_pow (ControlWeights.base_multiplier w)
           (float_of_int
              (t2i_exponent (if ControlWeights.flip_weights w then 11 - i else i)))) /\
    (forall i, 12 <= i -> ControlWeights.get ws i = Py.Raise Py.IndexError).
Proof.
  intros Hraw.
  pose proof (proj1 (UniversalFacts.raw_universal_weights_spec _ 7 raw Hraw))
    as Hlist.
  do 8 (apply Forall2_cons_inv_l in Hraw as (? & ? & ? & Hraw & ->)).
  apply Forall2_nil_inv_l in Hraw as ->.
  eexists. split; [|split; [|split]].
  - unfold AdvancedControlBase.get_universal_weights. rewrite Hlist. reflexivity.
  - reflexivity.
  - intros i Hi.
    assert (i = 0 \/ i = 1 \/ i = 2 \/ i = 3 \/ i = 4 \/ i = 5 \/ i = 6 \/
            i = 7 \/ i = 8 \/ i = 9 \/ i = 10 \/ i = 11) as Hcases by lia.
    unfold ControlWeights.get. simpl.
    destruct (ControlWeights.flip_weights w);
      repeat (destruct Hcases as [->|Hcases]); try subst i;
      symmetry; assumption.
  - intros i Hi. unfold ControlWeights.get. simpl.
    destruct (ControlWeights.flip_weights w); simpl;
      apply PyFacts.getitem_outside; right; unfold Py.len; simpl; lia.
Qed.

(** [0.5 ** 7], ..., [0.5 ** 0]. *)
Definition half_powers_t2i : list float :=
  [0.0078125; 0.015625; 0.03125; 0.0625; 0.125; 0.25; 0.5; 1]%float.

Lemma t2i_universal_weights_witness :
  exists ws,
    @AdvancedControlBase.get_universal_weights scalar_torch exact_libm
      Variant.T2IAdapterAdvanced (ControlWeights.universal 0.5 false)
    = Py.Ok ws /\
    ControlWeights.get ws 3 = Py.Ok 0.25%float.
Proof.
  destruct (@t2i_universal_weights scalar_torch exact_libm
              (ControlWeights.universal 0.5 false) half_powers_t2i)
    as (ws & Hws & _ & Hget & _).
  - repeat constructor.
  - exists ws. split; [exact Hws|]. rewrite (Hget 3) by lia. reflexivity.
Defined.

Module PrepareFacts.
Section WithTorch.
Context `{Torch} `{Libm}.

Import AdvancedControlBase.

(** Assigning to [weights] the value it has changes nothing. *)
Lemma set_weights_same (self : state) :
  set_weights (weights self) self = self.
Proof. destruct self; reflexivity. Qed.

(** The type of the profile each class expands a universal one to. *)
Lemma get_universal_weights_type (v : Variant.t) (w0 w : ControlWeights.t) :
  get_universal_weights v w0 = Py.Ok w ->
  match v with
  | Variant.ControlNetAdvanced =>
      ControlWeights.weight_type w = ControlWeightType.CONTROLNET
  | Variant.T2IAdapterAdvanced =>
      ControlWeights.weight_type w = ControlWeightType.T2IADAPTER
  | Variant.ControlLoraAdvanced =>
      ControlWeights.weight_type w = ControlWeightType.CONTROLLORA
  | Variant.ControlLLLiteAdvanced => w = w0
  end.
Proof.
  unfold get_universal_weights.
  destruct v;
    repeat match goal with
           | |- context [Py.bind ?m _] => destruct m; simpl; try discriminate
           end;
    intros [= <-]; reflexivity.
Qed.

Lemma prepare_weights_cases (self : state) :
  prepare_weights self
  = match weights self with
    | None => Py.Ok (set_weights (Some (weights_default self)) self)
    | Some w0 =>
        match ControlWeights.weight_type w0 with
        | ControlWeightType.DEFAULT =>
            Py.Ok (set_weights (Some (weights_default self)) self)
        | ControlWeightType.UNIVERSAL =>
            do w' <- get_universal_weights (variant self) w0;
            Py.Ok (set_weights (Some w') self)
        | _ => Py.Ok self
        end
    end.
Proof.
  unfold prepare_weights. destruct (weights self) as [w0|]; [|reflexivity].
  destruct (ControlWeights.weight_type w0); reflexivity.
Qed.

(** A profile that a call of [prepare_weights] leaves as it is. *)
Lemma prepare_weights_set (self : state) (w : ControlWeights.t) :
  (ControlWeights.weight_type w = ControlWeightType.DEFAULT ->
   w = weights_default self) ->
  (ControlWeights.weight_type w = ControlWeightType.UNIVERSAL ->
   get_universal_weights (variant self) w = Py.Ok w) ->
  prepare_weights (set_weights (Some w) self)
  = Py.Ok (set_weights (Some w) self).
Proof.
  intros Hd Hu. rewrite prepare_weights_cases. cbn.
  destruct (ControlWeights.weight_type w); try reflexivity.
  - now rewrite <- Hd.
  - now rewrite Hu.
Qed.

End WithTorch.
End PrepareFacts.

(** X10. When [prepare_weights] returns, the node has a profile, not
    [None], and no other attribute has changed; a profile that is neither
    of type [default] nor of type [universal] is the one the node had. A
    second call then changes nothing, unless the default profile of the
    node is itself of type [universal]. *)
Theorem prepare_weights_leaves_a_profile `{Torch} `{Libm}
    (self self' : AdvancedControlBase.state) :
  AdvancedControlBase.prepare_weights self = Py.Ok self' ->
  (exists w,
     AdvancedControlBase.weights self' = Some w /\
     self' = AdvancedControlBase.set_weights (Some w) self) /\
  (forall w0,
     AdvancedControlBase.weights self = Some w0 ->
     ControlWeights.weight_type w0 <> ControlWeightType.DEFAULT ->
     ControlWeights.weight_type w0 <> ControlWeightType.UNIVERSAL ->
     self' = self) /\
  (ControlWeights.weight_type (AdvancedControlBase.weights_default self)
   <> ControlWeightType.UNIVERSAL ->
   AdvancedControlBase.prepare_weights self' = Py.Ok self').
Proof.
  rewrite PrepareFacts.prepare_weights_cases.
  destruct (AdvancedControlBase.weights self) as [w0|] eqn:Hw.
  - destruct (ControlWeights.weight_type w0) eqn:Hty.
    1: { intros [= <-]. split; [eexists; split; reflexivity|].
         split; [intros w1 [= <-]; congruence|].
         intros Hdef. apply PrepareFacts.prepare_weights_set; congruence. }
    1: { destruct (AdvancedControlBase.get_universal_weights _ w0) as [w|] eqn:Hu;
           simpl; [|discriminate].
         intros [= <-]. split; [eexists; split; reflexivity|].
         split; [intros w1 [= <-]; congruence|].
         intros Hdef.
         pose proof (PrepareFacts.get_universal_weights_type _ _ _ Hu) as Hw'.
         apply PrepareFacts.prepare_weights_set;
           destruct (AdvancedControlBase.variant self); congruence. }
    all: intros [= <-]; split; [|split; [reflexivity|]].
    all: try (exists w0; split; [assumption|];
              rewrite <- Hw; symmetry; apply PrepareFacts.set_weights_same).
    all: intros Hdef; rewrite PrepareFacts.prepare_weights_cases, Hw, Hty;
      reflexivity.
  - intros [= <-]. split; [eexists; split; reflexivity|].
    split; [discriminate|].
    intros Hdef. apply PrepareFacts.prepare_weights_set; congruence.
Qed.

Lemma prepare_weights_leaves_a_profile_witness :
  @AdvancedControlBase.prepare_weights scalar_torch exact_libm
    (AdvancedControlBase.set_weights (Some (ControlWeights.controlnet None false))
       (SchedulerExamples.controlnet_node SchedulerExamples.two_keyframes))
  = Py.Ok
      (AdvancedControlBase.set_weights
         (Some (ControlWeights.controlnet None false))
         (SchedulerExamples.controlnet_node SchedulerExamples.two_keyframes)).
Proof.
  apply (@prepare_weights_leaves_a_profile scalar_torch exact_libm
           (SchedulerExamples.controlnet_node SchedulerExamples.two_keyframes)).
  - reflexivity.
  - discriminate.
Defined.

(** ** The cursor on the timeline *)

(** The attributes [prepare_current_timestep] does not assign to. *)
Definition settings `{Torch} (self : AdvancedControlBase.state) :=
  (AdvancedControlBase.variant self,
   AdvancedControlBase.strength self,
   AdvancedControlBase.global_average_pooling self,
   AdvancedControlBase.mask_cond_hint_original self,
   AdvancedControlBase.mask_cond_hint self,
   AdvancedControlBase.tk_mask_cond_hint self,
   AdvancedControlBase.weight_mask_cond_hint self,
   AdvancedControlBase.sub_idxs self,
   AdvancedControlBase.full_latent_length self,
   AdvancedControlBase.context_length self,
   AdvancedControlBase.weights_default self,
   AdvancedControlBase.weights_override self,
   AdvancedControlBase.latent_keyframe_override self,
   AdvancedControlBase.timestep_keyframes self,
   AdvancedControlBase.next_timestep_keyframe self).

(** The current keyframe is the one at the current index, and there is
    none when the index is [-1]. *)
Definition cursor_consistent `{Torch} (self : AdvancedControlBase.state)
  : Prop :=
  match AdvancedControlBase.current_timestep_keyframe self with
  | None => AdvancedControlBase.current_timestep_index self = -1
  | Some tk =>
      0 <= AdvancedControlBase.current_timestep_index self /\
      AdvancedControlBase.timestep_keyframes self
        !! Z.to_nat (AdvancedControlBase.current_timestep_index self) = Some tk
  end.

(** Two lookups of the same entry. *)
Ltac same_entry H1 H2 :=
  let Heq := fresh in
  pose proof (eq_trans (eq_sym H1) H2) as Heq; injection Heq as <-.

Module CursorFacts.
Section WithTorch.
Context `{Torch} `{Libm}.

Import AdvancedControlBase.

Abbreviation qualifies curr_t tk :=
  ((curr_t <=? TimestepKeyframe.start_t tk)%float).

Lemma getitem_lookup {A : Type} (l : list A) (i : Z) (a : A) :
  0 <= i -> Py.getitem l i = Py.Ok a -> l !! Z.to_nat i = Some a.
Proof.
  intros Hi. unfold Py.getitem.
  destruct (Z_lt_le_dec i (Py.len l)) as [Hlt|Hge].
  - rewrite PyFacts.position_inside by lia.
    destruct (l !! Z.to_nat i); congruence.
  - rewrite PyFacts.position_outside by (pose proof (PyFacts.len_nonneg l); lia).
    discriminate.
Qed.

Lemma lookup_getitem {A : Type} (l : list A) (i : Z) (a : A) :
  0 <= i -> l !! Z.to_nat i = Some a -> Py.getitem l i = Py.Ok a.
Proof.
  intros Hi Ha. replace i with (Z.of_nat (Z.to_nat i)) by lia.
  now apply PyFacts.getitem_nat.
Qed.

Lemma range_from_nil (a b : Z) : b <= a -> Py.range_from a b = [].
Proof.
  intros Hab. unfold Py.range_from.
  replace (Z.to_nat (b - a)) with 0%nat by lia. reflexivity.
Qed.

Lemma range_from_lookup (a b : Z) (k : nat) :
  Py.range_from a b !! k
  = if decide (Z.of_nat k < b - a) then Some (a + Z.of_nat k) else None.
Proof.
  unfold Py.range_from. rewrite list_lookup_fmap.
  destruct (decide _) as [Hk|Hk].
  - rewrite lookup_seq_lt by lia. reflexivity.
  - rewrite lookup_seq_ge by lia. reflexivity.
Qed.

Lemma settings_adopt (i : Z) (tk : TimestepKeyframe.t) (self : state) :
  settings (adopt i tk self) = settings self.
Proof.
  unfold adopt.
  destruct (TimestepKeyframe.has_control_weights tk),
    (TimestepKeyframe.has_latent_keyframes tk),
    (TimestepKeyframe.has_mask_hint tk),
    (TimestepKeyframe.inherit_missing tk); reflexivity.
Qed.

Lemma adopt_t (i : Z) (tk : TimestepKeyframe.t) (self : state) :
  t (adopt i tk self) = t self /\
  batched_number (adopt i tk self) = batched_number self.
Proof.
  unfold adopt.
  destruct (TimestepKeyframe.has_control_weights tk),
    (TimestepKeyframe.has_latent_keyframes tk),
    (TimestepKeyframe.has_mask_hint tk),
    (TimestepKeyframe.inherit_missing tk); split; reflexivity.
Qed.

(** What the scan leaves. Either nothing was adopted: the state is as it
    was, and the first keyframe to visit, if any, does not qualify. Or the
    indices split into those passed over, the one the cursor is left on
    and those not visited: the keyframes passed over qualify and are not
    guaranteed, the last one qualifies, and the scan stopped there because
    it is guaranteed, or because the next one does not qualify, or at the
    end. *)
Lemma scan_spec (curr_t : float) (indices : list Z) (self self' : state) :
  scan curr_t indices self = Py.Ok self' ->
  settings self' = settings self /\
  t self' = t self /\ batched_number self' = batched_number self /\
  ((self' = self /\
    match indices with
    | [] => True
    | i :: _ =>
        exists tk, Py.getitem (timestep_keyframes self) i = Py.Ok tk /\
                   qualifies curr_t tk = false
    end) \/
   exists passed i_last stop tk_last,
     indices = passed ++ i_last :: stop /\
     current_timestep_index self' = i_last /\
     current_timestep_keyframe self' = Some tk_last /\
     Py.getitem (timestep_keyframes self) i_last = Py.Ok tk_last /\
     qualifies curr_t tk_last = true /\
     Forall
       (fun i => exists tk,
                   Py.getitem (timestep_keyframes self) i = Py.Ok tk /\
                   qualifies curr_t tk = true /\
                   TimestepKeyframe.guarantee_usage tk = false) passed /\
     (TimestepKeyframe.guarantee_usage tk_last = true \/
      match stop with
      | [] => True
      | i :: _ =>
          exists tk, Py.getitem (timestep_keyframes self) i = Py.Ok tk /\
                     qualifies curr_t tk = false
      end)).
Proof.
  revert self. induction indices as [|i rest IH]; simpl; intros self Hscan.
  - injection Hscan as <-. repeat split; auto.
  - destruct (Py.getitem (timestep_keyframes self) i) as [tk|] eqn:Hget;
      simpl in Hscan; [|discriminate].
    destruct (qualifies curr_t tk) eqn:Hq.
    2: { injection Hscan as <-. repeat split; auto. left. split; eauto. }
    pose proof (settings_adopt i tk self) as Hset.
    pose proof (adopt_t i tk self) as [Ht Hb].
    pose proof (TimestepFacts.adopt_index i tk self) as [Hidx Hcur].
    pose proof (TimestepFacts.adopt_timestep_keyframes i tk self) as Htks.
    destruct (TimestepKeyframe.guarantee_usage tk) eqn:Hg.
    + injection Hscan as <-. repeat split; auto.
      right. exists [], i, rest, tk. repeat split; auto.
    + apply IH in Hscan as (Hset' & Ht' & Hb' & Hcases).
      split; [congruence|]. split; [congruence|]. split; [congruence|].
      right. destruct Hcases as [[-> Hnext]|Hcases].
      * exists [], i, rest, tk. repeat split; auto.
        right. now rewrite Htks in Hnext.
      * destruct Hcases
          as (passed & i_last & stop & tk_last & -> & Hi & Hk & Hgl & Hql &
              Hpassed & Hstop).
        rewrite Htks in Hgl, Hpassed, Hstop.
        exists (i :: passed), i_last, stop, tk_last. repeat split; auto.
        constructor; eauto.
Qed.

(** The state the scan starts from, and the scan when there is a next
    index. *)
Definition started (t : list float) (batched_number : Z) (self : state) : state :=
  set_batched_number (Some batched_number) (set_t (Some t) self).

Definition scanned_from (curr_t : float) (self : state) : Py.result state :=
  if TimestepKeyframeGroup.has_index (timestep_keyframes self)
       (current_timestep_index self + 1)
  then scan curr_t
         (Py.range_from (current_timestep_index self + 1)
            (Py.len (timestep_keyframes self)))
         self
  else Py.Ok self.

Lemma length_range_from (a b : Z) :
  Z.of_nat (length (Py.range_from a b)) = Z.max 0 (b - a).
Proof. unfold Py.range_from. rewrite length_map, length_seq. lia. Qed.

(** [scan_spec] over the indices after the cursor. *)
Lemma scanned_from_spec (curr_t : float) (self scanned : state) :
  -1 <= current_timestep_index self ->
  scanned_from curr_t self = Py.Ok scanned ->
  settings scanned = settings self /\
  t scanned = t self /\ batched_number scanned = batched_number self /\
  ((scanned = self) \/
   (current_timestep_index self < current_timestep_index scanned /\
    exists tk_last,
      current_timestep_keyframe scanned = Some tk_last /\
      timestep_keyframes self !! Z.to_nat (current_timestep_index scanned)
      = Some tk_last /\
      qualifies curr_t tk_last = true)) /\
  (forall (k : nat) (tk : TimestepKeyframe.t),
     current_timestep_index self < Z.of_nat k < current_timestep_index scanned ->
     timestep_keyframes self !! k = Some tk ->
     qualifies curr_t tk = true /\ TimestepKeyframe.guarantee_usage tk = false) /\
  (forall tk : TimestepKeyframe.t,
     timestep_keyframes self !! Z.to_nat (current_timestep_index scanned + 1)
     = Some tk ->
     qualifies curr_t tk = false \/
     (current_timestep_index self < current_timestep_index scanned /\
      exists cur,
        current_timestep_keyframe scanned = Some cur /\
        TimestepKeyframe.guarantee_usage cur = true)).
Proof.
  intros Hlow. unfold scanned_from, TimestepKeyframeGroup.has_index,
    KeyframeList.has_index.
  set (i0 := current_timestep_index self) in *.
  set (n := Py.len (timestep_keyframes self)).
  destruct (_ && _) eqn:Hhas.
  2: { intros [= <-]. do 3 (split; [reflexivity|]). split; [now left|]. split.
       - intros k tk Hk. lia.
       - intros tk Htk. apply lookup_lt_Some in Htk.
         apply andb_false_iff in Hhas as [Hh%Z.leb_gt|Hh%Z.ltb_ge];
           unfold n, Py.len in Hh; lia. }
  apply andb_true_iff in Hhas as [_ Hhi%Z.ltb_lt].
  intros (Hset & Ht & Hb & Hcases)%scan_spec.
  split; [assumption|]. split; [assumption|]. split; [assumption|].
  destruct Hcases as [[-> Hnext]|Hcases].
  - split; [now left|]. split.
    + intros k tk Hk. fold i0 in Hk. lia.
    + intros tk Htk. fold i0 in Htk. left.
      rewrite TimestepFacts.range_from_cons in Hnext by assumption.
      destruct Hnext as (tk' & Hget & Hq).
      apply getitem_lookup in Hget; [|lia].
      same_entry Htk Hget. exact Hq.
  - destruct Hcases
      as (passed & i_last & stop & tk_last & Hsplit & Hi & Hcur & Hgl & Hql &
          Hpassed & Hstop).
    rewrite Hi.
    assert (forall k : nat,
              Py.range_from (i0 + 1) n !! k
              = (passed ++ i_last :: stop) !! k) as Hlook
      by (intros k; now rewrite Hsplit).
    assert (i_last = i0 + 1 + Z.of_nat (length passed)) as Hlast.
    { specialize (Hlook (length passed)).
      rewrite list_lookup_middle, range_from_lookup in Hlook by reflexivity.
      destruct (decide _); congruence. }
    assert (Z.of_nat (length passed) + 1 + Z.of_nat (length stop) = n - (i0 + 1))
      as Hlen.
    { pose proof (length_range_from (i0 + 1) n) as Hl.
      rewrite Hsplit, length_app in Hl. simpl in Hl. lia. }
    split; [|split].
    + right. split; [lia|]. exists tk_last. repeat split; auto.
      apply getitem_lookup; [lia|assumption].
    + intros k tk Hk Htk.
      assert (passed !! (k - Z.to_nat (i0 + 1))%nat = Some (Z.of_nat k)) as Hpk.
      { specialize (Hlook (k - Z.to_nat (i0 + 1))%nat).
        rewrite lookup_app_l, range_from_lookup in Hlook by lia.
        destruct (decide _); [|lia]. rewrite <- Hlook. f_equal. lia. }
      rewrite Forall_forall in Hpassed.
      destruct (Hpassed _ (list_elem_of_lookup_2 _ _ _ Hpk))
        as (tk' & Hget & Hq & Hg).
      apply getitem_lookup in Hget; [|lia].
      rewrite Nat2Z.id in Hget. same_entry Htk Hget. now split.
    + intros tk Htk. pose proof (lookup_lt_Some _ _ _ Htk) as Hlt.
      destruct stop as [|i stop];
        [unfold n, Py.len in Hlen; simpl in Hlen; lia|].
      destruct Hstop as [Hg|(tk' & Hget & Hq)].
      * right. split; [lia|]. eauto.
      * left.
        assert (i = i_last + 1) as ->.
        { specialize (Hlook (S (length passed))).
          rewrite range_from_lookup in Hlook.
          replace (passed ++ i_last :: i :: stop)
            with ((passed ++ [i_last]) ++ i :: stop) in Hlook
            by now rewrite <- app_assoc.
          rewrite list_lookup_middle in Hlook
            by (rewrite length_app; simpl; lia).
          destruct (decide _); [|discriminate].
          injection Hlook as <-. lia. }
        apply getitem_lookup in Hget; [|lia].
        same_entry Htk Hget. exact Hq.
Qed.

Lemma sorted_lookup {A : Type} (R : A -> A -> Prop) (l : list A)
    (i j : nat) (a b : A) :
  StronglySorted R l -> (i < j)%nat ->
  l !! i = Some a -> l !! j = Some b -> R a b.
Proof.
  intros Hs. revert i j. induction Hs as [|x l Hs IH Hall]; intros i j Hij Ha Hb.
  - discriminate.
  - destruct j as [|j]; [lia|]. destruct i as [|i]; simpl in Ha, Hb.
    + injection Ha as <-. rewrite Forall_forall in Hall.
      apply Hall. eapply list_elem_of_lookup_2. exact Hb.
    + apply (IH i j); auto with lia.
Qed.

Lemma prepare_steps (ts : list float) (batched : Z) (curr_t : float)
    (self self' : state) :
  Py.getitem ts 0 = Py.Ok curr_t ->
  prepare_current_timestep ts batched self = Py.Ok self' ->
  exists scanned,
    scanned_from curr_t (started ts batched self) = Py.Ok scanned /\
    prepare_weights
      (if negb (current_timestep_index self =? current_timestep_index scanned)
       then apply_overrides scanned else scanned) = Py.Ok self'.
Proof.
  intros Ht. unfold prepare_current_timestep. rewrite Ht. simpl.
  change (if TimestepKeyframeGroup.has_index (timestep_keyframes self)
               (current_timestep_index self + 1)
          then _ else _)
    with (scanned_from curr_t (started ts batched self)).
  destruct (scanned_from _ _) as [scanned|]; simpl; [eauto|discriminate].
Qed.

Lemma prepare_returns_on_t (ts : list float) (batched : Z) (self self' : state) :
  prepare_current_timestep ts batched self = Py.Ok self' ->
  exists curr_t, Py.getitem ts 0 = Py.Ok curr_t.
Proof.
  unfold prepare_current_timestep.
  destruct (Py.getitem ts 0); simpl; [eauto|discriminate].
Qed.

Lemma apply_overrides_frame (self : state) :
  settings (apply_overrides self) = settings self /\
  t (apply_overrides self) = t self /\
  batched_number (apply_overrides self) = batched_number self /\
  current_timestep_index (apply_overrides self) = current_timestep_index self /\
  current_timestep_keyframe (apply_overrides self)
  = current_timestep_keyframe self /\
  tk_mask_cond_hint_original (apply_overrides self)
  = tk_mask_cond_hint_original self.
Proof.
  unfold apply_overrides.
  destruct (weights_override self) eqn:Hw; cbn;
    destruct (latent_keyframe_override self) eqn:Hl; cbn;
    unfold settings; cbn; rewrite ?Hw, ?Hl; repeat split; reflexivity.
Qed.

Lemma prepare_weights_frame (self self' : state) :
  prepare_weights self = Py.Ok self' ->
  exists w, self' = set_weights (Some w) self.
Proof.
  unfold prepare_weights.
  destruct (weights self) as [w0|] eqn:Hw; [|intros [= <-]; eauto].
  destruct (ControlWeightType.eqb _ _); [intros [= <-]; eauto|].
  destruct (ControlWeightType.eqb _ _).
  - destruct (get_universal_weights _ _); simpl; [|discriminate].
    intros [= <-]. eauto.
  - intros [= <-]. exists w0. rewrite <- Hw. destruct self; reflexivity.
Qed.

(** What [cleanup_advanced] keeps is among the settings. *)
Lemma cleanup_advanced_settings (self self' : state) :
  settings self' = settings self ->
  cleanup_advanced self' = cleanup_advanced self.
Proof.
  unfold settings, cleanup_advanced. intros [= -> -> -> -> _ _ _ _ _ _ -> -> -> -> _].
  reflexivity.
Qed.

Lemma settings_timeline (self self' : state) :
  settings self' = settings self ->
  timestep_keyframes self' = timestep_keyframes self.
Proof. intros Hs. exact (f_equal (fun p => snd (fst p)) Hs). Qed.

Lemma settings_started (ts : list float) (batched : Z) (self : state) :
  settings (started ts batched self) = settings self.
Proof. reflexivity. Qed.

(** The state after the scan and the overrides, from which
    [prepare_weights] makes the result. *)
Lemma prepare_spec (ts : list float) (batched : Z) (self self' : state) :
  prepare_current_timestep ts batched self = Py.Ok self' ->
  exists curr_t scanned mid w,
    Py.getitem ts 0 = Py.Ok curr_t /\
    scanned_from curr_t (started ts batched self) = Py.Ok scanned /\
    mid = (if negb (current_timestep_index self =? current_timestep_index scanned)
           then apply_overrides scanned else scanned) /\
    prepare_weights mid = Py.Ok self' /\
    self' = set_weights (Some w) mid.
Proof.
  intros Hp. destruct (prepare_returns_on_t _ _ _ _ Hp) as [curr_t Ht].
  destruct (prepare_steps _ _ _ _ _ Ht Hp) as (scanned & Hscan & Hw).
  destruct (prepare_weights_frame _ _ Hw) as [w Hself'].
  exists curr_t, scanned. eauto 10.
Qed.

End WithTorch.
End CursorFacts.

(** X11. A call of [prepare_current_timestep] that returns has stored its
    two arguments and has assigned to none of the settings: the class,
    the strength, the masks other than [tk_mask_cond_hint_original], the
    subset of indices, the default profile, the two overrides and the
    timeline are as before. [cleanup_advanced] therefore takes the node
    back to the state it takes the node before the call to. *)
Theorem prepare_current_timestep_keeps_settings `{Torch} `{Libm}
    (t : list float) (batched_number : Z) (self self' : AdvancedControlBase.state) :
  AdvancedControlBase.prepare_current_timestep t batched_number self
  = Py.Ok self' ->
  settings self' = settings self /\
  AdvancedControlBase.t self' = Some t /\
  AdvancedControlBase.batched_number self' = Some batched_number /\
  AdvancedControlBase.cleanup_advanced self'
  = AdvancedControlBase.cleanup_advanced self.
Proof.
  intros (curr_t & scanned & mid & w & Ht & Hscan & Hmid & _ & ->)
    %CursorFacts.prepare_spec.
  assert (settings scanned = settings self /\
          AdvancedControlBase.t scanned = Some t /\
          AdvancedControlBase.batched_number scanned = Some batched_number)
    as (Hset & Hts & Hbs).
  { unfold CursorFacts.scanned_from in Hscan.
    destruct (TimestepKeyframeGroup.has_index _ _).
    - apply CursorFacts.scan_spec in Hscan as (Hset & Hts & Hbs & _). auto.
    - injection Hscan as <-. auto. }
  assert (settings mid = settings self /\
          AdvancedControlBase.t mid = Some t /\
          AdvancedControlBase.batched_number mid = Some batched_number)
    as (Hset' & Hts' & Hbs').
  { subst mid. destruct (negb _); [|auto].
    destruct (CursorFacts.apply_overrides_frame scanned)
      as (-> & -> & -> & _). auto. }
  assert (settings (AdvancedControlBase.set_weights (Some w) mid) = settings self)
    as Hfinal by exact Hset'.
  split; [exact Hfinal|]. split; [exact Hts'|]. split; [exact Hbs'|].
  now apply CursorFacts.cleanup_advanced_settings.
Qed.

Lemma prepare_current_timestep_keeps_settings_witness :
  exists self',
    @AdvancedControlBase.prepare_current_timestep scalar_torch exact_libm
      [999%float] 2
      (SchedulerExamples.controlnet_node SchedulerExamples.two_keyframes)
    = Py.Ok self' /\
    AdvancedControlBase.cleanup_advanced self'
    = AdvancedControlBase.cleanup_advanced
        (SchedulerExamples.controlnet_node SchedulerExamples.two_keyframes).
Proof.
  eexists. split; [reflexivity|].
  apply (@prepare_current_timestep_keeps_settings scalar_torch exact_libm
           [999%float] 2). reflexivity.
Defined.

(** X12. The cursor stays consistent: the current keyframe is the entry of
    the timeline at the current index, or there is none and the index is
    [-1]. This holds of a new node, after [cleanup_advanced] and after
    [pre_run_advanced], and a call of [prepare_current_timestep] that
    returns keeps it. *)
Theorem cursor_stays_consistent `{Torch} `{Libm} :
  (forall variant strength global_average_pooling timestep_keyframes
          weights_default,
     cursor_consistent
       (AdvancedControlBase.init variant strength global_average_pooling
          timestep_keyframes weights_default)) /\
  (forall self, cursor_consistent (AdvancedControlBase.cleanup_advanced self)) /\
  (forall percent_to_timestep_function self,
     cursor_consistent
       (AdvancedControlBase.pre_run_advanced percent_to_timestep_function self)) /\
  (forall t batched_number self self',
     cursor_consistent self ->
     AdvancedControlBase.prepare_current_timestep t batched_number self
     = Py.Ok self' ->
     cursor_consistent self').
Proof.
  split; [reflexivity|]. split; [reflexivity|]. split; [reflexivity|].
  intros t batched_number self self' Hc
    (curr_t & scanned & mid & w & Ht & Hscan & Hmid & _ & ->)
    %CursorFacts.prepare_spec.
  assert (-1 <= AdvancedControlBase.current_timestep_index self) as Hlow.
  { unfold cursor_consistent in Hc.
    destruct (AdvancedControlBase.current_timestep_keyframe self); lia. }
  apply CursorFacts.scanned_from_spec in Hscan as (Hset & _ & _ & Hcur & _);
    [|exact Hlow].
  assert (cursor_consistent scanned) as Hcs.
  { destruct Hcur as [->|(Hlt & tk & Htk & Hlook & _)]; [exact Hc|].
    unfold cursor_consistent. rewrite Htk.
    assert (AdvancedControlBase.timestep_keyframes scanned
            = AdvancedControlBase.timestep_keyframes self) as ->
      by now apply CursorFacts.settings_timeline.
    cbn in Hlt, Hlook. split; [lia|exact Hlook]. }
  assert (cursor_consistent mid) as Hcm.
  { subst mid. destruct (negb _); [|exact Hcs].
    destruct (CursorFacts.apply_overrides_frame scanned)
      as (Hs & _ & _ & Hi & Hk & _).
    unfold cursor_consistent. rewrite Hi, Hk.
    assert (AdvancedControlBase.timestep_keyframes
              (AdvancedControlBase.apply_overrides scanned)
            = AdvancedControlBase.timestep_keyframes scanned) as ->
      by now apply CursorFacts.settings_timeline.
    exact Hcs. }
  exact Hcm.
Qed.

Lemma cursor_stays_consistent_witness :
  exists self',
    @AdvancedControlBase.prepare_current_timestep scalar_torch exact_libm
      [999%float] 2
      (SchedulerExamples.controlnet_node SchedulerExamples.two_keyframes)
    = Py.Ok self' /\
    cursor_consistent self'.
Proof.
  destruct (@cursor_stays_consistent scalar_torch exact_libm)
    as (Hinit & _ & _ & Hstep).
  eexists. split; [reflexivity|].
  apply (Hstep [999%float] 2
           (SchedulerExamples.controlnet_node SchedulerExamples.two_keyframes)).
  - apply Hinit.
  - reflexivity.
Defined.

Module AdvanceFacts.
Section WithTorch.
Context `{Torch} `{Libm}.

Import AdvancedControlBase.

Abbreviation qualifies curr_t tk :=
  ((curr_t <=? TimestepKeyframe.start_t tk)%float).

(** The cursor after a call, from [scanned_from_spec]. *)
Lemma prepare_cursor_spec (ts : list float) (batched : Z) (curr_t : float)
    (self self' : state) :
  Py.getitem ts 0 = Py.Ok curr_t ->
  -1 <= current_timestep_index self ->
  prepare_current_timestep ts batched self = Py.Ok self' ->
  ((current_timestep_index self' = current_timestep_index self /\
    current_timestep_keyframe self' = current_timestep_keyframe self) \/
   (current_timestep_index self < current_timestep_index self' /\
    exists tk_last,
      current_timestep_keyframe self' = Some tk_last /\
      timestep_keyframes self !! Z.to_nat (current_timestep_index self')
      = Some tk_last /\
      qualifies curr_t tk_last = true)) /\
  (forall (k : nat) (tk : TimestepKeyframe.t),
     current_timestep_index self < Z.of_nat k < current_timestep_index self' ->
     timestep_keyframes self !! k = Some tk ->
     qualifies curr_t tk = true /\
     TimestepKeyframe.guarantee_usage tk = false) /\
  (forall tk : TimestepKeyframe.t,
     timestep_keyframes self !! Z.to_nat (current_timestep_index self' + 1)
     = Some tk ->
     qualifies curr_t tk = false \/
     (current_timestep_index self < current_timestep_index self' /\
      exists cur,
        current_timestep_keyframe self' = Some cur /\
        TimestepKeyframe.guarantee_usage cur = true)).
Proof.
  intros Ht Hlow Hp.
  destruct (CursorFacts.prepare_steps _ _ _ _ _ Ht Hp) as (scanned & Hscan & Hw).
  destruct (CursorFacts.prepare_weights_frame _ _ Hw) as [w ->].
  apply CursorFacts.scanned_from_spec in Hscan
    as (_ & _ & _ & Hcur & Hpassed & Hnext); [|exact Hlow].
  assert (current_timestep_index
            (set_weights (Some w)
               (if negb (current_timestep_index self
                         =? current_timestep_index scanned)
                then apply_overrides scanned else scanned))
          = current_timestep_index scanned /\
          current_timestep_keyframe
            (set_weights (Some w)
               (if negb (current_timestep_index self
                         =? current_timestep_index scanned)
                then apply_overrides scanned else scanned))
          = current_timestep_keyframe scanned) as [-> ->].
  { destruct (negb _); [|split; reflexivity].
    destruct (CursorFacts.apply_overrides_frame scanned)
      as (_ & _ & _ & Hi & Hk & _).
    split; assumption. }
  split; [|split; assumption].
  destruct Hcur as [->|Hadv]; [left; split; reflexivity|right; exact Hadv].
Qed.

End WithTorch.
End AdvanceFacts.

(** X13. Which keyframe a call of [prepare_current_timestep] leaves the
    cursor on, for a cursor at [-1] or above and the timestep [t[0]].
    Every keyframe from the one after the old index to the new index has
    a [start_t] at or above the timestep, and those before the new index
    are not guaranteed: no keyframe with [guarantee_usage] is passed over.
    And the cursor went as far as the rule allows: the keyframe after the
    new index, if there is one, has a [start_t] below the timestep, unless
    the cursor moved in this call to a keyframe with [guarantee_usage]. *)
Theorem guaranteed_keyframe_not_skipped `{Torch} `{Libm}
    (t : list float) (batched_number : Z) (curr_t : float)
    (self self' : AdvancedControlBase.state) :
  Py.getitem t 0 = Py.Ok curr_t ->
  -1 <= AdvancedControlBase.current_timestep_index self ->
  AdvancedControlBase.prepare_current_timestep t batched_number self
  = Py.Ok self' ->
  (forall (k : nat) (tk : TimestepKeyframe.t),
     AdvancedControlBase.current_timestep_index self < Z.of_nat k
     <= AdvancedControlBase.current_timestep_index self' ->
     AdvancedControlBase.timestep_keyframes self !! k = Some tk ->
     (curr_t <=? TimestepKeyframe.start_t tk)%float = true /\
     (Z.of_nat k < AdvancedControlBase.current_timestep_index self' ->
      TimestepKeyframe.guarantee_usage tk = false)) /\
  (forall tk : TimestepKeyframe.t,
     AdvancedControlBase.timestep_keyframes self
       !! Z.to_nat (AdvancedControlBase.current_timestep_index self' + 1)
     = Some tk ->
     (curr_t <=? TimestepKeyframe.start_t tk)%float = false \/
     (AdvancedControlBase.current_timestep_index self
      < AdvancedControlBase.current_timestep_index self' /\
      exists cur,
        AdvancedControlBase.current_timestep_keyframe self' = Some cur /\
        TimestepKeyframe.guarantee_usage cur = true)).
Proof.
  intros Ht Hlow Hp.
  destruct (AdvanceFacts.prepare_cursor_spec _ _ _ _ _ Ht Hlow Hp)
    as (Hcur & Hpassed & Hnext).
  split; [|exact Hnext].
  intros k tk Hk Htk.
  destruct (Z.eq_dec (Z.of_nat k)
              (AdvancedControlBase.current_timestep_index self')) as [Heq|Hne].
  - split; [|lia].
    destruct Hcur as [[Hsame _]|(_ & tk_last & _ & Hlook & Hq)]; [lia|].
    rewrite <- Heq, Nat2Z.id in Hlook. same_entry Htk Hlook. exact Hq.
  - destruct (Hpassed k tk) as [Hq Hg]; [lia|assumption|]. auto.
Qed.

Lemma guaranteed_keyframe_not_skipped_witness :
  exists self',
    @AdvancedControlBase.prepare_current_timestep scalar_torch exact_libm
      [999%float] 2
      (SchedulerExamples.controlnet_node SchedulerExamples.two_keyframes)
    = Py.Ok self' /\
    AdvancedControlBase.current_timestep_index self' = 0 /\
    exists cur,
      AdvancedControlBase.current_timestep_keyframe self' = Some cur /\
      TimestepKeyframe.guarantee_usage cur = true.
Proof.
  eexists. split; [reflexivity|]. split; [reflexivity|].
  destruct (@guaranteed_keyframe_not_skipped scalar_torch exact_libm
              [999%float] 2 999%float
              (SchedulerExamples.controlnet_node SchedulerExamples.two_keyframes)
              _ eq_refl ltac:(cbn; lia) eq_refl)
    as [_ Hnext].
  destruct (Hnext SchedulerExamples.second_keyframe eq_refl)
    as [Hfails|(_ & cur & Hcur & Hg)].
  - vm_compute in Hfails. discriminate.
  - exists cur. split; assumption.
Defined.

(** The values of [start_t] do not grow along the timeline. *)
Definition start_t_decreasing `{Torch} (g : TimestepKeyframeGroup.t) : Prop :=
  StronglySorted
    (fun a b =>
       (TimestepKeyframe.start_t b <=? TimestepKeyframe.start_t a)%float = true)
    g.

(** X14. On a timeline whose values of [start_t] do not grow, the scan
    loses nothing by stopping at the first keyframe below the timestep:
    after a call of [prepare_current_timestep], no keyframe beyond the
    cursor has a [start_t] at or above the timestep, unless the cursor
    moved in this call to a keyframe with [guarantee_usage]. *)
Theorem scan_break_loses_nothing `{Torch} `{Libm}
    (t : list float) (batched_number : Z) (curr_t : float)
    (self self' : AdvancedControlBase.state) :
  start_t_decreasing (AdvancedControlBase.timestep_keyframes self) ->
  Py.getitem t 0 = Py.Ok curr_t ->
  -1 <= AdvancedControlBase.current_timestep_index self ->
  AdvancedControlBase.prepare_current_timestep t batched_number self
  = Py.Ok self' ->
  forall (k : nat) (tk : TimestepKeyframe.t),
    AdvancedControlBase.current_timestep_index self' < Z.of_nat k ->
    AdvancedControlBase.timestep_keyframes self !! k = Some tk ->
    (curr_t <=? TimestepKeyframe.start_t tk)%float = true ->
    AdvancedControlBase.current_timestep_index self
    < AdvancedControlBase.current_timestep_index self' /\
    exists cur,
      AdvancedControlBase.current_timestep_keyframe self' = Some cur /\
      TimestepKeyframe.guarantee_usage cur = true.
Proof.
  intros Hsorted Ht Hlow Hp k tk Hk Htk Hq.
  destruct (AdvanceFacts.prepare_cursor_spec _ _ _ _ _ Ht Hlow Hp)
    as (Hcur & _ & Hnext).
  assert (AdvancedControlBase.current_timestep_index self
          <= AdvancedControlBase.current_timestep_index self') as Hmono
    by (destruct Hcur as [[-> _]|[Hlt _]]; lia).
  pose proof (lookup_lt_Some _ _ _ Htk) as Hlen.
  destruct (lookup_lt_is_Some_2 (AdvancedControlBase.timestep_keyframes self)
              (Z.to_nat (AdvancedControlBase.current_timestep_index self' + 1)))
    as [next Hlook]; [lia|].
  destruct (Hnext next Hlook) as [Hfails|Hg]; [|exact Hg].
  exfalso.
  destruct (Z.eq_dec (Z.of_nat k)
              (AdvancedControlBase.current_timestep_index self' + 1))
    as [Heq|Hne].
  - rewrite <- Heq, Nat2Z.id in Hlook. same_entry Htk Hlook.
    rewrite Hq in Hfails. discriminate.
  - assert ((TimestepKeyframe.start_t tk <=? TimestepKeyframe.start_t next)%float
            = true) as Hle.
    { apply (CursorFacts.sorted_lookup _ _
               (Z.to_nat (AdvancedControlBase.current_timestep_index self' + 1))
               k next tk Hsorted); [lia|assumption..]. }
    rewrite (FloatOrder.leb_trans _ _ _ Hq Hle) in Hfails. discriminate.
Qed.

Lemma scan_break_loses_nothing_witness :
  exists self',
    @AdvancedControlBase.prepare_current_timestep scalar_torch exact_libm
      [999%float] 2
      (SchedulerExamples.controlnet_node SchedulerExamples.two_keyframes)
    = Py.Ok self' /\
    exists cur,
      AdvancedControlBase.current_timestep_keyframe self' = Some cur /\
      TimestepKeyframe.guarantee_usage cur = true.
Proof.
  eexists. split; [reflexivity|].
  apply (fun Hsorted Hlow =>
           @scan_break_loses_nothing scalar_torch exact_libm
             [999%float] 2 999%float
             (SchedulerExamples.controlnet_node SchedulerExamples.two_keyframes)
             _ Hsorted eq_refl Hlow eq_refl
             1%nat SchedulerExamples.second_keyframe).
  - repeat constructor.
  - cbn. lia.
  - vm_compute. reflexivity.
  - reflexivity.
  - reflexivity.
Defined.

Module OverrideFacts.
Section WithTorch.
Context `{Torch} `{Libm}.

Import AdvancedControlBase.

Lemma settings_overrides (self self' : state) :
  settings self' = settings self ->
  weights_override self' = weights_override self /\
  latent_keyframe_override self' = latent_keyframe_override self.
Proof.
  intros Hs. split.
  - exact (f_equal (fun p => snd (fst (fst (fst p)))) Hs).
  - exact (f_equal (fun p => snd (fst (fst p))) Hs).
Qed.

Lemma scanned_settings (curr_t : float) (self scanned : state) :
  CursorFacts.scanned_from curr_t self = Py.Ok scanned ->
  settings scanned = settings self.
Proof.
  unfold CursorFacts.scanned_from.
  destruct (TimestepKeyframeGroup.has_index _ _).
  - now intros (Hset & _)%CursorFacts.scan_spec.
  - now intros [= <-].
Qed.

(** A scan that leaves the index where it was has adopted nothing. *)
Lemma scanned_same_index (curr_t : float) (self scanned : state) :
  CursorFacts.scanned_from curr_t self = Py.Ok scanned ->
  current_timestep_index scanned = current_timestep_index self ->
  scanned = self.
Proof.
  intros Hscan Hidx.
  destruct (Z_lt_le_dec (current_timestep_index self) (-1)) as [Hlow|Hlow].
  - unfold CursorFacts.scanned_from, TimestepKeyframeGroup.has_index,
      KeyframeList.has_index in Hscan.
    destruct (Z.leb_spec 0 (current_timestep_index self + 1)); [lia|].
    simpl in Hscan. now injection Hscan.
  - apply CursorFacts.scanned_from_spec in Hscan
      as (_ & _ & _ & [->|[Hlt _]] & _); [reflexivity|lia|exact Hlow].
Qed.

Lemma apply_overrides_values (self : state) :
  (forall g, latent_keyframe_override self = Some g ->
             latent_keyframes (apply_overrides self) = Some g) /\
  (forall w, weights_override self = Some w ->
             weights (apply_overrides self) = Some w).
Proof.
  unfold apply_overrides.
  destruct (weights_override self) as [w|] eqn:Hw; cbn;
    destruct (latent_keyframe_override self) as [g|] eqn:Hg; cbn;
    split; intros ? [= <-]; reflexivity.
Qed.

End WithTorch.
End OverrideFacts.

(** X15. When a call of [prepare_current_timestep] moves the cursor, the
    overrides of the node win over what the keyframes carry: the latent
    keyframes after the call are [latent_keyframe_override] when it is set,
    and the weights are [weights_override] when it is set and is neither of
    type [default] nor of type [universal]. When the call leaves the
    cursor where it was, it adopts nothing and applies no override: the
    current keyframe, the latent keyframes and the mask of the keyframe
    are as before, and the result is [prepare_weights] of the node with
    the two arguments stored. *)
Theorem overrides_apply_when_cursor_moves `{Torch} `{Libm}
    (t : list float) (batched_number : Z) (self self' : AdvancedControlBase.state) :
  AdvancedControlBase.prepare_current_timestep t batched_number self
  = Py.Ok self' ->
  (AdvancedControlBase.current_timestep_index self'
   <> AdvancedControlBase.current_timestep_index self ->
   (forall g,
      AdvancedControlBase.latent_keyframe_override self = Some g ->
      AdvancedControlBase.latent_keyframes self' = Some g) /\
   (forall w,
      AdvancedControlBase.weights_override self = Some w ->
      ControlWeights.weight_type w <> ControlWeightType.DEFAULT ->
      ControlWeights.weight_type w <> ControlWeightType.UNIVERSAL ->
      AdvancedControlBase.weights self' = Some w)) /\
  (AdvancedControlBase.current_timestep_index self'
   = AdvancedControlBase.current_timestep_index self ->
   AdvancedControlBase.current_timestep_keyframe self'
   = AdvancedControlBase.current_timestep_keyframe self /\
   AdvancedControlBase.latent_keyframes self'
   = AdvancedControlBase.latent_keyframes self /\
   AdvancedControlBase.tk_mask_cond_hint_original self'
   = AdvancedControlBase.tk_mask_cond_hint_original self /\
   AdvancedControlBase.prepare_weights
     (AdvancedControlBase.set_batched_number (Some batched_number)
        (AdvancedControlBase.set_t (Some t) self))
   = Py.Ok self').
Proof.
  intros (curr_t & scanned & mid & w & Ht & Hscan & Hmid & Hprep & Hself')
    %CursorFacts.prepare_spec.
  assert (AdvancedControlBase.current_timestep_index self'
          = AdvancedControlBase.current_timestep_index scanned) as Hidx.
  { subst self' mid. destruct (negb _); [|reflexivity].
    apply (CursorFacts.apply_overrides_frame scanned). }
  split.
  - intros Hmoved.
    assert (mid = AdvancedControlBase.apply_overrides scanned) as ->.
    { subst mid.
      destruct (Z.eqb_spec (AdvancedControlBase.current_timestep_index self)
                  (AdvancedControlBase.current_timestep_index scanned));
        [congruence|reflexivity]. }
    destruct (OverrideFacts.settings_overrides _ _
                (OverrideFacts.scanned_settings _ _ _ Hscan)) as [How Hol].
    cbn in How, Hol.
    destruct (OverrideFacts.apply_overrides_values scanned) as [Hg Hw].
    split.
    + intros g Hover. subst self'. cbn. apply Hg. now rewrite Hol.
    + intros w0 Hover Hd Hu.
      rewrite PrepareFacts.prepare_weights_cases in Hprep.
      rewrite (Hw w0) in Hprep by now rewrite How.
      destruct (ControlWeights.weight_type w0); try congruence;
        injection Hprep as <-; apply Hw; now rewrite How.
  - intros Hsame.
    assert (scanned = CursorFacts.started t batched_number self) as ->.
    { apply (OverrideFacts.scanned_same_index curr_t); [assumption|].
      rewrite <- Hidx, Hsame. reflexivity. }
    assert (mid = CursorFacts.started t batched_number self) as ->.
    { subst mid. cbn. rewrite Z.eqb_refl. reflexivity. }
    split; [|split; [|split]].
    + subst self'. reflexivity.
    + subst self'. reflexivity.
    + subst self'. reflexivity.
    + exact Hprep.
Qed.

Module OverrideExamples.

(** [self.weights_override = w; self.latent_keyframe_override = g], as the
    code that builds a node assigns them. *)
Definition with_overrides (w : option (@ControlWeights.t scalar_torch))
    (g : option LatentKeyframeGroup.t)
    (self : @AdvancedControlBase.state scalar_torch)
  : @AdvancedControlBase.state scalar_torch :=
  {| AdvancedControlBase.variant := AdvancedControlBase.variant self;
     AdvancedControlBase.strength := AdvancedControlBase.strength self;
     AdvancedControlBase.global_average_pooling :=
       AdvancedControlBase.global_average_pooling self;
     AdvancedControlBase.mask_cond_hint_original :=
       AdvancedControlBase.mask_cond_hint_original self;
     AdvancedControlBase.mask_cond_hint := AdvancedControlBase.mask_cond_hint self;
     AdvancedControlBase.tk_mask_cond_hint_original :=
       AdvancedControlBase.tk_mask_cond_hint_original self;
     AdvancedControlBase.tk_mask_cond_hint :=
       AdvancedControlBase.tk_mask_cond_hint self;
     AdvancedControlBase.weight_mask_cond_hint :=
       AdvancedControlBase.weight_mask_cond_hint self;
     AdvancedControlBase.sub_idxs := AdvancedControlBase.sub_idxs self;
     AdvancedControlBase.full_latent_length :=
       AdvancedControlBase.full_latent_length self;
     AdvancedControlBase.context_length := AdvancedControlBase.context_length self;
     AdvancedControlBase.t := AdvancedControlBase.t self;
     AdvancedControlBase.batched_number := AdvancedControlBase.batched_number self;
     AdvancedControlBase.weights := AdvancedControlBase.weights self;
     AdvancedControlBase.weights_default :=
       AdvancedControlBase.weights_default self;
     AdvancedControlBase.weights_override := w;
     AdvancedControlBase.latent_keyframes :=
       AdvancedControlBase.latent_keyframes self;
     AdvancedControlBase.latent_keyframe_override := g;
     AdvancedControlBase.timestep_keyframes :=
       AdvancedControlBase.timestep_keyframes self;
     AdvancedControlBase.current_timestep_keyframe :=
       AdvancedControlBase.current_timestep_keyframe self;
     AdvancedControlBase.current_timestep_index :=
       AdvancedControlBase.current_timestep_index self;
     AdvancedControlBase.next_timestep_keyframe :=
       AdvancedControlBase.next_timestep_keyframe self |}.

(** A node whose second keyframe carries latent keyframes, with a latent
    override and an override of the weights. *)
Definition override_node : @AdvancedControlBase.state scalar_torch :=
  with_overrides (Some (ControlWeights.controlnet (Some [0.5; 0.25]%float) false))
    (Some [Examples.latent 1 3])
    (SchedulerExamples.controlnet_node SchedulerExamples.two_keyframes).

End OverrideExamples.

Lemma overrides_apply_when_cursor_moves_witness :
  exists self',
    @AdvancedControlBase.prepare_current_timestep scalar_torch exact_libm
      [999%float] 2 OverrideExamples.override_node
    = Py.Ok self' /\
    AdvancedControlBase.latent_keyframes self' = Some [Examples.latent 1 3] /\
    AdvancedControlBase.weights self'
    = Some (ControlWeights.controlnet (Some [0.5; 0.25]%float) false).
Proof.
  eexists. split; [reflexivity|].
  destruct (@overrides_apply_when_cursor_moves scalar_torch exact_libm
              [999%float] 2 OverrideExamples.override_node _ eq_refl)
    as [Hmoved _].
  destruct Hmoved as [Hlatent Hweights]; [vm_compute; discriminate|].
  split; [apply Hlatent|apply Hweights]; (reflexivity || discriminate).
Defined.

(** ** Layers that are absent, and layers without a weight *)

Module LayerEdgeFacts.
Section WithTorch.
Context `{Torch}.

Import AdvancedControlBase.

Lemma merge_previous_nil (prev : list (option Tensor)) :
  merge_previous [] prev = prev.
Proof. now rewrite MergeFacts.merge_previous_merged. Qed.

(** A comprehension over entries on which [f] returns. *)
Lemma comprehension_map {A B : Type} (f : A -> Py.result B) (g : A -> B)
    (xs : list A) :
  Forall (fun x => f x = Py.Ok (g x)) xs ->
  Py.comprehension f xs = Py.Ok (map g xs).
Proof.
  induction 1 as [|x xs Hx _ IH]; simpl; [reflexivity|].
  now rewrite Hx, IH.
Qed.

(** A comprehension with an entry on which [f] raises does not return. *)
Lemma comprehension_raises {A B : Type} (f : A -> Py.result B) (xs : list A)
    (i : nat) (x : A) (e : Py.exn) :
  xs !! i = Some x -> f x = Py.Raise e ->
  exists e', Py.comprehension f xs = Py.Raise e'.
Proof.
  intros Hx Hf.
  destruct (Py.comprehension f xs) as [ys|e'] eqn:Hc; [|eauto].
  apply PyLoops.comprehension_Forall2 in Hc.
  destruct (Forall2_lookup_l _ _ _ _ _ Hc Hx) as (y & _ & Hy). congruence.
Qed.

Lemma enumerate_lookup {A : Type} (l : list A) (i : nat) (a : A) :
  l !! i = Some a -> Py.enumerate l !! i = Some (i, a).
Proof.
  intros Ha. unfold Py.enumerate. now rewrite list_lookup_imap, Ha.
Qed.

Lemma enumerate_repeat_none (n : nat) :
  Forall (fun p : nat * option Tensor => p.2 = None)
    (Py.enumerate (repeat None n)).
Proof.
  apply Forall_forall. intros [i a] Hin.
  apply list_elem_of_lookup_1 in Hin as [j Hj].
  unfold Py.enumerate in Hj. rewrite list_lookup_imap in Hj.
  destruct (repeat None n !! j) as [b|] eqn:Hb; [|discriminate].
  injection Hj as <- <-.
  apply list_elem_of_lookup_2, list_elem_of_In, repeat_spec in Hb. exact Hb.
Qed.

Lemma map_const_repeat {A B : Type} (b : B) (l : list A) :
  map (fun _ => b) l = repeat b (length l).
Proof. induction l as [|a l IH]; simpl; [reflexivity|]. now rewrite IH. Qed.

(** A layer at an index the weight list does not have: the weight cannot
    be read. *)
Lemma rescale_layer_beyond_weights (self : state) (pool : bool)
    (output_dtype : DType) (i : nat) (x : Tensor)
    (w : ControlWeights.t) (ws : list float) :
  weights self = Some w -> ControlWeights.weights w = Some ws ->
  (length ws <= i)%nat ->
  exists e, rescale_layer self pool output_dtype i (Some x) = Py.Raise e.
Proof.
  intros Hw Hws Hi. unfold rescale_layer.
  destruct (apply_advanced_strengths_and_masks _ _ _); simpl; [|eauto].
  rewrite Hw. simpl. unfold ControlWeights.get. rewrite Hws.
  rewrite PyFacts.getitem_outside by (unfold Py.len; lia). simpl. eauto.
Qed.

End WithTorch.
End LayerEdgeFacts.

(** X16. Layers that are absent. Without layers of its own,
    [control_merge_inject] returns the lists of the previous result as they
    are, and three empty lists when there is none. A layer that is [None]
    stays [None]: for such layers neither the keyframe nor the weights are
    read, so the merge returns on any node, with the input layers in
    ['input'], the last output layer in ['middle'] and the others in
    ['output']. *)
Theorem absent_layers_pass_through `{Torch}
    (self : AdvancedControlBase.state) (output_dtype : DType) :
  (forall control_prev : ControlOut.t,
     AdvancedControlBase.control_merge_inject self None None (Some control_prev)
       output_dtype
     = Py.Ok control_prev) /\
  AdvancedControlBase.control_merge_inject self None None None output_dtype
  = Py.Ok {| ControlOut.input := []; ControlOut.middle := [];
             ControlOut.output := [] |} /\
  (forall n m : nat,
     AdvancedControlBase.control_merge_inject self (Some (repeat None n))
       (Some (repeat None (S m))) None output_dtype
     = Py.Ok {| ControlOut.input := repeat None n;
                ControlOut.middle := [None];
                ControlOut.output := repeat None m |}).
Proof.
  split; [|split].
  - intros [i m o]. unfold AdvancedControlBase.control_merge_inject. simpl.
    now rewrite !LayerEdgeFacts.merge_previous_nil.
  - reflexivity.
  - intros n m. unfold AdvancedControlBase.control_merge_inject.
    rewrite LayerFacts.merge_control_input_rev,
      LayerFacts.merge_control_output_split.
    rewrite (LayerEdgeFacts.comprehension_map _ (fun _ => None)
               (Py.enumerate (repeat None n))).
    2: { eapply Forall_impl; [apply LayerEdgeFacts.enumerate_repeat_none|].
         intros [i a]. simpl. now intros ->. }
    rewrite (LayerEdgeFacts.comprehension_map _ (fun _ => None)
               (Py.enumerate (repeat None (S m)))).
    2: { eapply Forall_impl; [apply LayerEdgeFacts.enumerate_repeat_none|].
         intros [i a]. simpl. now intros ->. }
    rewrite !LayerEdgeFacts.map_const_repeat. unfold Py.enumerate.
    rewrite !length_imap, !repeat_length. cbn [Py.lift Py.bind].
    rewrite WeightFacts.rev_repeat.
    replace (repeat None (S m)) with (repeat (@None Tensor) m ++ [None])
      by (rewrite <- repeat_cons; reflexivity).
    cbn [fst snd]. rewrite length_app, repeat_length. cbn [length].
    replace (m + 1 - 1)%nat with m by lia.
    rewrite drop_app_length', take_app_length' by now rewrite repeat_length.
    reflexivity.
Qed.

(** X17. A layer without a weight. When the profile of the node holds a
    list of weights and a layer that is not [None] sits at an index the
    list does not have, [control_merge_inject] does not return: the layer
    is never passed on unweighted. This holds for a layer of
    [control_input] and for a layer of [control_output]. *)
Theorem layer_beyond_weights_raises `{Torch}
    (self : AdvancedControlBase.state)
    (control_input control_output : option (list (option Tensor)))
    (control_prev : option ControlOut.t) (output_dtype : DType)
    (w : ControlWeights.t) (ws : list float)
    (layers : list (option Tensor)) (i : nat) (x : Tensor) :
  AdvancedControlBase.weights self = Some w ->
  ControlWeights.weights w = Some ws ->
  layers !! i = Some (Some x) ->
  (length ws <= i)%nat ->
  control_input = Some layers \/ control_output = Some layers ->
  exists e,
    AdvancedControlBase.control_merge_inject self control_input control_output
      control_prev output_dtype
    = Py.Raise e.
Proof.
  intros Hw Hws Hx Hi Hlayers.
  unfold AdvancedControlBase.control_merge_inject.
  assert (forall pool,
            exists e,
              Py.comprehension
                (fun p => AdvancedControlBase.rescale_layer self pool
                            output_dtype p.1 p.2)
                (Py.enumerate layers) = Py.Raise e) as Hraise.
  { intros pool.
    destruct (LayerEdgeFacts.rescale_layer_beyond_weights self pool output_dtype
                i x w ws Hw Hws Hi) as [e He].
    apply (LayerEdgeFacts.comprehension_raises _ _ i (i, Some x) e);
      [now apply LayerEdgeFacts.enumerate_lookup|exact He]. }
  destruct Hlayers as [->| ->].
  - rewrite LayerFacts.merge_control_input_rev.
    destruct (Hraise false) as [e ->]. simpl. eauto.
  - destruct (match control_input with Some _ => _ | None => _ end);
      simpl; [|eauto].
    rewrite LayerFacts.merge_control_output_split.
    destruct (Hraise (AdvancedControlBase.global_average_pooling self))
      as [e ->].
    simpl. eauto.
Qed.

Lemma layer_beyond_weights_raises_witness :
  exists e,
    AdvancedControlBase.control_merge_inject MergeExamples.unit_node None
      (Some (repeat (MergeExamples.constant 2) 14)) None tt
    = Py.Raise e.
Proof.
  apply (@layer_beyond_weights_raises scalar_torch MergeExamples.unit_node
           None (Some (repeat (MergeExamples.constant 2) 14)) None tt
           (ControlWeights.controlnet None false) (ControlWeights.ones 13)
           (repeat (MergeExamples.constant 2) 14) 13%nat [2%float]).
  - reflexivity.
  - reflexivity.
  - reflexivity.
  - simpl. lia.
  - right. reflexivity.
Defined.

(** ** The start of a run *)

Module NegationFacts.

Import FloatOrder.

Lemma rank_opp (x : spec_float) :
  rank (SFopp x) = (- (rank x).1.1, - (rank x).1.2, - (rank x).2).
Proof.
  destruct x as [[]|[]| |[] m e]; simpl; rewrite ?Z.opp_involutive; reflexivity.
Qed.

Lemma rank_cmp_opp (a b : Z * Z * Z) :
  rank_cmp (- b.1.1, - b.1.2, - b.2) (- a.1.1, - a.1.2, - a.2) = rank_cmp a b.
Proof.
  destruct a as [[a1 a2] a3], b as [[b1 b2] b3]. unfold rank_cmp. simpl.
  now rewrite !Z.compare_opp.
Qed.

Lemma opp_not_nan (x : spec_float) : x <> S754_nan -> SFopp x <> S754_nan.
Proof. destruct x; simpl; congruence. Qed.

(** Negation turns the order of floats around. *)
Lemma opp_antitone (p q : float) :
  (p <=? q)%float = true -> (- q <=? - p)%float = true.
Proof.
  intros Hle. destruct (leb_not_nan _ _ Hle) as [Hp Hq].
  apply leb_rank in Hle; auto.
  apply leb_rank; rewrite ?FloatAxioms.opp_spec; auto using opp_not_nan.
  now rewrite !rank_opp, rank_cmp_opp.
Qed.

End NegationFacts.

Module RunFacts.
Section WithTorch.
Context `{Torch} `{Libm}.

Import AdvancedControlBase.

(** A call of [prepare_current_timestep] that returns keeps the settings. *)
Lemma prepare_settings (ts : list float) (batched : Z) (self self' : state) :
  prepare_current_timestep ts batched self = Py.Ok self' ->
  settings self' = settings self.
Proof.
  intros (curr_t & scanned & mid & w & Ht & Hscan & Hmid & _ & ->)
    %CursorFacts.prepare_spec.
  apply OverrideFacts.scanned_settings in Hscan.
  change (settings (set_weights (Some w) mid)) with (settings mid).
  subst mid. destruct (negb _); [|exact Hscan].
  destruct (CursorFacts.apply_overrides_frame scanned) as [-> _]. exact Hscan.
Qed.

(** [pre_run_advanced] reads the settings only. *)
Lemma pre_run_advanced_settings (f : float -> float) (self self' : state) :
  settings self' = settings self ->
  pre_run_advanced f self' = pre_run_advanced f self.
Proof.
  unfold settings, pre_run_advanced, cleanup_advanced,
    set_timestep_keyframes_field.
  intros [= -> -> -> -> _ _ _ _ _ _ -> -> -> -> _]. reflexivity.
Qed.

Lemma settings_strength (self self' : state) :
  settings self' = settings self -> strength self' = strength self.
Proof.
  intros Hs.
  exact (f_equal
           (fun p => snd (fst (fst (fst (fst (fst (fst
                       (fst (fst (fst (fst (fst (fst (fst p))))))))))))))
           Hs).
Qed.

End WithTorch.
End RunFacts.

(** X18. [pre_run_advanced] starts a run afresh. Run twice with the same
    function it does what it does once. It forgets a step of a run: after
    a call of [prepare_current_timestep] it leaves the node as it leaves
    the node before that call. And when the timeline is sorted by
    [start_percent] and the function from percent to timestep turns the
    order of floats around, the values of [start_t] it stores do not grow
    along the timeline. *)
Theorem pre_run_advanced_starts_afresh `{Torch} `{Libm}
    (percent_to_timestep_function : float -> float)
    (self : AdvancedControlBase.state) :
  AdvancedControlBase.pre_run_advanced percent_to_timestep_function
    (AdvancedControlBase.pre_run_advanced percent_to_timestep_function self)
  = AdvancedControlBase.pre_run_advanced percent_to_timestep_function self /\
  (forall t batched_number self',
     AdvancedControlBase.prepare_current_timestep t batched_number self
     = Py.Ok self' ->
     AdvancedControlBase.pre_run_advanced percent_to_timestep_function self'
     = AdvancedControlBase.pre_run_advanced percent_to_timestep_function self) /\
  (timestep_sorted (AdvancedControlBase.timestep_keyframes self) ->
   (forall p q : float,
      (p <=? q)%float = true ->
      (percent_to_timestep_function q <=? percent_to_timestep_function p)%float
      = true) ->
   start_t_decreasing
     (AdvancedControlBase.timestep_keyframes
        (AdvancedControlBase.pre_run_advanced percent_to_timestep_function
           self))).
Proof.
  split; [|split].
  - unfold AdvancedControlBase.pre_run_advanced,
      AdvancedControlBase.cleanup_advanced,
      AdvancedControlBase.set_timestep_keyframes_field.
    cbn. f_equal. rewrite map_map. apply map_ext. reflexivity.
  - intros t batched_number self' Hp.
    apply RunFacts.pre_run_advanced_settings.
    now apply (RunFacts.prepare_settings t batched_number).
  - intros Hsorted Hf. unfold start_t_decreasing. cbn.
    unfold timestep_sorted in Hsorted.
    induction Hsorted as [|tk tks Hs IH Hall]; simpl; constructor.
    + exact IH.
    + apply Forall_map. eapply Forall_impl; [exact Hall|].
      simpl. intros tk' Hle. now apply Hf.
Qed.

Lemma pre_run_advanced_starts_afresh_witness :
  start_t_decreasing
    (AdvancedControlBase.timestep_keyframes
       (AdvancedControlBase.pre_run_advanced PrimFloat.opp
          (SchedulerExamples.controlnet_node SchedulerExamples.two_keyframes))).
Proof.
  apply (@pre_run_advanced_starts_afresh scalar_torch exact_libm).
  - repeat constructor.
  - exact NegationFacts.opp_antitone.
Defined.

(** ** A step at which no keyframe is current *)

Module UnadoptedFacts.
Section WithTorch.
Context `{Torch} `{Libm}.

Import AdvancedControlBase.

(** The first step of a run when the first keyframe does not qualify:
    nothing is adopted, and the node gets its default profile. *)
Lemma prepare_without_adoption (ts : list float) (batched : Z) (curr_t : float)
    (self : state) (first : TimestepKeyframe.t) (rest : list TimestepKeyframe.t) :
  current_timestep_index self = -1 ->
  weights self = None ->
  timestep_keyframes self = first :: rest ->
  Py.getitem ts 0 = Py.Ok curr_t ->
  (curr_t <=? TimestepKeyframe.start_t first)%float = false ->
  prepare_current_timestep ts batched self
  = Py.Ok (set_weights (Some (weights_default self))
             (CursorFacts.started ts batched self)).
Proof.
  intros Hidx Hw Htks Ht Hq.
  assert (CursorFacts.scanned_from curr_t (CursorFacts.started ts batched self)
          = Py.Ok (CursorFacts.started ts batched self)) as Hscan.
  { unfold CursorFacts.scanned_from. cbn. rewrite Hidx, Htks.
    change (TimestepKeyframeGroup.has_index (first :: rest) (-1 + 1)) with true.
    cbv iota.
    rewrite TimestepFacts.range_from_cons by (unfold Py.len; simpl length; lia).
    cbn [scan]. cbn. rewrite Htks.
    change (Py.getitem (first :: rest) (-1 + 1)) with (Py.Ok first).
    cbn [Py.bind]. now rewrite Hq. }
  unfold prepare_current_timestep. rewrite Ht. cbn [Py.bind].
  change (if TimestepKeyframeGroup.has_index _ _ then _ else _)
    with (CursorFacts.scanned_from curr_t (CursorFacts.started ts batched self)).
  rewrite Hscan. cbn [Py.bind].
  change (current_timestep_index (CursorFacts.started ts batched self))
    with (current_timestep_index self).
  rewrite Z.eqb_refl. cbn [negb].
  unfold prepare_weights.
  change (weights (CursorFacts.started ts batched self)) with (weights self).
  now rewrite Hw.
Qed.

End WithTorch.
End UnadoptedFacts.

(** X19. When the first step of a run finds the first keyframe of the
    timeline below the timestep, no keyframe is adopted, and a node whose
    strength is not [0.0] then reads the strength of a keyframe that is
    [None]: [get_control] raises [AttributeError]. *)
Theorem unadopted_keyframe_raises `{Torch} `{Libm} `{!ControlModels}
    (c : ControlChain.control) (sample : Sample) (t : list float)
    (batched_number : Z) (curr_t : float)
    (first : TimestepKeyframe.t) (rest : list TimestepKeyframe.t) :
  AdvancedControlBase.current_timestep_index (ControlChain.node c) = -1 ->
  AdvancedControlBase.current_timestep_keyframe (ControlChain.node c) = None ->
  AdvancedControlBase.weights (ControlChain.node c) = None ->
  AdvancedControlBase.timestep_keyframes (ControlChain.node c) = first :: rest ->
  Py.getitem t 0 = Py.Ok curr_t ->
  (curr_t <=? TimestepKeyframe.start_t first)%float = false ->
  (AdvancedControlBase.strength (ControlChain.node c) =? 0)%float = false ->
  ControlChain.get_control c sample t batched_number
  = Py.Raise Py.AttributeError.
Proof.
  destruct c as [self previous]. simpl.
  intros Hidx Hcur Hw Htks Ht Hq Hs.
  rewrite (UnadoptedFacts.prepare_without_adoption t batched_number curr_t self
             first rest Hidx Hw Htks Ht Hq).
  cbn [Py.bind]. unfold AdvancedControlBase.short_circuit.
  cbn [AdvancedControlBase.strength AdvancedControlBase.set_weights
       AdvancedControlBase.current_timestep_keyframe CursorFacts.started
       AdvancedControlBase.set_batched_number AdvancedControlBase.set_t].
  rewrite Hs, Hcur. reflexivity.
Qed.

Lemma unadopted_keyframe_raises_witness :
  @ControlChain.get_control scalar_torch exact_libm stub_models
    (ControlChain.Control
       (AdvancedControlBase.pre_run_advanced PrimFloat.opp
          (SchedulerExamples.controlnet_node TimestepKeyframeGroup.init))
       None)
    tt [999%float] 1
  = Py.Raise Py.AttributeError.
Proof.
  apply (@unadopted_keyframe_raises scalar_torch exact_libm stub_models
           _ tt [999%float] 1 999%float
           (AdvancedControlBase.with_start_t (- 0)%float TimestepKeyframe.default)
           []);
    reflexivity.
Defined.

(** Every node of the chain has strength [0.0], and its call of
    [prepare_current_timestep] returns. *)
Fixpoint switched_off `{Torch} `{Libm} (t : list float) (batched_number : Z)
    (c : ControlChain.control) : Prop :=
  match c with
  | ControlChain.Control self previous =>
      (AdvancedControlBase.strength self =? 0)%float = true /\
      (exists self',
         AdvancedControlBase.prepare_current_timestep t batched_number self
         = Py.Ok self') /\
      match previous with
      | Some p => switched_off t batched_number p
      | None => True
      end
  end.

(** X20. A chain all of whose nodes are switched off gives no control:
    [get_control] returns [None], however long the chain, and runs the
    sub-model of no node. *)
Theorem switched_off_chain_gives_none `{Torch} `{Libm} `{!ControlModels}
    (c : ControlChain.control) (sample : Sample) (t : list float)
    (batched_number : Z) :
  switched_off t batched_number c ->
  exists c', ControlChain.get_control c sample t batched_number
             = Py.Ok (None, c').
Proof.
  revert c. fix IH 1. intros [self previous] (Hs & [self' Hp] & Hprev).
  simpl. rewrite Hp. cbn [Py.bind].
  assert (AdvancedControlBase.short_circuit self' = Py.Ok true) as ->.
  { unfold AdvancedControlBase.short_circuit.
    rewrite (RunFacts.settings_strength _ _
               (RunFacts.prepare_settings _ _ _ _ Hp)), Hs.
    reflexivity. }
  cbn [Py.bind]. destruct previous as [p|]; [|eauto].
  destruct (IH p Hprev) as [p' ->]. simpl. eauto.
Qed.

Lemma switched_off_chain_gives_none_witness :
  exists c',
    @ControlChain.get_control scalar_torch exact_libm stub_models
      (ControlChain.Control ChainExamples.zero_node
         (Some (ControlChain.Control ChainExamples.zero_node None)))
      tt [999%float] 1
    = Py.Ok (None, c').
Proof.
  apply (@switched_off_chain_gives_none scalar_torch exact_libm stub_models).
  repeat split; eexists; reflexivity.
Defined.

(** ** Latent keyframes, masks and the strength of the keyframe *)

(** X21. [apply_advanced_strengths_and_masks] on a node without a subset
    of indices, whose latent keyframes all name a slot of the batch. The
    call returns. First, in each of the [batched_number] parts of the
    batch, every slot is multiplied by the strengths of its latent
    keyframes or, without one, by [null_latent_kf_strength], and the length
    is kept; then the two masks are applied where they are set; then the
    whole tensor is multiplied by the strength of the current keyframe
    unless that is [1.0]. *)
Theorem latent_keyframes_then_masks_then_strength `{Torch}
    (self : AdvancedControlBase.state) (tk : TimestepKeyframe.t)
    (g : LatentKeyframeGroup.t) (x : Tensor) (batched_number : Z) :
  AdvancedControlBase.sub_idxs self = None ->
  AdvancedControlBase.latent_keyframes self = Some g ->
  AdvancedControlBase.current_timestep_keyframe self = Some tk ->
  0 < batched_number ->
  Forall
    (fun kf =>
       - (Py.len x `div` batched_number) <= LatentKeyframe.batch_index kf
       < Py.len x `div` batched_number) g ->
  exists x',
    length x' = length x /\
    (forall (b j : Z) (v : Slot),
       0 <= b < batched_number ->
       0 <= j < Py.len x `div` batched_number ->
       x !! Z.to_nat (Py.len x `div` batched_number * b + j) = Some v ->
       x' !! Z.to_nat (Py.len x `div` batched_number * b + j)
       = Some (LatentFacts.scaled_slot (Py.len x `div` batched_number)
                 (TimestepKeyframe.null_latent_kf_strength tk) g j v)) /\
    AdvancedControlBase.apply_advanced_strengths_and_masks self x
      (Some batched_number)
    = Py.Ok
        (let x1 :=
           match AdvancedControlBase.mask_cond_hint self with
           | Some mask => tensor_mul_mask x' mask
           | None => x'
           end in
         let x2 :=
           match AdvancedControlBase.tk_mask_cond_hint self with
           | Some mask => tensor_mul_mask x1 mask
           | None => x1
           end in
         if (TimestepKeyframe.strength tk =? 1)%float then x2
         else tensor_scale x2 (TimestepKeyframe.strength tk)).
Proof.
  intros Hsub Hg Htk Hb Hin.
  destruct (LatentFacts.latent_keyframes_inside_batch self tk g x batched_number
              Hsub Htk Hb Hin) as (x' & Hx' & Hlen & Hslots & _).
  exists x'. split; [exact Hlen|]. split; [exact Hslots|].
  unfold AdvancedControlBase.apply_advanced_strengths_and_masks.
  rewrite Hg, Hx', Htk. cbn [Py.bind AdvancedControlBase.attribute].
  destruct (TimestepKeyframe.strength tk =? 1)%float; reflexivity.
Qed.

Lemma latent_keyframes_then_masks_then_strength_witness :
  AdvancedControlBase.apply_advanced_strengths_and_masks
    (LatentExamples.latent_node [Examples.latent 0 2; Examples.latent 2 0.5] 0)
    (LatentExamples.ones 4) (Some 1)
  = Py.Ok [2; 0; 0.5; 0]%float.
Proof.
  destruct (@latent_keyframes_then_masks_then_strength scalar_torch
              (LatentExamples.latent_node
                 [Examples.latent 0 2; Examples.latent 2 0.5] 0)
              (LatentExamples.latent_timestep
                 [Examples.latent 0 2; Examples.latent 2 0.5] 0)
              [Examples.latent 0 2; Examples.latent 2 0.5]
              (LatentExamples.ones 4) 1)
    as (x' & Hlen & Hslots & ->).
  - reflexivity.
  - vm_compute. reflexivity.
  - vm_compute. reflexivity.
  - lia.
  - repeat constructor; vm_compute; congruence.
  - destruct x' as [|x0 [|x1 [|x2 [|x3 [|x4 x']]]]]; try discriminate.
    pose proof (Hslots 0 0 1%float ltac:(lia)
                  ltac:(vm_compute; intuition congruence) eq_refl) as H0.
    pose proof (Hslots 0 1 1%float ltac:(lia)
                  ltac:(vm_compute; intuition congruence) eq_refl) as H1.
    pose proof (Hslots 0 2 1%float ltac:(lia)
                  ltac:(vm_compute; intuition congruence) eq_refl) as H2.
    pose proof (Hslots 0 3 1%float ltac:(lia)
                  ltac:(vm_compute; intuition congruence) eq_refl) as H3.
    vm_compute in H0, H1, H2, H3.
    injection H0 as ->. injection H1 as ->. injection H2 as ->.
    injection H3 as ->. reflexivity.
Defined.

(** ** A subset of the latents *)

Module SubsetFacts.
Section WithTorch.
Context `{Torch}.

Import AdvancedControlBase.

Lemma mapped_indeces_of_snoc (l : list Z) (a : Z) :
  mapped_indeces_of (l ++ [a])
  = <[a := Z.of_nat (length l)]> (mapped_indeces_of l).
Proof.
  unfold mapped_indeces_of, Py.enumerate.
  rewrite imap_app, foldl_app. simpl. now rewrite Nat.add_0_r.
Qed.

(** The dict maps an index to the last place it has in the list. *)
Lemma mapped_indeces_of_lookup (l : list Z) (a i : Z) :
  mapped_indeces_of l !! a = Some i <->
  exists n : nat,
    i = Z.of_nat n /\ l !! n = Some a /\
    forall m : nat, (n < m)%nat -> l !! m <> Some a.
Proof.
  revert i. induction l as [|x l IH] using rev_ind; intros i.
  - unfold mapped_indeces_of. simpl. rewrite lookup_empty.
    split; [discriminate|]. intros (n & _ & Hn & _). discriminate.
  - rewrite mapped_indeces_of_snoc.
    destruct (decide (x = a)) as [->|Hne].
    + rewrite lookup_insert_eq. split.
      * intros [= <-]. exists (length l). split; [reflexivity|]. split.
        -- now rewrite list_lookup_middle.
        -- intros m Hm. rewrite lookup_ge_None_2; [discriminate|].
           rewrite length_app. simpl. lia.
      * intros (n & -> & Hn & Hlast). f_equal. f_equal.
        destruct (Nat.lt_trichotomy n (length l)) as [Hlt|[->|Hgt]].
        -- exfalso. apply (Hlast (length l) Hlt).
           now rewrite list_lookup_middle.
        -- reflexivity.
        -- apply lookup_lt_Some in Hn. rewrite length_app in Hn.
           simpl in Hn. lia.
    + rewrite lookup_insert_ne by assumption. rewrite IH. split.
      * intros (n & -> & Hn & Hlast). exists n. split; [reflexivity|].
        pose proof (lookup_lt_Some _ _ _ Hn) as Hlt.
        split; [now rewrite lookup_app_l|].
        intros m Hm.
        destruct (decide (m < length l)%nat) as [Hml|Hml].
        -- rewrite lookup_app_l by assumption. now apply Hlast.
        -- destruct (decide (m = length l)) as [->|Hm'].
           ++ rewrite list_lookup_middle by reflexivity. congruence.
           ++ rewrite lookup_ge_None_2; [discriminate|].
              rewrite length_app. simpl. lia.
      * intros (n & -> & Hn & Hlast). exists n. split; [reflexivity|].
        assert (n < length l)%nat as Hlt.
        { pose proof (lookup_lt_Some _ _ _ Hn) as Hlt.
          rewrite length_app in Hlt. simpl in Hlt.
          destruct (decide (n = length l)) as [->|Hn']; [|lia].
          rewrite list_lookup_middle in Hn by reflexivity. congruence. }
        rewrite lookup_app_l in Hn by assumption.
        split; [assumption|].
        intros m Hm Hma. apply (Hlast m Hm).
        pose proof (lookup_lt_Some _ _ _ Hma).
        now rewrite lookup_app_l.
Qed.

Lemma mapped_indeces_of_member (l : list Z) (a : Z) :
  In a l -> exists i, mapped_indeces_of l !! a = Some i.
Proof.
  induction l as [|x l IH] using rev_ind; [intros []|].
  rewrite mapped_indeces_of_snoc, in_app_iff. simpl.
  destruct (decide (x = a)) as [->|Hne].
  - rewrite lookup_insert_eq. eauto.
  - rewrite lookup_insert_ne by assumption. intros [Hin|[Heq|[]]]; auto.
    congruence.
Qed.

End WithTorch.
End SubsetFacts.

(** X22. [mapped_indeces], the dict that [apply_advanced_strengths_and_masks]
    builds from [sub_idxs], maps an actual index to its place in the list;
    to the last such place when the index is in the list more than once;
    and it has no entry for an index that is not in the list. *)
Theorem mapped_indeces_give_last_place (sub_idxs : list Z) (actual i : Z) :
  AdvancedControlBase.mapped_indeces_of sub_idxs !! actual = Some i <->
  exists n : nat,
    i = Z.of_nat n /\ sub_idxs !! n = Some actual /\
    forall m : nat, (n < m)%nat -> sub_idxs !! m <> Some actual.
Proof. apply SubsetFacts.mapped_indeces_of_lookup. Qed.

(** The index a latent keyframe stands for when a subset is set: a
    negative batch index counts from the end of the full list of latents. *)
Definition subset_index `{Torch} (self : AdvancedControlBase.state)
    (keyframe : LatentKeyframe.t) : Z :=
  if LatentKeyframe.batch_index keyframe <? 0
  then LatentKeyframe.batch_index keyframe
       + AdvancedControlBase.full_latent_length self
  else LatentKeyframe.batch_index keyframe.

Module SubsetStepFacts.
Section WithTorch.
Context `{Torch}.

Import AdvancedControlBase.

Abbreviation step self count batched mapped :=
  (latent_keyframe_step self count batched (Some mapped)).

(** A turn of the loop never adds to [indeces_to_null]. *)
Lemma step_shrinks (self : state) (count batched : Z) (mapped : gmap Z Z)
    (acc acc' : Tensor * gset Z) (kf : LatentKeyframe.t) :
  step self count batched mapped acc kf = Py.Ok acc' -> acc'.2 ⊆ acc.2.
Proof.
  unfold latent_keyframe_step. cbv zeta.
  destruct (mapped !! _) as [m|]; [|intros Heq; injection Heq as <-; reflexivity].
  destruct (decide _); [|discriminate].
  destruct (scale_in_each_batch _ _ _ _ _); simpl; [|discriminate].
  intros Heq; injection Heq as <-. simpl. apply subseteq_difference_l.
  reflexivity.
Qed.

Lemma loop_shrinks (self : state) (count batched : Z) (mapped : gmap Z Z)
    (g : list LatentKeyframe.t) (acc acc' : Tensor * gset Z) :
  Py.for_each (step self count batched mapped) g acc = Py.Ok acc' ->
  acc'.2 ⊆ acc.2.
Proof.
  revert acc. induction g as [|kf g IH]; cbn [Py.for_each]; intros acc.
  - intros [= <-]. reflexivity.
  - destruct (step self count batched mapped acc kf) as [acc1|] eqn:Hstep;
      cbn [Py.bind]; [|discriminate].
    intros Hrest%IH. apply step_shrinks in Hstep.
    etransitivity; eassumption.
Qed.

(** A turn for a keyframe of the subset takes its place out of
    [indeces_to_null], and raises [KeyError] when it is not there. *)
Lemma step_removes (self : state) (count batched : Z) (mapped : gmap Z Z)
    (acc acc' : Tensor * gset Z) (kf : LatentKeyframe.t) (m : Z) :
  sub_idxs self <> None ->
  mapped !! subset_index self kf = Some m ->
  step self count batched mapped acc kf = Py.Ok acc' -> m ∉ acc'.2.
Proof.
  intros Hsub Hm. unfold latent_keyframe_step. cbv zeta.
  unfold subset_index in Hm.
  destruct (sub_idxs self) as [idxs|] eqn:Hs; [|congruence].
  rewrite Hm.
  destruct (decide _); [|discriminate].
  destruct (scale_in_each_batch _ _ _ _ _); simpl; [|discriminate].
  intros Heq; injection Heq as <-. simpl. apply not_elem_of_difference. right.
  now apply elem_of_singleton.
Qed.

Lemma step_raises (self : state) (count batched : Z) (mapped : gmap Z Z)
    (acc : Tensor * gset Z) (kf : LatentKeyframe.t) (m : Z) :
  sub_idxs self <> None ->
  mapped !! subset_index self kf = Some m -> m ∉ acc.2 ->
  step self count batched mapped acc kf = Py.Raise Py.KeyError.
Proof.
  intros Hsub Hm Hout. unfold latent_keyframe_step. cbv zeta.
  unfold subset_index in Hm.
  destruct (sub_idxs self) as [idxs|] eqn:Hs; [|congruence].
  rewrite Hm.
  destruct (decide _); [contradiction|reflexivity].
Qed.

(** The loop over a group in which two keyframes stand for the same
    index of the subset does not return. *)
Lemma loop_raises (self : state) (count batched : Z) (mapped : gmap Z Z)
    (pre mid post : list LatentKeyframe.t) (k1 k2 : LatentKeyframe.t)
    (acc : Tensor * gset Z) (m : Z) :
  sub_idxs self <> None ->
  mapped !! subset_index self k1 = Some m ->
  subset_index self k1 = subset_index self k2 ->
  exists e,
    Py.for_each (step self count batched mapped)
      (pre ++ k1 :: mid ++ k2 :: post) acc = Py.Raise e.
Proof.
  intros Hsub Hm Hsame.
  rewrite LatentFacts.for_each_app.
  destruct (Py.for_each _ pre acc) as [a1|]; cbn [Py.bind Py.for_each];
    [|eauto].
  destruct (step self count batched mapped a1 k1) as [a2|] eqn:H1;
    cbn [Py.bind]; [|eauto].
  apply (step_removes _ _ _ _ _ _ _ m Hsub Hm) in H1.
  rewrite LatentFacts.for_each_app.
  destruct (Py.for_each _ mid a2) as [a3|] eqn:Hmid;
    cbn [Py.bind Py.for_each]; [|eauto].
  apply loop_shrinks in Hmid.
  rewrite (step_raises self count batched mapped a3 k2 m Hsub);
    [cbn [Py.bind]; eauto|now rewrite <- Hsame|].
  intros Hin. apply H1, Hmid, Hin.
Qed.

End WithTorch.
End SubsetStepFacts.

(** X23. With a subset of indices set, two latent keyframes that stand
    for the same index of the subset make the call fail: the second
    removal of its place from [indeces_to_null] raises [KeyError], unless
    an earlier statement has raised. So the batch indices [-1] and
    [full_latent_length - 1], which without a subset both scale the last
    slot, are an error with one. *)
Theorem same_latent_twice_in_subset_raises `{Torch}
    (self : AdvancedControlBase.state) (first : Z) (others : list Z)
    (pre mid post : list LatentKeyframe.t) (k1 k2 : LatentKeyframe.t)
    (x : Tensor) (batched_number : option Z) :
  AdvancedControlBase.sub_idxs self = Some (first :: others) ->
  subset_index self k1 = subset_index self k2 ->
  In (subset_index self k1) (first :: others) ->
  exists e,
    AdvancedControlBase.apply_latent_keyframes self
      (pre ++ k1 :: mid ++ k2 :: post) x batched_number
    = Py.Raise e.
Proof.
  intros Hsub Hsame Hin.
  unfold AdvancedControlBase.apply_latent_keyframes.
  destruct batched_number as [b|]; simpl; [|eauto].
  destruct (b =? 0); [eauto|].
  rewrite Hsub.
  destruct (SubsetFacts.mapped_indeces_of_member _ _ Hin) as [m Hm].
  destruct (SubsetStepFacts.loop_raises self (Py.len x `div` b) b
              (AdvancedControlBase.mapped_indeces_of (first :: others))
              pre mid post k1 k2
              (x, list_to_set (Py.range_from 0 (Py.len x `div` b))) m
              ltac:(congruence) Hm Hsame) as [e ->].
  simpl. eauto.
Qed.

Module SubsetExamples.

(** [self.sub_idxs = idxs; self.full_latent_length = n], as the code that
    slides a context window over the latents assigns them. *)
Definition with_subset (idxs : option (list Z)) (n : Z)
    (self : @AdvancedControlBase.state scalar_torch)
  : @AdvancedControlBase.state scalar_torch :=
  {| AdvancedControlBase.variant := AdvancedControlBase.variant self;
     AdvancedControlBase.strength := AdvancedControlBase.strength self;
     AdvancedControlBase.global_average_pooling :=
       AdvancedControlBase.global_average_pooling self;
     AdvancedControlBase.mask_cond_hint_original :=
       AdvancedControlBase.mask_cond_hint_original self;
     AdvancedControlBase.mask_cond_hint := AdvancedControlBase.mask_cond_hint self;
     AdvancedControlBase.tk_mask_cond_hint_original :=
       AdvancedControlBase.tk_mask_cond_hint_original self;
     AdvancedControlBase.tk_mask_cond_hint :=
       AdvancedControlBase.tk_mask_cond_hint self;
     AdvancedControlBase.weight_mask_cond_hint :=
       AdvancedControlBase.weight_mask_cond_hint self;
     AdvancedControlBase.sub_idxs := idxs;
     AdvancedControlBase.full_latent_length := n;
     AdvancedControlBase.context_length := AdvancedControlBase.context_length self;
     AdvancedControlBase.t := AdvancedControlBase.t self;
     AdvancedControlBase.batched_number := AdvancedControlBase.batched_number self;
     AdvancedControlBase.weights := AdvancedControlBase.weights self;
     AdvancedControlBase.weights_default :=
       AdvancedControlBase.weights_default self;
     AdvancedControlBase.weights_override :=
       AdvancedControlBase.weights_override self;
     AdvancedControlBase.latent_keyframes :=
       AdvancedControlBase.latent_keyframes self;
     AdvancedControlBase.latent_keyframe_override :=
       AdvancedControlBase.latent_keyframe_override self;
     AdvancedControlBase.timestep_keyframes :=
       AdvancedControlBase.timestep_keyframes self;
     AdvancedControlBase.current_timestep_keyframe :=
       AdvancedControlBase.current_timestep_keyframe self;
     AdvancedControlBase.current_timestep_index :=
       AdvancedControlBase.current_timestep_index self;
     AdvancedControlBase.next_timestep_keyframe :=
       AdvancedControlBase.next_timestep_keyframe self |}.

(** Eight latents of which the window holds the last four; the keyframes
    at [-1] and at [7] both stand for the last one. *)
Definition window_node : @AdvancedControlBase.state scalar_torch :=
  with_subset (Some [4; 5; 6; 7]) 8
    (LatentExamples.latent_node [Examples.latent (-1) 2; Examples.latent 7 0.5] 0).

End SubsetExamples.

Lemma same_latent_twice_in_subset_raises_witness :
  exists e,
    AdvancedControlBase.apply_latent_keyframes SubsetExamples.window_node
      [Examples.latent (-1) 2; Examples.latent 7 0.5]
      (LatentExamples.ones 4) (Some 1)
    = Py.Raise e.
Proof.
  apply (@same_latent_twice_in_subset_raises scalar_torch
           SubsetExamples.window_node 4 [5; 6; 7] [] [] []
           (Examples.latent (-1) 2) (Examples.latent 7 0.5)
           (LatentExamples.ones 4) (Some 1)).
  - reflexivity.
  - reflexivity.
  - vm_compute. auto.
Defined.

(** ** Groups that are never empty, and lookups inside the range *)

Module EmptyFacts.
Section Generic.

Context {E K : Type} (key : E -> K) (eqb ltb : K -> K -> bool).

Lemma is_empty_length (l : list E) :
  KeyframeList.is_empty l = false <-> (0 < length l)%nat.
Proof.
  unfold KeyframeList.is_empty, Py.len.
  destruct (Z.eqb_spec (Z.of_nat (length l)) 0); split; (lia || discriminate || auto).
Qed.

Lemma add_not_empty (k : E) (l : list E) :
  KeyframeList.is_empty (KeyframeList.add key eqb ltb k l) = false.
Proof.
  apply is_empty_length. rewrite AddFacts.length_add.
  destruct (KeyframeList.contains_key key eqb (key k) l) eqn:Hc; [|lia].
  destruct l; [discriminate|simpl; lia].
Qed.

Lemma clone_not_empty (seed l : list E) :
  KeyframeList.is_empty seed = false ->
  KeyframeList.is_empty (KeyframeList.clone key eqb ltb seed l) = false.
Proof.
  unfold KeyframeList.clone. revert seed.
  induction l as [|k l IH]; simpl; intros seed Hseed; [exact Hseed|].
  apply IH, add_not_empty.
Qed.

End Generic.
End EmptyFacts.

(** X24. A group is not empty once a keyframe was added, and a timestep
    group never is: not when new, not as a clone, not as built by
    [default]. A node replaces a timeline that is [None] or empty by a new
    group, and [pre_run_advanced] keeps the length of the timeline: so the
    timeline of a node always has the index [0]. *)
Theorem timeline_is_never_empty `{Torch} :
  (forall k g, KeyframeList.is_empty (LatentKeyframeGroup.add k g) = false) /\
  (forall k g, KeyframeList.is_empty (TimestepKeyframeGroup.add k g) = false) /\
  KeyframeList.is_empty TimestepKeyframeGroup.init = false /\
  (forall g, KeyframeList.is_empty (TimestepKeyframeGroup.clone g) = false) /\
  (forall k, KeyframeList.is_empty (TimestepKeyframeGroup.default k) = false) /\
  (forall variant strength global_average_pooling timestep_keyframes
          weights_default,
     TimestepKeyframeGroup.has_index
       (AdvancedControlBase.timestep_keyframes
          (AdvancedControlBase.init variant strength global_average_pooling
             timestep_keyframes weights_default)) 0 = true) /\
  (forall percent_to_timestep_function self,
     length
       (AdvancedControlBase.timestep_keyframes
          (AdvancedControlBase.pre_run_advanced percent_to_timestep_function
             self))
     = length (AdvancedControlBase.timestep_keyframes self)).
Proof.
  split; [intros; apply EmptyFacts.add_not_empty|].
  split; [intros; apply EmptyFacts.add_not_empty|].
  split; [reflexivity|].
  split; [intros; now apply EmptyFacts.clone_not_empty|].
  split; [reflexivity|].
  split.
  - intros variant strength pooling [[|tk tks]|] weights_default; reflexivity.
  - intros f self. cbn. apply length_map.
Qed.

(** X25. Lookups inside the range. [has_index] holds exactly of the
    indices from [0] up to the length less one; for these [get_index]
    returns the entry at the index, in a latent group as in a timestep
    group; and [get_index] returns [None] for no index from minus the
    length up to the length less one. *)
Theorem get_index_inside_range `{Torch}
    (lg : LatentKeyframeGroup.t) (tg : TimestepKeyframeGroup.t) (index : Z) :
  (TimestepKeyframeGroup.has_index tg index = true <-> 0 <= index < Py.len tg) /\
  (0 <= index < Py.len tg ->
   exists e, tg !! Z.to_nat index = Some e /\
             TimestepKeyframeGroup.get_index tg index = Py.Ok (Some e)) /\
  (0 <= index < Py.len lg ->
   exists e, lg !! Z.to_nat index = Some e /\
             LatentKeyframeGroup.get_index lg index = Py.Ok (Some e)) /\
  (TimestepKeyframeGroup.get_index tg index = Py.Ok None ->
   index < - Py.len tg \/ Py.len tg <= index) /\
  (LatentKeyframeGroup.get_index lg index = Py.Ok None ->
   index < - Py.len lg \/ Py.len lg <= index).
Proof.
  assert (forall (A : Type) (l : list A) (i : Z),
            0 <= i < Py.len l ->
            exists e, l !! Z.to_nat i = Some e /\
                      KeyframeList.get_index l i = Py.Ok (Some e)) as Hin.
  { intros A l i Hi. unfold KeyframeList.get_index.
    destruct (PyFacts.getitem_position l i _ (PyFacts.position_inside _ _ Hi))
      as (e & He & ->).
    eauto. }
  assert (forall (A : Type) (l : list A) (i : Z),
            KeyframeList.get_index l i = Py.Ok None ->
            i < - Py.len l \/ Py.len l <= i) as Hnone.
  { intros A l i Hget.
    destruct (Z_lt_le_dec i (- Py.len l)) as [?|Hlow]; [auto|].
    destruct (Z_lt_le_dec i (Py.len l)) as [Hhigh|?]; [|auto].
    exfalso. destruct (Z_lt_le_dec i 0) as [Hneg|Hpos].
    - destruct (KeyframeListFacts.get_index_from_end l i ltac:(lia))
        as (e & _ & He).
      rewrite He in Hget. discriminate.
    - destruct (Hin A l i ltac:(lia)) as (e & _ & He).
      rewrite He in Hget. discriminate. }
  split; [|split; [apply Hin|split; [apply Hin|split; apply Hnone]]].
  unfold TimestepKeyframeGroup.has_index, KeyframeList.has_index.
  rewrite andb_true_iff, Z.leb_le, Z.ltb_lt. reflexivity.
Qed.

Lemma get_index_inside_range_witness :
  exists e,
    [Examples.latent 0 2; Examples.latent 2 0.5] !! 1%nat = Some e /\
    LatentKeyframeGroup.get_index [Examples.latent 0 2; Examples.latent 2 0.5] 1
    = Py.Ok (Some e).
Proof.
  destruct (@get_index_inside_range scalar_torch
              [Examples.latent 0 2; Examples.latent 2 0.5]
              TimestepKeyframeGroup.init 1)
    as (_ & _ & Hlatent & _).
  apply Hlatent. vm_compute. intuition congruence.
Defined.
